(** * releng/generate-tests: a shallow embedding of [main.go]

    The generator compiles an axis-based configuration document into
    periodic job definitions.  This development embeds the compilation
    pipeline of [src/releng/generate-tests/main.go] (job name parsing, axis
    lookup, argument layering, overrides, timeout derivation, dashboard
    assignment, emission) as executable Rocq functions and states the
    properties of the specification over them.

    Conventions:
    - a Go [string] is a sequence of bytes: Rocq's [string];
    - a Go [int] is a 64-bit signed integer: [Z] with the wrap-around
      written out ([wrap64]);
    - a Go [map[string]T] is a [gmap string T]; a lookup of a missing key
      yields the zero value of [T];
    - [log.Fatal*] and run-time panics end the process: functions that can
      reach one return an [Outcome]. *)

From Stdlib Require Import ZArith Ascii String DecimalString.
From stdpp Require Import base option list sorting strings gmap.

Local Open Scope Z_scope.

(** ** The Go standard library functions the generator calls *)

Module GoStrings.

(** [strings.HasPrefix(s, prefix)]. *)
Definition HasPrefix (s pre : string) : bool := String.prefix pre s.

(** [strings.Contains(s, substr)]. *)
Fixpoint Contains (s substr : string) : bool :=
  String.prefix substr s ||
  match s with
  | EmptyString => false
  | String _ s' => Contains s' substr
  end.

(** [strings.Split(s, sep)] for a separator of one byte (the generator
    only splits on "-" and "="): always at least one field. *)
Fixpoint Split (s : string) (sep : ascii) : list string :=
  match s with
  | EmptyString => [EmptyString]
  | String c s' =>
      if Ascii.eqb c sep then EmptyString :: Split s' sep
      else match Split s' sep with
           | f :: fs => String c f :: fs
           | [] => [String c EmptyString]
           end
  end.

(** [strings.Cut(s, sep)] for a separator of one byte: the text before
    and after the first separator, if there is one. *)
Fixpoint Cut (s : string) (sep : ascii) : option (string * string) :=
  match s with
  | EmptyString => None
  | String c s' =>
      if Ascii.eqb c sep then Some (EmptyString, s')
      else match Cut s' sep with
           | Some (a, b) => Some (String c a, b)
           | None => None
           end
  end.

(** [strings.SplitN(s, sep, 2)]: one field without separator, else the
    text before and the text after the first separator. *)
Definition SplitN2 (s : string) (sep : ascii) : list string :=
  match Cut s sep with
  | Some (a, b) => [a; b]
  | None => [s]
  end.

(** [strings.Replace(s, old, new, -1)] for a non-empty [old]: all
    non-overlapping occurrences, leftmost first.  [skip] counts the bytes
    of an occurrence already replaced that are still to be dropped. *)
Fixpoint ReplaceAll_from (skip : nat) (s old new : string) : string :=
  match s with
  | EmptyString => EmptyString
  | String c s' =>
      match skip with
      | S k => ReplaceAll_from k s' old new
      | O =>
          if String.prefix old s
          then new +:+ ReplaceAll_from (Nat.pred (String.length old)) s' old new
          else String c (ReplaceAll_from O s' old new)
      end
  end.

Definition ReplaceAll (s old new : string) : string :=
  ReplaceAll_from O s old new.

(** The UTF-8 encodings of the code points with Unicode's White_Space
    property ([unicode.IsSpace]): U+0009..U+000D, U+0020, U+0085, U+00A0,
    U+1680, U+2000..U+200A, U+2028, U+2029, U+202F, U+205F, U+3000. *)
Definition asciiSpace (c : ascii) : bool :=
  let n := N_of_ascii c in
  ((9 <=? n) && (n <=? 13) || (n =? 32))%N.

Definition spaceWidth (b0 b1 b2 : option N) : nat :=
  match b0, b1, b2 with
  | Some 0xC2%N, Some b, _ =>
      if ((b =? 0x85) || (b =? 0xA0))%N then 2 else 0
  | Some 0xE1%N, Some 0x9A%N, Some 0x80%N => 3
  | Some 0xE2%N, Some 0x80%N, Some b =>
      if ((0x80 <=? b) && (b <=? 0x8A) || (b =? 0xA8) || (b =? 0xA9)
          || (b =? 0xAF))%N then 3 else 0
  | Some 0xE2%N, Some 0x81%N, Some 0x9F%N => 3
  | Some 0xE3%N, Some 0x80%N, Some 0x80%N => 3
  | Some b, _, _ => if asciiSpace (ascii_of_N b) then 1 else 0
  | None, _, _ => 0
  end%nat.

Definition byteAt (s : string) (i : nat) : option N :=
  N_of_ascii <$> String.get i s.

(** Width in bytes of the white-space rune [s] starts with (0: none). *)
Definition leadingSpace (s : string) : nat :=
  spaceWidth (byteAt s 0) (byteAt s 1) (byteAt s 2).

Definition dropBytes (n : nat) (s : string) : string :=
  String.substring n (String.length s - n) s.

(** [strings.TrimLeftFunc(s, unicode.IsSpace)]. *)
Fixpoint TrimLeft_fuel (fuel : nat) (s : string) : string :=
  match fuel with
  | O => s
  | S fuel' =>
      match leadingSpace s with
      | O => s
      | w => TrimLeft_fuel fuel' (dropBytes w s)
      end
  end.

Definition TrimLeftSpace (s : string) : string :=
  TrimLeft_fuel (String.length s) s.

(** Width in bytes of the white-space rune [s] ends with (0: none): the
    backwards decoder finds the start byte of the last rune, so a
    white-space rune ends [s] exactly when its encoding does. *)
Definition trailingSpace (s : string) : nat :=
  let n := String.length s in
  let at_ (k : nat) := if (k <=? n)%nat then byteAt s (n - k) else None in
  match at_ 1%nat with
  | None => 0
  | Some b =>
      if (b <? 0x80)%N then spaceWidth (Some b) None None
      else match spaceWidth (at_ 2) (at_ 1) None with
           | 2 => 2
           | _ => match spaceWidth (at_ 3) (at_ 2) (at_ 1) with
                  | 3 => 3
                  | _ => 0
                  end
           end
  end%nat.

(** [strings.TrimRightFunc(s, unicode.IsSpace)]. *)
Fixpoint TrimRight_fuel (fuel : nat) (s : string) : string :=
  match fuel with
  | O => s
  | S fuel' =>
      match trailingSpace s with
      | O => s
      | w => TrimRight_fuel fuel' (String.substring 0 (String.length s - w) s)
      end
  end.

Definition TrimRightSpace (s : string) : string :=
  TrimRight_fuel (String.length s) s.

(** [strings.TrimSpace(s)]. *)
Definition TrimSpace (s : string) : string :=
  TrimRightSpace (TrimLeftSpace s).

(** [strings.Join(elems, sep)]. *)
Fixpoint Join (elems : list string) (sep : string) : string :=
  match elems with
  | [] => EmptyString
  | [e] => e
  | e :: es => e +:+ sep +:+ Join es sep
  end.

End GoStrings.

(** ** SHA-1 and hexadecimal encoding ([crypto/sha1], [encoding/hex])

    FIPS 180-4 over 32-bit words held in [Z]; every addition and rotation
    is reduced to 32 bits. *)

Module SHA1.

Definition mask32 (x : Z) : Z := Z.land x 0xFFFFFFFF.
Definition add32 (x y : Z) : Z := mask32 (x + y).
Definition rotl (n x : Z) : Z :=
  mask32 (Z.lor (Z.shiftl x n) (Z.shiftr x (32 - n))).
Definition not32 (x : Z) : Z := Z.lxor x 0xFFFFFFFF.

(** The [n] low bytes of [x], most significant first. *)
Fixpoint be_bytes (n : nat) (x : Z) : list Z :=
  match n with
  | O => []
  | S n' => Z.land (Z.shiftr x (8 * Z.of_nat n')) 0xFF :: be_bytes n' x
  end.

(** Message padding: a 1 bit, zeros, and the bit length on 64 bits, up to
    a multiple of 64 bytes. *)
Definition pad (msg : list Z) : list Z :=
  let len := Z.of_nat (length msg) in
  msg ++ [0x80] ++ replicate (Z.to_nat ((55 - len) mod 64)) 0
      ++ be_bytes 8 (8 * len).

Fixpoint words (bs : list Z) : list Z :=
  match bs with
  | b0 :: b1 :: b2 :: b3 :: rest =>
      Z.lor (Z.shiftl b0 24) (Z.lor (Z.shiftl b1 16) (Z.lor (Z.shiftl b2 8) b3))
      :: words rest
  | _ => []
  end.

Definition state : Type := Z * Z * Z * Z * Z.

Definition init : state :=
  (0x67452301, 0xEFCDAB89, 0x98BADCFE, 0x10325476, 0xC3D2E1F0).

Definition f (t : nat) (b c d : Z) : Z :=
  if (t <? 20)%nat then Z.lor (Z.land b c) (Z.land (not32 b) d)
  else if (t <? 40)%nat then Z.lxor b (Z.lxor c d)
  else if (t <? 60)%nat
       then Z.lor (Z.land b c) (Z.lor (Z.land b d) (Z.land c d))
  else Z.lxor b (Z.lxor c d).

Definition K (t : nat) : Z :=
  if (t <? 20)%nat then 0x5A827999
  else if (t <? 40)%nat then 0x6ED9EBA1
  else if (t <? 60)%nat then 0x8F1BBCDC
  else 0xCA62C1D6.

Definition round (t : nat) (w : Z) (st : state) : state :=
  let '(a, b, c, d, e) := st in
  (add32 (add32 (add32 (add32 (rotl 5 a) (f t b c d)) e) (K t)) w,
   a, rotl 30 b, c, d).

(** [n] rounds from round [t]; [w] is the window W[t..t+15] of the
    message schedule, extended by one word per round. *)
Fixpoint rounds (n t : nat) (w : list Z) (st : state) : state :=
  match n, w with
  | S n', w0 :: w' =>
      let nth_ i := nth i w 0 in
      let next := rotl 1 (Z.lxor (nth_ 13%nat)
                            (Z.lxor (nth_ 8%nat) (Z.lxor (nth_ 2%nat) w0))) in
      rounds n' (S t) (w' ++ [next]) (round t w0 st)
  | _, _ => st
  end.

Definition block (st : state) (ws : list Z) : state :=
  let '(a, b, c, d, e) := st in
  let '(a', b', c', d', e') := rounds 80 0 ws st in
  (add32 a a', add32 b b', add32 c c', add32 d d', add32 e e').

Fixpoint blocks (n : nat) (st : state) (ws : list Z) : state :=
  match n with
  | O => st
  | S n' => blocks n' (block st (take 16 ws)) (drop 16 ws)
  end.

Definition sum (msg : list Z) : state :=
  let ws := words (pad msg) in
  blocks (length ws / 16) init ws.

Definition hexdigit (x : Z) : ascii :=
  let d := Z.land x 0xF in
  ascii_of_N (Z.to_N (if d <? 10 then 48 + d else 87 + d)).

Definition hex32 (w : Z) : string :=
  String (hexdigit (Z.shiftr w 28)) (String (hexdigit (Z.shiftr w 24))
 (String (hexdigit (Z.shiftr w 20)) (String (hexdigit (Z.shiftr w 16))
 (String (hexdigit (Z.shiftr w 12)) (String (hexdigit (Z.shiftr w 8))
 (String (hexdigit (Z.shiftr w 4)) (String (hexdigit w) EmptyString))))))).

Definition hexdigest (st : state) : string :=
  let '(a, b, c, d, e) := st in
  hex32 a +:+ hex32 b +:+ hex32 c +:+ hex32 d +:+ hex32 e.

Definition bytes_of (s : string) : list Z :=
  (fun c => Z.of_N (N_of_ascii c)) <$> list_ascii_of_string s.

End SHA1.

(** ** Integers and their decimal text ([strconv], [fmt]) *)

Module GoStrconv.

Definition int_min : Z := - 2 ^ 63.
Definition int_max : Z := 2 ^ 63 - 1.

(** Arithmetic on [int] wraps around at 64 bits. *)
Definition wrap64 (z : Z) : Z := (z + 2 ^ 63) mod 2 ^ 64 - 2 ^ 63.

Definition digit (c : ascii) : option Z :=
  let n := Z.of_N (N_of_ascii c) in
  if (48 <=? n) && (n <=? 57) then Some (n - 48) else None.

Fixpoint digits (acc : Z) (s : string) : option Z :=
  match s with
  | EmptyString => Some acc
  | String c s' =>
      match digit c with
      | Some d => digits (10 * acc + d) s'
      | None => None
      end
  end.

(** The value of a decimal numeral: an optional sign and at least one
    digit, nothing else. *)
Definition decimal (s : string) : option Z :=
  match s with
  | EmptyString => None
  | String c s' =>
      if Ascii.eqb c "-" then
        match s' with EmptyString => None | _ => Z.opp <$> digits 0 s' end
      else if Ascii.eqb c "+" then
        match s' with EmptyString => None | _ => digits 0 s' end
      else digits 0 s
  end.

(** [strconv.Atoi(s)]: the value when [s] is a decimal numeral whose value
    is an [int]; [None] when Atoi returns an error. *)
Definition Atoi (s : string) : option Z :=
  match decimal s with
  | None => None
  | Some n => if (int_min <=? n) && (n <=? int_max) then Some n else None
  end.

(** [strconv.Itoa(i)], also what [fmt]'s [%v] prints for an [int]. *)
Definition Itoa (i : Z) : string := NilZero.string_of_int (Z.to_int i).

End GoStrconv.

Import GoStrings GoStrconv.

(** ** Ways out of the process

    One constructor per [log.Fatal*] call of [main.go] that compilation can
    reach, and the two run-time panics of indexing and slicing. *)

Inductive FatalError : Set :=
| ExpectedAtLeast3Fields   (* forEachJob, line 144 *)
| UnexpectedJobType        (* forEachJob, line 155 *)
| Expected7Fields          (* newE2ETest, E2ETest.generate *)
| Expected6Fields          (* newE2ENodeTest, E2ENodeTest.generate *)
| NoIntervalOrCron         (* getProwConfig, lines 355 and 453 *)
| ParsingTimeout.          (* getProwConfig, lines 365 and 463 *)

Inductive PanicError : Set :=
| IndexOutOfRange
| SliceBoundsOutOfRange.

Inductive Outcome (A : Type) : Type :=
| Ok (a : A)
| Fatal (e : FatalError)
| Panic (e : PanicError).

Arguments Ok {A} a.
Arguments Fatal {A} e.
Arguments Panic {A} e.

#[global] Instance Outcome_ret : MRet Outcome := @Ok.
#[global] Instance Outcome_bind : MBind Outcome := fun A B k m =>
  match m with
  | Ok a => k a
  | Fatal e => Fatal e
  | Panic e => Panic e
  end.

(** [l[i]]: indexing panics out of range. *)
Definition index {A} (l : list A) (i : nat) : Outcome A :=
  match l !! i with
  | Some a => Ok a
  | None => Panic IndexOutOfRange
  end.

(** [s[lo:hi]] on a string: slicing panics unless [0 <= lo <= hi <= len(s)]. *)
Definition slice (s : string) (lo hi : Z) : Outcome string :=
  if (0 <=? lo) && (lo <=? hi) && (hi <=? Z.of_nat (String.length s))
  then Ok (String.substring (Z.to_nat lo) (Z.to_nat (hi - lo)) s)
  else Panic SliceBoundsOutOfRange.

Definition len (s : string) : Z := Z.of_nat (String.length s).

(** ** Data model (the struct declarations of [main.go]) *)

Record ComputeResources := mkComputeResources {
  ComputeResources_CPU : string;
  ComputeResources_Memory : string }.

Record Resources := mkResources {
  Resources_Requests : ComputeResources;
  Resources_Limits : ComputeResources }.

Record Job := mkJob {
  Job_Scenario : string;
  Job_Interval : string;
  Job_Cron : string;
  Job_SigOwners : list string;
  Job_ReleaseBlocking : bool;
  Job_ReleaseInforming : bool;
  Job_Cluster : string;
  Job_TestgridNumFailuresToAlert : Z;
  Job_Args : list string;
  Job_Resources : Resources }.

Record Common := mkCommon {
  Common_Args : list string;
  Common_TestgridPrefix : string }.

Record CloudProvider := mkCloudProvider {
  CloudProvider_Args : list string }.

Record Image := mkImage {
  Image_Args : list string;
  Image_TestgridPrefix : string }.

Record K8SVersion := mkK8SVersion {
  K8SVersion_Args : list string;
  K8SVersion_Version : string }.

Record NodeK8SVersion := mkNodeK8SVersion {
  NodeK8SVersion_Args : list string;
  NodeK8SVersion_ProwImage : string }.

Record TestSuite := mkTestSuite {
  TestSuite_Args : list string;
  TestSuite_Resources : Resources;
  TestSuite_Cluster : string }.

Record ConfigFile := mkConfigFile {
  Jobs : gmap string Job;
  CloudProviders : gmap string CloudProvider;
  ConfigFile_Common : Common;
  Images : gmap string Image;
  K8SVersions : gmap string K8SVersion;
  TestSuites : gmap string TestSuite;
  NodeTestSuites : gmap string TestSuite;
  NodeK8SVersions : gmap string NodeK8SVersion;
  NodeImages : gmap string Image;
  NodeCommon : Common }.

Record DecorationConfig := mkDecorationConfig {
  Timeout : string }.

Record Container := mkContainer {
  Container_Command : list string;
  Container_Args : list string;
  Container_Env : string;
  Container_Image : string;
  Container_Resources : Resources }.

Record Spec := mkSpec {
  Containers : list Container }.

Record Periodic := mkPeriodic {
  Periodic_Tags : list string;
  Periodic_Interval : string;
  Periodic_Cron : string;
  Periodic_Labels : gmap string string;
  Periodic_Decorate : bool;
  Periodic_DecorationConfig : DecorationConfig;
  Periodic_Name : string;
  Periodic_Spec : Spec;
  Periodic_Cluster : string;
  Periodic_Annotations : gmap string string }.

Record ConfigurationValue := mkConfigurationValue {
  ConfigurationValue_ConfigurationValue : string }.

Record TestGroup := mkTestGroup {
  TestGroup_Name : string;
  TestGroup_GCSPrefix : string;
  TestGroup_ColumnHeader : list ConfigurationValue }.

Record ProwConfigFile := mkProwConfigFile {
  Periodics : list Periodic }.

Record TestgridConfig := mkTestgridConfig {
  TestGroups : list TestGroup }.

(** [EnvFilename] of the source ([filepath.Join(outputDir, jobName+".env")])
    is written once and never read; it is left out. *)
Record E2ETest := mkE2ETest {
  E2ETest_JobName : string;
  E2ETest_fields : list string;
  E2ETest_Job : Job;
  E2ETest_Common : Common;
  E2ETest_CloudProvider : CloudProvider;
  E2ETest_Image : Image;
  E2ETest_K8SVersion : K8SVersion;
  E2ETest_TestSuite : TestSuite }.

Record E2ENodeTest := mkE2ENodeTest {
  E2ENodeTest_JobName : string;
  E2ENodeTest_fields : list string;
  E2ENodeTest_Job : Job;
  E2ENodeTest_Common : Common;
  E2ENodeTest_Image : Image;
  E2ENodeTest_K8SVersion : NodeK8SVersion;
  E2ENodeTest_TestSuite : TestSuite }.

(** Zero values: what a declaration without initialiser and a map lookup of
    a missing key yield. *)
#[global] Instance ComputeResources_zero : Inhabited ComputeResources :=
  populate (mkComputeResources "" "").
#[global] Instance Resources_zero : Inhabited Resources :=
  populate (mkResources inhabitant inhabitant).
#[global] Instance Job_zero : Inhabited Job :=
  populate (mkJob "" "" "" [] false false "" 0 [] inhabitant).
#[global] Instance Common_zero : Inhabited Common :=
  populate (mkCommon [] "").
#[global] Instance CloudProvider_zero : Inhabited CloudProvider :=
  populate (mkCloudProvider []).
#[global] Instance Image_zero : Inhabited Image :=
  populate (mkImage [] "").
#[global] Instance K8SVersion_zero : Inhabited K8SVersion :=
  populate (mkK8SVersion [] "").
#[global] Instance NodeK8SVersion_zero : Inhabited NodeK8SVersion :=
  populate (mkNodeK8SVersion [] "").
#[global] Instance TestSuite_zero : Inhabited TestSuite :=
  populate (mkTestSuite [] inhabitant "").
#[global] Instance TestGroup_zero : Inhabited TestGroup :=
  populate (mkTestGroup "" "" []).

(** Assignments to a field of a struct value. *)
Definition Job_with_Args (j : Job) (args : list string) : Job :=
  mkJob (Job_Scenario j) (Job_Interval j) (Job_Cron j) (Job_SigOwners j)
    (Job_ReleaseBlocking j) (Job_ReleaseInforming j) (Job_Cluster j)
    (Job_TestgridNumFailuresToAlert j) args (Job_Resources j).

Definition Periodic_with_Cluster (p : Periodic) (c : string) : Periodic :=
  mkPeriodic (Periodic_Tags p) (Periodic_Interval p) (Periodic_Cron p)
    (Periodic_Labels p) (Periodic_Decorate p) (Periodic_DecorationConfig p)
    (Periodic_Name p) (Periodic_Spec p) c (Periodic_Annotations p).

Definition Periodic_with_Interval (p : Periodic) (i : string) : Periodic :=
  mkPeriodic (Periodic_Tags p) i (Periodic_Cron p)
    (Periodic_Labels p) (Periodic_Decorate p) (Periodic_DecorationConfig p)
    (Periodic_Name p) (Periodic_Spec p) (Periodic_Cluster p)
    (Periodic_Annotations p).

Definition Periodic_with_Cron (p : Periodic) (c : string) : Periodic :=
  mkPeriodic (Periodic_Tags p) (Periodic_Interval p) c
    (Periodic_Labels p) (Periodic_Decorate p) (Periodic_DecorationConfig p)
    (Periodic_Name p) (Periodic_Spec p) (Periodic_Cluster p)
    (Periodic_Annotations p).

Definition Periodic_with_Timeout (p : Periodic) (t : string) : Periodic :=
  mkPeriodic (Periodic_Tags p) (Periodic_Interval p) (Periodic_Cron p)
    (Periodic_Labels p) (Periodic_Decorate p) (mkDecorationConfig t)
    (Periodic_Name p) (Periodic_Spec p) (Periodic_Cluster p)
    (Periodic_Annotations p).

Definition Periodic_with_Spec (p : Periodic) (s : Spec) : Periodic :=
  mkPeriodic (Periodic_Tags p) (Periodic_Interval p) (Periodic_Cron p)
    (Periodic_Labels p) (Periodic_Decorate p) (Periodic_DecorationConfig p)
    (Periodic_Name p) s (Periodic_Cluster p) (Periodic_Annotations p).

Definition Periodic_with_Annotations (p : Periodic) (a : gmap string string)
  : Periodic :=
  mkPeriodic (Periodic_Tags p) (Periodic_Interval p) (Periodic_Cron p)
    (Periodic_Labels p) (Periodic_Decorate p) (Periodic_DecorationConfig p)
    (Periodic_Name p) (Periodic_Spec p) (Periodic_Cluster p) a.

Definition Container_with_Command (c : Container) (cmd : list string)
  : Container :=
  mkContainer cmd (Container_Args c) (Container_Env c) (Container_Image c)
    (Container_Resources c).

Definition Container_with_Args (c : Container) (args : list string)
  : Container :=
  mkContainer (Container_Command c) args (Container_Env c) (Container_Image c)
    (Container_Resources c).

Definition Container_with_Image (c : Container) (image : string) : Container :=
  mkContainer (Container_Command c) (Container_Args c) (Container_Env c) image
    (Container_Resources c).

Definition Container_with_Resources (c : Container) (r : Resources)
  : Container :=
  mkContainer (Container_Command c) (Container_Args c) (Container_Env c)
    (Container_Image c) r.

(** [p.Spec.Containers[0] = f(p.Spec.Containers[0])]: panics on an empty
    container list. *)
Definition update_Containers0 (f : Container -> Container) (p : Periodic)
  : Outcome Periodic :=
  match Containers (Periodic_Spec p) with
  | c :: cs => Ok (Periodic_with_Spec p (mkSpec (f c :: cs)))
  | [] => Panic IndexOutOfRange
  end.

(** ** The generator, function by function *)

Definition GCSLOGPREFIX : string := "kubernetes-jenkins/logs/".

Definition nonempty (s : string) : bool := negb (String.eqb s "").

(** The three [isEmpty] methods, as written. *)
Definition ComputeResources_isEmpty (cr : ComputeResources) : bool :=
  nonempty (ComputeResources_CPU cr) || nonempty (ComputeResources_Memory cr).

Definition Resources_isEmpty (r : Resources) : bool :=
  negb (ComputeResources_isEmpty (Resources_Limits r))
  || negb (ComputeResources_isEmpty (Resources_Requests r)).

Definition TestGroup_isEmpty (tg : TestGroup) : bool :=
  nonempty (TestGroup_Name tg) || nonempty (TestGroup_GCSPrefix tg)
  || negb (length (TestGroup_ColumnHeader tg) =? 0)%nat.

(** [applyJobOverrides], lines 164-187.  The scan for a match runs over the
    copy of the base list taken on entry, the removal over the current
    list.

    Lines 168-175: the first entry of the copy whose trimmed text is [name]
    or starts with [name] and "="; the empty string when there is none. *)
Fixpoint firstMatch (name : string) (originalEnvsOrArgs : list string)
  : string :=
  match originalEnvsOrArgs with
  | [] => EmptyString
  | val :: rest =>
      let trimVal := TrimSpace val in
      if HasPrefix trimVal (name +:+ "=") || String.eqb trimVal name
      then val
      else firstMatch name rest
  end.

(** Lines 177-182: the list without its first entry equal to [envOrArg]. *)
Fixpoint removeFirst (envOrArg : string) (envsOrArgs : list string)
  : list string :=
  match envsOrArgs with
  | [] => []
  | v :: rest =>
      if String.eqb v envOrArg then rest else v :: removeFirst envOrArg rest
  end.

(** Line 167: [strings.Split(jobEnvOrArg, "=")[0]]. *)
Definition nameOf (jobEnvOrArg : string) : string :=
  match Split jobEnvOrArg "=" with
  | name :: _ => name
  | [] => EmptyString
  end.

(** One turn of the loop of line 166. *)
Definition overrideStep (originalEnvsOrArgs envsOrArgs : list string)
    (jobEnvOrArg : string) : list string :=
  let name := nameOf jobEnvOrArg in
  let envOrArg := firstMatch name originalEnvsOrArgs in
  let envsOrArgs :=
    if nonempty envOrArg then removeFirst envOrArg envsOrArgs
    else envsOrArgs in
  envsOrArgs ++ [jobEnvOrArg].

Definition applyJobOverrides (envsOrArgs jobEnvsOrArgs : list string)
  : list string :=
  let originalEnvsOrArgs := envsOrArgs in
  fold_left (overrideStep originalEnvsOrArgs) jobEnvsOrArgs envsOrArgs.

(** Lines 189-205.  The digest in hexadecimal has 40 characters
    ([getSHA1Hash_length] below), so the slice [[:10]] is always in range. *)
Definition getSHA1Hash (data : string) : string :=
  SHA1.hexdigest (SHA1.sum (SHA1.bytes_of data)).

Definition substitute (jobName : string) (lines : list string) : list string :=
  (fun line =>
     ReplaceAll line "${job_name_hash}"
       (String.substring 0 10 (getSHA1Hash jobName))) <$> lines.

Definition getArgs (jobName : string) (args : list string) : list string :=
  substitute jobName args.

(** Lines 207-224. *)
Definition newE2ETest (outputDir jobName : string) (job : Job)
    (config : ConfigFile) : Outcome E2ETest :=
  let fields := Split jobName "-" in
  if negb (length fields =? 7)%nat then Fatal Expected7Fields else
  f3 ← index fields 3;
  f4 ← index fields 4;
  f5 ← index fields 5;
  k8s ← slice f5 3 (len f5);
  f6 ← index fields 6;
  mret {| E2ETest_JobName := jobName;
          E2ETest_fields := fields;
          E2ETest_Job := job;
          E2ETest_Common := ConfigFile_Common config;
          E2ETest_CloudProvider := CloudProviders config !!! f3;
          E2ETest_Image := Images config !!! f4;
          E2ETest_K8SVersion := K8SVersions config !!! k8s;
          E2ETest_TestSuite := TestSuites config !!! f6 |}.

(** Lines 260-270. *)
Definition E2ETest_InitializeDashBoardsWithReleaseBlockingInfo
    (et : E2ETest) (version : string) : list string :=
  let dashboards := [] in
  let dashboard := "sig-release-generated" in
  let dashboard :=
    if Job_ReleaseBlocking (E2ETest_Job et)
    then "sig-release-" +:+ version +:+ "-blocking"
    else if Job_ReleaseInforming (E2ETest_Job et)
    then "sig-release-" +:+ version +:+ "-informing"
    else dashboard in
  dashboards ++ [dashboard].

(** Lines 272-283. *)
Definition E2ETest_getJobDefinition (et : E2ETest) (args : list string) : Job :=
  let rSigOwner := Job_SigOwners (E2ETest_Job et) in
  let rSigOwner :=
    if (length rSigOwner =? 0)%nat then ["UNKOWN"] else rSigOwner in
  mkJob "kubernetes_e2e" "" "" rSigOwner false false "" 0 args inhabitant.

(** Lines 285-304. *)
Definition E2ETest_getTestGridConfig (et : E2ETest) : TestGroup :=
  {| TestGroup_Name := E2ETest_JobName et;
     TestGroup_GCSPrefix := GCSLOGPREFIX +:+ E2ETest_JobName et;
     TestGroup_ColumnHeader :=
       [mkConfigurationValue "node_os_image";
        mkConfigurationValue "master_os_image";
        mkConfigurationValue "Commit";
        mkConfigurationValue "infra-commit"] |}.

(** The composite literal that opens both [getProwConfig] methods (lines
    307-336 and 405-434). *)
Definition newPeriodic (name : string) : Periodic :=
  {| Periodic_Tags := ["generated"];
     Periodic_Interval := "";
     Periodic_Cron := "";
     Periodic_Labels :=
       <["preset-service-account" := "true"]>
         (<["preset-k8s-ssh" := "true"]> ∅);
     Periodic_Decorate := true;
     Periodic_DecorationConfig := {| Timeout := "180m" |};
     Periodic_Name := name;
     Periodic_Spec :=
       {| Containers :=
            [ {| Container_Command := [];
                 Container_Args := [];
                 Container_Env := "";
                 Container_Image :=
                   "gcr.io/k8s-staging-test-infra/kubekins-e2e:v20231206-f7b83ffbe6-master";
                 Container_Resources :=
                   {| Resources_Requests := mkComputeResources "1000m" "3Gi";
                      Resources_Limits := mkComputeResources "1000m" "3Gi" |}
              |} ] |};
     Periodic_Cluster := "";
     Periodic_Annotations := ∅ |}.

(** The loop of lines 358-369 (and 456-467): [timeout] starts at the zero
    value and is set from the first entry with the prefix, if any. *)
Fixpoint scanTimeout (args : list string) : Outcome Z :=
  match args with
  | [] => Ok 0
  | arg :: rest =>
      if HasPrefix arg "--timeout=" then
        value ← slice arg 10 (len arg - 1);
        match Atoi value with
        | Some timeout => Ok timeout
        | None => Fatal ParsingTimeout
        end
      else scanTimeout rest
  end.

(** The statements the two [getProwConfig] methods share word for word
    (lines 307-371 and 405-469), over the receiver's [JobName] and [Job]. *)
Definition getProwConfig_shared (jobName : string) (job : Job)
    (testSuite : TestSuite) : Outcome Periodic :=
  let prowConfig := newPeriodic jobName in
  let prowConfig :=
    if nonempty (TestSuite_Cluster testSuite)
    then Periodic_with_Cluster prowConfig (TestSuite_Cluster testSuite)
    else if nonempty (Job_Cluster job)
    then Periodic_with_Cluster prowConfig (Job_Cluster job)
    else prowConfig in
  prowConfig ←
    (if negb (Resources_isEmpty (TestSuite_Resources testSuite))
     then update_Containers0
            (fun c => Container_with_Resources c (TestSuite_Resources testSuite))
            prowConfig
     else if negb (Resources_isEmpty (Job_Resources job))
     then update_Containers0
            (fun c => Container_with_Resources c (Job_Resources job))
            prowConfig
     else Ok prowConfig);
  prowConfig ←
    (if nonempty (Job_Interval job)
     then Ok (Periodic_with_Interval (Periodic_with_Cron prowConfig "")
                (Job_Interval job))
     else if nonempty (Job_Cron job)
     then Ok (Periodic_with_Cron (Periodic_with_Interval prowConfig "")
                (Job_Cron job))
     else Fatal NoIntervalOrCron);
  timeout ← scanTimeout (TestSuite_Args testSuite);
  let newTimeout := Itoa (wrap64 (timeout + 20)) +:+ "m" in
  mret (Periodic_with_Timeout prowConfig newTimeout).

(** Lines 306-373. *)
Definition E2ETest_getProwConfig (et : E2ETest) (testSuite : TestSuite)
  : Outcome Periodic :=
  getProwConfig_shared (E2ETest_JobName et) (E2ETest_Job et) testSuite.

(** Lines 226-258. *)
Definition E2ETest_generate (et : E2ETest)
  : Outcome (Job * Periodic * TestGroup) :=
  if negb (length (E2ETest_fields et) =? 7)%nat then Fatal Expected7Fields else
  let image := E2ETest_Image et in
  let cloudProvider := E2ETest_CloudProvider et in
  let K8SVersion := E2ETest_K8SVersion et in
  let testSuite := E2ETest_TestSuite et in
  let args := [] in
  let args := args ++ getArgs (E2ETest_JobName et) (Common_Args (E2ETest_Common et)) in
  let args := args ++ getArgs (E2ETest_JobName et) (CloudProvider_Args cloudProvider) in
  let args := args ++ getArgs (E2ETest_JobName et) (Image_Args image) in
  let args := args ++ getArgs (E2ETest_JobName et) (K8SVersion_Args K8SVersion) in
  let args := args ++ getArgs (E2ETest_JobName et) (TestSuite_Args testSuite) in
  let jobConfig := E2ETest_getJobDefinition et args in
  prowConfig ← E2ETest_getProwConfig et testSuite;
  let tgConfig := E2ETest_getTestGridConfig et in
  f3 ← index (E2ETest_fields et) 3;
  f4 ← index (E2ETest_fields et) 4;
  f5 ← index (E2ETest_fields et) 5;
  f6 ← index (E2ETest_fields et) 6;
  let tabName := f3 +:+ "-" +:+ f4 +:+ "-" +:+ f5 +:+ "-" +:+ f6 in
  let annotations := Periodic_Annotations prowConfig in
  let annotations := <["testgrid-tab-name" := tabName]> annotations in
  let dashboards :=
    E2ETest_InitializeDashBoardsWithReleaseBlockingInfo et
      (K8SVersion_Version K8SVersion) in
  let dashboards :=
    if nonempty (Image_TestgridPrefix image)
    then dashboards ++ [Image_TestgridPrefix image +:+ "-" +:+ f4 +:+ "-" +:+ f5]
    else dashboards in
  let annotations :=
    <["testgrid-dashboards" := Join dashboards ", "]> annotations in
  let annotations :=
    <["testgrid-num-failures-to-alert" :=
        Itoa (Job_TestgridNumFailuresToAlert (E2ETest_Job et))]> annotations in
  mret (jobConfig, Periodic_with_Annotations prowConfig annotations, tgConfig).

(** Lines 375-389. *)
Definition newE2ENodeTest (jobName : string) (job : Job) (config : ConfigFile)
  : Outcome E2ENodeTest :=
  let fields := Split jobName "-" in
  if negb (length fields =? 6)%nat then Fatal Expected6Fields else
  f3 ← index fields 3;
  f4 ← index fields 4;
  k8s ← slice f4 3 (len f4);
  f5 ← index fields 5;
  mret {| E2ENodeTest_JobName := jobName;
          E2ENodeTest_Job := job;
          E2ENodeTest_fields := fields;
          E2ENodeTest_Common := ConfigFile_Common config;
          E2ENodeTest_Image := Images config !!! f3;
          E2ENodeTest_K8SVersion := NodeK8SVersions config !!! k8s;
          E2ENodeTest_TestSuite := TestSuites config !!! f5 |}.

(** Lines 391-402. *)
Definition E2ENodeTest_getJobDefinition (ent : E2ENodeTest)
    (args : list string) : Job :=
  let rSigOwner := Job_SigOwners (E2ENodeTest_Job ent) in
  let rSigOwner :=
    if (length rSigOwner =? 0)%nat then ["UNKOWN"] else rSigOwner in
  mkJob "kubernetes_e2e" "" "" rSigOwner false false "" 0 args inhabitant.

(** Lines 404-480. *)
Definition E2ENodeTest_getProwConfig (ent : E2ENodeTest)
    (testSuite : TestSuite) (k8sVersion : NodeK8SVersion) : Outcome Periodic :=
  prowConfig ←
    getProwConfig_shared (E2ENodeTest_JobName ent) (E2ENodeTest_Job ent)
      testSuite;
  prowConfig ←
    update_Containers0
      (fun c => Container_with_Args c
                  (Container_Args c ++ NodeK8SVersion_Args k8sVersion))
      prowConfig;
  prowConfig ←
    update_Containers0
      (fun c => Container_with_Args c (Container_Args c ++ ["--root=/go/src"]))
      prowConfig;
  if nonempty (NodeK8SVersion_ProwImage k8sVersion)
  then update_Containers0
         (fun c => Container_with_Image c (NodeK8SVersion_ProwImage k8sVersion))
         prowConfig
  else Ok prowConfig.

(** Lines 500-516: the [--node-args=] pass over [jobConfig.Args]. *)
Definition nodeFlag : string := "--node-args=".

Fixpoint partitionNodeArgs (args nodeArgs jobArgs : list string)
  : Outcome (list string * list string) :=
  match args with
  | [] => Ok (nodeArgs, jobArgs)
  | arg :: rest =>
      if Contains arg nodeFlag then
        value ← index (SplitN2 arg "=") 1;
        partitionNodeArgs rest (nodeArgs ++ [value]) jobArgs
      else partitionNodeArgs rest nodeArgs (jobArgs ++ [arg])
  end.

Definition coalesceNodeArgs (args : list string) : Outcome (list string) :=
  '(nodeArgs, jobArgs) ← partitionNodeArgs args [] [];
  if negb (length nodeArgs =? 0)%nat then
    let nodeFlag :=
      fold_left (fun nodeFlag arg => nodeFlag +:+ arg +:+ " ") nodeArgs nodeFlag in
    Ok (jobArgs ++ [TrimSpace nodeFlag])
  else Ok jobArgs.

(** Lines 482-528. *)
Definition E2ENodeTest_generate (ent : E2ENodeTest) : Outcome (Job * Periodic) :=
  if negb (length (E2ENodeTest_fields ent) =? 6)%nat
  then Fatal Expected6Fields else
  let image := E2ENodeTest_Image ent in
  let K8SVersion := E2ENodeTest_K8SVersion ent in
  let testSuite := E2ENodeTest_TestSuite ent in
  let args := [] in
  let args := args ++ getArgs (E2ENodeTest_JobName ent)
                        (Common_Args (E2ENodeTest_Common ent)) in
  let args := args ++ getArgs (E2ENodeTest_JobName ent) (Image_Args image) in
  let args := args ++ getArgs (E2ENodeTest_JobName ent)
                        (TestSuite_Args testSuite) in
  let jobConfig := E2ENodeTest_getJobDefinition ent args in
  prowConfig ← E2ENodeTest_getProwConfig ent testSuite K8SVersion;
  jobArgs ← coalesceNodeArgs (Job_Args jobConfig);
  let jobConfig := Job_with_Args jobConfig jobArgs in
  if nonempty (Image_TestgridPrefix image) then
    f3 ← index (E2ENodeTest_fields ent) 3;
    f4 ← index (E2ENodeTest_fields ent) 4;
    let dashboard := Image_TestgridPrefix image +:+ "-" +:+ f3 +:+ "-" +:+ f4 in
    let annotations :=
      <["testgrid-dashboards" := dashboard]> (Periodic_Annotations prowConfig) in
    f3 ← index (E2ENodeTest_fields ent) 3;
    f4 ← index (E2ENodeTest_fields ent) 4;
    f5 ← index (E2ENodeTest_fields ent) 5;
    let tabName := f3 +:+ "-" +:+ f4 +:+ "-" +:+ f5 in
    let annotations := <["testgrid-tab-name" := tabName]> annotations in
    mret (jobConfig, Periodic_with_Annotations prowConfig annotations)
  else mret (jobConfig, prowConfig).

(** Lines 138-162. *)
Definition forEachJob (outputDir jobName : string) (job : Job)
    (config : ConfigFile) : Outcome (Periodic * TestGroup) :=
  let fields := Split jobName "-" in
  if (length fields <? 3)%nat then Fatal ExpectedAtLeast3Fields else
  jobType ← index fields 2;
  '(jobConfig, prowConfig, testgridConfig) ←
    (if String.eqb jobType "e2e" then
       e2eTest ← newE2ETest outputDir jobName job config;
       E2ETest_generate e2eTest
     else if String.eqb jobType "e2enode" then
       e2eNodeTest ← newE2ENodeTest jobName job config;
       '(jobConfig, prowConfig) ← E2ENodeTest_generate e2eNodeTest;
       mret (jobConfig, prowConfig, inhabitant)
     else Fatal UnexpectedJobType);
  let jobConfig :=
    Job_with_Args jobConfig
      (applyJobOverrides (Job_Args jobConfig) (getArgs jobName (Job_Args job))) in
  prowConfig ←
    update_Containers0
      (fun c => Container_with_Args c (Container_Args c ++ Job_Args jobConfig))
      prowConfig;
  let file := "/workspace/scenarios/" +:+ Job_Scenario jobConfig +:+ ".py" in
  prowConfig ←
    update_Containers0 (fun c => Container_with_Command c ["runner.sh"; file])
      prowConfig;
  mret (prowConfig, testgridConfig).

(** Lines 77-94 of [main]: the job names in ascending byte order, one call
    of [forEachJob] each, the results appended.  Reading the configuration
    and writing the documents are outside this model; the documents exist
    only when every job compiled. *)
Definition mainLoopBody (outputDir : string) (config : ConfigFile)
    (acc : ProwConfigFile * TestgridConfig) (jobName : string)
  : Outcome (ProwConfigFile * TestgridConfig) :=
  let '(outputConfig, testgridConfig) := acc in
  '(prow, testgrid) ←
    forEachJob outputDir jobName (Jobs config !!! jobName) config;
  let outputConfig := mkProwConfigFile (Periodics outputConfig ++ [prow]) in
  let testgridConfig :=
    if negb (TestGroup_isEmpty testgrid)
    then mkTestgridConfig (TestGroups testgridConfig ++ [testgrid])
    else testgridConfig in
  mret (outputConfig, testgridConfig).

Definition sortedJobNames (config : ConfigFile) : list string :=
  merge_sort String.le (fst <$> map_to_list (Jobs config)).

Definition main (outputDir : string) (config : ConfigFile)
  : Outcome (ProwConfigFile * TestgridConfig) :=
  let jobNames := sortedJobNames config in
  fold_left
    (fun acc jobName => acc ≫= fun acc => mainLoopBody outputDir config acc jobName)
    jobNames
    (Ok (mkProwConfigFile [], mkTestgridConfig [])).

(** * Vocabulary of the properties

    The predicates the statements use, and the values that
    [getProwConfig], [generate] and [forEachJob] are shown to return. *)

(** ** Outcomes *)

Definition isOk {A} (o : Outcome A) : bool :=
  match o with Ok _ => true | _ => false end.

(** ** The schedule and the timeout: [getProwConfig] *)

(** The job has an Interval or a Cron. *)
Definition hasSchedule (job : Job) : bool :=
  nonempty (Job_Interval job) || nonempty (Job_Cron job).

(** The periodic job as it stands after the schedule check, before the
    timeout is assigned. *)
Definition scheduledPeriodic (jobName : string) (job : Job)
    (testSuite : TestSuite) : Periodic :=
  let p := newPeriodic jobName in
  mkPeriodic (Periodic_Tags p)
    (if nonempty (Job_Interval job) then Job_Interval job else "")
    (if nonempty (Job_Interval job) then "" else Job_Cron job)
    (Periodic_Labels p) (Periodic_Decorate p) (Periodic_DecorationConfig p)
    jobName
    (mkSpec
       [mkContainer [] [] ""
          "gcr.io/k8s-staging-test-infra/kubekins-e2e:v20231206-f7b83ffbe6-master"
          (if negb (Resources_isEmpty (TestSuite_Resources testSuite))
           then TestSuite_Resources testSuite
           else if negb (Resources_isEmpty (Job_Resources job))
           then Job_Resources job
           else mkResources (mkComputeResources "1000m" "3Gi")
                            (mkComputeResources "1000m" "3Gi"))])
    (if nonempty (TestSuite_Cluster testSuite) then TestSuite_Cluster testSuite
     else if nonempty (Job_Cluster job) then Job_Cluster job
     else "")
    ∅.

(** Exactly one of the two schedule fields of a periodic job is set. *)
Definition oneSchedule (p : Periodic) : Prop :=
  (Periodic_Interval p ≠ "" ∧ Periodic_Cron p = "")
  ∨ (Periodic_Interval p = "" ∧ Periodic_Cron p ≠ "").

(** What [E2ENodeTest.getProwConfig] does to the container after the shared
    part. *)
Definition nodeContainer (k8sVersion : NodeK8SVersion) (c : Container)
  : Container :=
  mkContainer (Container_Command c)
    ((Container_Args c ++ NodeK8SVersion_Args k8sVersion) ++ ["--root=/go/src"])
    (Container_Env c)
    (if nonempty (NodeK8SVersion_ProwImage k8sVersion)
     then NodeK8SVersion_ProwImage k8sVersion else Container_Image c)
    (Container_Resources c).

Definition mapContainers (f : Container → Container) (p : Periodic)
  : Periodic :=
  Periodic_with_Spec p (mkSpec (f <$> Containers (Periodic_Spec p))).

(** ** [forEachJob], case by case *)

(** The statements of [forEachJob] after the [switch] (lines 157-161). *)
Definition forEachJob_finish (jobName : string) (job : Job)
    (r : Job * Periodic * TestGroup) : Outcome (Periodic * TestGroup) :=
  let '(jobConfig, prowConfig, testgridConfig) := r in
  let jobConfig :=
    Job_with_Args jobConfig
      (applyJobOverrides (Job_Args jobConfig) (getArgs jobName (Job_Args job))) in
  prowConfig ←
    update_Containers0
      (fun c => Container_with_Args c (Container_Args c ++ Job_Args jobConfig))
      prowConfig;
  let file := "/workspace/scenarios/" +:+ Job_Scenario jobConfig +:+ ".py" in
  prowConfig ←
    update_Containers0 (fun c => Container_with_Command c ["runner.sh"; file])
      prowConfig;
  mret (prowConfig, testgridConfig).

(** The kind token of a job name: its third field, if it has one. *)
Definition kindOf (jobName : string) : option string :=
  Split jobName "-" !! 2%nat.

(** The container as [forEachJob] leaves it: the compiled arguments after
    what the container already has, and the fixed command. *)
Definition finishContainer (jobName : string) (job : Job) (jobConfig : Job)
    (c : Container) : Container :=
  mkContainer
    ["runner.sh";
     "/workspace/scenarios/" +:+ Job_Scenario jobConfig +:+ ".py"]
    (Container_Args c
       ++ applyJobOverrides (Job_Args jobConfig)
            (getArgs jobName (Job_Args job)))
    (Container_Env c) (Container_Image c) (Container_Resources c).

(** The base layers of the two kinds, in the order [generate] appends
    them. *)
Definition e2eLayers (et : E2ETest) : list string :=
  getArgs (E2ETest_JobName et) (Common_Args (E2ETest_Common et))
  ++ getArgs (E2ETest_JobName et) (CloudProvider_Args (E2ETest_CloudProvider et))
  ++ getArgs (E2ETest_JobName et) (Image_Args (E2ETest_Image et))
  ++ getArgs (E2ETest_JobName et) (K8SVersion_Args (E2ETest_K8SVersion et))
  ++ getArgs (E2ETest_JobName et) (TestSuite_Args (E2ETest_TestSuite et)).

Definition e2enodeLayers (ent : E2ENodeTest) : list string :=
  getArgs (E2ENodeTest_JobName ent) (Common_Args (E2ENodeTest_Common ent))
  ++ getArgs (E2ENodeTest_JobName ent) (Image_Args (E2ENodeTest_Image ent))
  ++ getArgs (E2ENodeTest_JobName ent)
       (TestSuite_Args (E2ENodeTest_TestSuite ent)).

(** The dashboards and annotations [E2ETest.generate] computes. *)
Definition e2eDashboards (et : E2ETest) (f4 f5 : string) : list string :=
  E2ETest_InitializeDashBoardsWithReleaseBlockingInfo et
    (K8SVersion_Version (E2ETest_K8SVersion et))
  ++ (if nonempty (Image_TestgridPrefix (E2ETest_Image et))
      then [Image_TestgridPrefix (E2ETest_Image et) +:+ "-" +:+ f4 +:+ "-" +:+ f5]
      else []).

Definition e2eAnnotations (et : E2ETest) (f3 f4 f5 f6 : string)
  : gmap string string :=
  <["testgrid-num-failures-to-alert" :=
      Itoa (Job_TestgridNumFailuresToAlert (E2ETest_Job et))]>
    (<["testgrid-dashboards" := Join (e2eDashboards et f4 f5) ", "]>
       (<["testgrid-tab-name" :=
            f3 +:+ "-" +:+ f4 +:+ "-" +:+ f5 +:+ "-" +:+ f6]> ∅)).

(** What [newE2ETest] builds from the fields of a name. *)
Definition e2eTestOf (jobName : string) (job : Job) (config : ConfigFile)
    (fields : list string) (t3 t4 t5 t6 : string) : E2ETest :=
  {| E2ETest_JobName := jobName;
     E2ETest_fields := fields;
     E2ETest_Job := job;
     E2ETest_Common := ConfigFile_Common config;
     E2ETest_CloudProvider := CloudProviders config !!! t3;
     E2ETest_Image := Images config !!! t4;
     E2ETest_K8SVersion :=
       K8SVersions config !!! String.substring 3 (String.length t5 - 3) t5;
     E2ETest_TestSuite := TestSuites config !!! t6 |}.

(** ** The [--node-args=] pass of [E2ENodeTest.generate] *)

(** The value portion of an argument: the text after its first "=". *)
Definition valueOf (arg : string) : string :=
  match Cut arg "=" with
  | Some (_, value) => value
  | None => ""
  end.

Definition hasNodeFlag (arg : string) : bool := Contains arg nodeFlag.

(** The list the pass leaves: the arguments without the flag, in order, then
    one entry for the values of those with it, if any. *)
Definition coalesced (args : list string) : list string :=
  List.filter (fun arg => negb (hasNodeFlag arg)) args
  ++ match List.filter hasNodeFlag args with
     | [] => []
     | picked => [TrimSpace (nodeFlag +:+ Join (valueOf <$> picked) " ")]
     end.

(** The annotations [E2ENodeTest.generate] sets when the image has a
    testgrid prefix, and what [newE2ENodeTest] builds from the fields of a
    name. *)
Definition e2enodeAnnotations (ent : E2ENodeTest) (f3 f4 f5 : string)
  : gmap string string :=
  <["testgrid-tab-name" := f3 +:+ "-" +:+ f4 +:+ "-" +:+ f5]>
    (<["testgrid-dashboards" :=
         Image_TestgridPrefix (E2ENodeTest_Image ent) +:+ "-" +:+ f3
           +:+ "-" +:+ f4]> ∅).

Definition e2enodeTestOf (jobName : string) (job : Job) (config : ConfigFile)
    (fields : list string) (t3 t4 t5 : string) : E2ENodeTest :=
  {| E2ENodeTest_JobName := jobName;
     E2ENodeTest_fields := fields;
     E2ENodeTest_Job := job;
     E2ENodeTest_Common := ConfigFile_Common config;
     E2ENodeTest_Image := Images config !!! t3;
     E2ENodeTest_K8SVersion :=
       NodeK8SVersions config !!! String.substring 3 (String.length t4 - 3) t4;
     E2ENodeTest_TestSuite := TestSuites config !!! t5 |}.

(** ** A configuration to run the generator on *)

Module Example.

Definition hourly : Job :=
  mkJob "" "1h" "" ["sig-node"] true false "" 3
    ["--foo=3"; "--cluster=e2e-${job_name_hash}"] inhabitant.

Definition nightly : Job :=
  mkJob "" "" "0 3 * * *" [] false true "" 0 [] inhabitant.

Definition unscheduled : Job :=
  mkJob "" "" "" [] false false "" 0 [] inhabitant.

Definition e2eName : string := "ci-kubernetes-e2e-gce-cos-k8sbeta-default".
Definition e2eSlowName : string := "ci-kubernetes-e2e-gce-cos-k8sbeta-slow".
Definition e2enodeName : string := "ci-kubernetes-e2enode-cos-k8sbeta-default".

Definition config : ConfigFile :=
  {| Jobs := <[e2eName := hourly]> (<[e2enodeName := nightly]> ∅);
     CloudProviders := <["gce" := mkCloudProvider ["--provider=gce"]]> ∅;
     ConfigFile_Common := mkCommon ["--check-leaked-resources"; "--foo=1"] "";
     Images :=
       <["cos" := mkImage ["--gcp-node-image=gci"; "--node-args=a"] "google-gce"]> ∅;
     K8SVersions :=
       <["beta" := mkK8SVersion ["--extract=ci/latest-1.29"] "1.29"]> ∅;
     TestSuites :=
       <["default" :=
           mkTestSuite ["--timeout=120m"; "--x=1"; "--node-args=b"] inhabitant ""]>
         (<["slow" := mkTestSuite ["--ginkgo-parallel=1"] inhabitant ""]> ∅);
     NodeTestSuites := ∅;
     NodeK8SVersions :=
       <["beta" := mkNodeK8SVersion ["--repo-root=."] "kubekins-e2e:beta"]> ∅;
     NodeImages := ∅;
     NodeCommon := inhabitant |}.

Definition start : ProwConfigFile * TestgridConfig :=
  (mkProwConfigFile [], mkTestgridConfig []).

(** What a compiled job shows: schedule, timeout, container arguments and
    the dashboards annotation. *)
Definition summary (p : Periodic)
  : string * string * string * list (list string) * option string :=
  (Periodic_Interval p, Periodic_Cron p,
   Timeout (Periodic_DecorationConfig p),
   Container_Args <$> Containers (Periodic_Spec p),
   Periodic_Annotations p !! "testgrid-dashboards").

Definition summaries (o : Outcome (ProwConfigFile * TestgridConfig)) :=
  match o with
  | Ok (out, tg) => Ok (summary <$> Periodics out, TestGroups tg)
  | Fatal e => Fatal e
  | Panic e => Panic e
  end.

End Example.

(** The tests of the two example jobs. *)
Definition exampleE2ETest : E2ETest :=
  e2eTestOf Example.e2eName Example.hourly Example.config
    (Split Example.e2eName "-") "gce" "cos" "k8sbeta" "default".

Definition exampleE2ENodeTest : E2ENodeTest :=
  e2enodeTestOf Example.e2enodeName Example.nightly Example.config
    (Split Example.e2enodeName "-") "cos" "k8sbeta" "default".

(** ** Timeout entries *)

(** Some entry begins with "--timeout=". *)
Definition hasTimeoutEntry (args : list string) : bool :=
  existsb (fun arg => HasPrefix arg "--timeout=") args.

Definition decorationTimeout (o : Outcome Periodic) : option string :=
  match o with
  | Ok p => Some (Timeout (Periodic_DecorationConfig p))
  | _ => None
  end.

(** ** The primary dashboard *)

(** The primary dashboard in the specification's words. *)
Definition primaryDashboard (releaseBlocking releaseInforming : bool)
    (version : string) : string :=
  if releaseBlocking then "sig-release-" +:+ version +:+ "-blocking"
  else if releaseInforming then "sig-release-" +:+ version +:+ "-informing"
  else "sig-release-generated".

(** ** The shape of a job name *)

(** The shape rules of the parser: kind e2e and seven fields, or kind
    e2enode and six. *)
Definition shapeOK (jobName : string) : bool :=
  match kindOf jobName with
  | Some kind =>
      String.eqb kind "e2e" && (length (Split jobName "-") =? 7)%nat
      || String.eqb kind "e2enode" && (length (Split jobName "-") =? 6)%nat
  | None => false
  end.

(** The fatal errors of the name parser. *)
Definition isNameError (e : FatalError) : bool :=
  match e with
  | ExpectedAtLeast3Fields | UnexpectedJobType
  | Expected7Fields | Expected6Fields => true
  | NoIntervalOrCron | ParsingTimeout => false
  end.

(** ** Matching an override *)

(** The test of line 171: [val] is an entry for [name]. *)
Definition matchesName (name val : string) : bool :=
  let trimVal := TrimSpace val in
  HasPrefix trimVal (name +:+ "=") || String.eqb trimVal name.

(** [val] is an entry for the name of one of the overrides. *)
Definition matchedBy (overrides : list string) (val : string) : bool :=
  existsb (fun jobEnvOrArg => matchesName (nameOf jobEnvOrArg) val) overrides.


(** ** Generated arguments *)

Definition jobArgsOf {A B} (o : Outcome (Job * A * B)) : option (list string) :=
  match o with
  | Ok (jobConfig, _, _) => Some (Job_Args jobConfig)
  | _ => None
  end.

(** * Vocabulary of the further properties *)

(** ** How a call ends *)

(** The error a call ends in, if it does not return. *)
Definition failureOf {A} (o : Outcome A) : option (FatalError + PanicError) :=
  match o with
  | Ok _ => None
  | Fatal e => Some (inl e)
  | Panic e => Some (inr e)
  end.

(** ** Names *)

(** The fatal error of the name parser for a name of the wrong shape. *)
Definition nameError (jobName : string) : FatalError :=
  match kindOf jobName with
  | None => ExpectedAtLeast3Fields
  | Some kind =>
      if String.eqb kind "e2e" then Expected7Fields
      else if String.eqb kind "e2enode" then Expected6Fields
      else UnexpectedJobType
  end.

(** The version field of a name: index 5 for kind e2e, index 4 for kind
    e2enode. *)
Definition versionField (jobName : string) : option string :=
  match kindOf jobName with
  | Some kind =>
      if String.eqb kind "e2e" then Split jobName "-" !! 5%nat
      else if String.eqb kind "e2enode" then Split jobName "-" !! 4%nat
      else None
  | None => None
  end.

(** The name parses: right shape, and a version field of three bytes at
    least. *)
Definition parses (jobName : string) : bool :=
  shapeOK jobName &&
  match versionField jobName with
  | Some v => (3 <=? String.length v)%nat
  | None => false
  end.

(** The test suite of a name that parses: the entry of the test-suite axis
    under the last field (the zero value when the axis has no such key). *)
Definition suiteOf (config : ConfigFile) (jobName : string) : TestSuite :=
  TestSuites config !!! default "" (last (Split jobName "-")).

(** ** What a periodic job is made of *)

Definition defaultImage : string :=
  "gcr.io/k8s-staging-test-infra/kubekins-e2e:v20231206-f7b83ffbe6-master".

Definition defaultResources : Resources :=
  mkResources (mkComputeResources "1000m" "3Gi")
    (mkComputeResources "1000m" "3Gi").

(** Requests and limits both name a CPU or a memory amount. *)
Definition fullySet (r : Resources) : bool :=
  (nonempty (ComputeResources_CPU (Resources_Requests r))
   || nonempty (ComputeResources_Memory (Resources_Requests r)))
  && (nonempty (ComputeResources_CPU (Resources_Limits r))
      || nonempty (ComputeResources_Memory (Resources_Limits r))).

(** ** The inputs compilation reads *)

(** Two jobs that differ in [Scenario] and [SigOwners] at most. *)
Definition sameJobInputs (job job' : Job) : Prop :=
  Job_Interval job = Job_Interval job' ∧
  Job_Cron job = Job_Cron job' ∧
  Job_ReleaseBlocking job = Job_ReleaseBlocking job' ∧
  Job_ReleaseInforming job = Job_ReleaseInforming job' ∧
  Job_Cluster job = Job_Cluster job' ∧
  Job_TestgridNumFailuresToAlert job = Job_TestgridNumFailuresToAlert job' ∧
  Job_Args job = Job_Args job' ∧
  Job_Resources job = Job_Resources job'.

(** Two jobs with the same schedule, cluster, arguments and resources. *)
Definition sameNodeJobInputs (job job' : Job) : Prop :=
  Job_Interval job = Job_Interval job' ∧
  Job_Cron job = Job_Cron job' ∧
  Job_Cluster job = Job_Cluster job' ∧
  Job_Args job = Job_Args job' ∧
  Job_Resources job = Job_Resources job'.

(** Two configurations with the same common arguments, cloud providers,
    images, versions and test suites. *)
Definition sameE2EAxes (config config' : ConfigFile) : Prop :=
  Common_Args (ConfigFile_Common config)
    = Common_Args (ConfigFile_Common config') ∧
  CloudProviders config = CloudProviders config' ∧
  Images config = Images config' ∧
  K8SVersions config = K8SVersions config' ∧
  TestSuites config = TestSuites config'.

(** Two configurations with the same common arguments, images, node
    versions and test suites. *)
Definition sameNodeAxes (config config' : ConfigFile) : Prop :=
  Common_Args (ConfigFile_Common config)
    = Common_Args (ConfigFile_Common config') ∧
  Images config = Images config' ∧
  NodeK8SVersions config = NodeK8SVersions config' ∧
  TestSuites config = TestSuites config'.

(** ** The batch *)

(** The loop of [main] over a list of names, from given documents. *)
Definition mainLoop (outputDir : string) (config : ConfigFile)
    (jobNames : list string) (acc : ProwConfigFile * TestgridConfig)
  : Outcome (ProwConfigFile * TestgridConfig) :=
  fold_left
    (fun acc jobName => acc ≫= fun acc => mainLoopBody outputDir config acc jobName)
    jobNames (Ok acc).

(** [forEachJob] on a name of the job table, as [main] calls it. *)
Definition compileJob (outputDir : string) (config : ConfigFile)
    (jobName : string) : Outcome (Periodic * TestGroup) :=
  forEachJob outputDir jobName (Jobs config !!! jobName) config.

Definition isNodeName (jobName : string) : bool :=
  bool_decide (kindOf jobName = Some "e2enode").

(** ** Further inputs to run the generator on *)

Module Sample.

(** A job that names a cluster and gives requests without limits. *)
Definition pinned : Job :=
  mkJob "" "1h" "" [] false false "k8s-infra-prow-build" 0 []
    (mkResources (mkComputeResources "4" "") (mkComputeResources "" "")).

(** A configuration with one entry: a test suite with a CPU request and a
    memory limit. *)
Definition sized : ConfigFile :=
  mkConfigFile ∅ ∅ inhabitant ∅ ∅
    (<["default" :=
         mkTestSuite []
           (mkResources (mkComputeResources "2" "")
              (mkComputeResources "" "6Gi")) ""]> ∅)
    ∅ ∅ ∅ inhabitant.

(** A job table with two jobs that do not compile. *)
Definition broken : ConfigFile :=
  mkConfigFile
    (<["ci-kubernetes-e2e-gce-cos-k8sbeta-default" := Example.unscheduled]>
       (<["ci-kubernetes-unit" := Example.hourly]> ∅))
    ∅ inhabitant ∅ ∅ ∅ ∅ ∅ ∅ inhabitant.

End Sample.

(** ** Digests *)

Definition isLowerHex (c : ascii) : bool :=
  let n := N_of_ascii c in
  ((48 <=? n) && (n <=? 57) || (97 <=? n) && (n <=? 102))%N.

Fixpoint allLowerHex (s : string) : bool :=
  match s with
  | EmptyString => true
  | String c s' => isLowerHex c && allLowerHex s'
  end.

(** ** The hash placeholder *)

Definition placeholder : string := "${job_name_hash}".

(** A text that hexadecimal digits cannot complete to the placeholder: it
    has no "$", and a hexadecimal digit in it is followed by a byte that is
    not one. *)
Fixpoint tailOK (t : string) : bool :=
  match t with
  | EmptyString => true
  | String d t' =>
      negb (Ascii.eqb d "$")
      && (negb (isLowerHex d)
          || match t' with
             | String e _ => negb (isLowerHex e)
             | EmptyString => false
             end)
      && tailOK t'
  end.

(** * Properties *)

(** ** Strings *)

Section StringFacts.

Implicit Types s t u : string.

Lemma app_nil_l_string s : "" +:+ s = s.
Proof. reflexivity. Qed.

Lemma app_cons_string c s t : String c s +:+ t = String c (s +:+ t).
Proof. reflexivity. Qed.

Lemma app_nil_r_string s : s +:+ "" = s.
Proof. induction s as [|c s IH]; [done|]. by rewrite app_cons_string, IH. Qed.

Lemma app_assoc_string s t u : (s +:+ t) +:+ u = s +:+ t +:+ u.
Proof.
  induction s as [|c s IH]; [done|]. by rewrite !app_cons_string, IH.
Qed.

Lemma length_app_string s t :
  String.length (s +:+ t) = (String.length s + String.length t)%nat.
Proof.
  induction s as [|c s IH]; [done|]. rewrite app_cons_string. simpl. by rewrite IH.
Qed.

Lemma substring_0_app s t :
  String.substring 0 (String.length s) (s +:+ t) = s.
Proof.
  induction s as [|c s IH]; simpl.
  - by destruct t.
  - by rewrite IH.
Qed.

Lemma prefix_app s t : String.prefix s (s +:+ t) = true.
Proof.
  induction s as [|c s IH]; simpl; [by destruct t|].
  by destruct (ascii_dec c c).
Qed.

Lemma prefix_inv s t : String.prefix s t = true → ∃ u, t = s +:+ u.
Proof.
  revert t. induction s as [|c s IH]; intros t H.
  - by exists t.
  - destruct t as [|c' t]; [done|]. simpl in H.
    destruct (ascii_dec c c') as [->|]; [|done].
    destruct (IH _ H) as [u ->]. by exists u.
Qed.

Lemma nonempty_true s : nonempty s = true ↔ s ≠ "".
Proof.
  unfold nonempty. rewrite negb_true_iff. apply String.eqb_neq.
Qed.

Lemma nonempty_false s : nonempty s = false ↔ s = "".
Proof.
  unfold nonempty. rewrite negb_false_iff. apply String.eqb_eq.
Qed.

(** [Split] yields at least one field: index 0 is always in range. *)
Lemma Split_nonempty s sep : Split s sep ≠ [].
Proof.
  destruct s as [|c s]; simpl; [done|].
  destruct (Ascii.eqb c sep); [done|]. by destruct (Split s sep).
Qed.

End StringFacts.

(** The hexadecimal digest always has 40 characters: the slice [[:10]] in
    [substitute] never panics. *)
Lemma getSHA1Hash_length data : String.length (getSHA1Hash data) = 40%nat.
Proof.
  unfold getSHA1Hash. by destruct (SHA1.sum _) as [[[[a b] c] d] e].
Qed.

(** The substitution value has 10 characters, and a line without the
    placeholder is left as it is. *)
Lemma hash_prefix_length jobName :
  String.length (String.substring 0 10 (getSHA1Hash jobName)) = 10%nat.
Proof.
  unfold getSHA1Hash. by destruct (SHA1.sum _) as [[[[a b] c] d] e].
Qed.

Lemma ReplaceAll_absent s old new :
  Contains s old = false → ReplaceAll s old new = s.
Proof.
  unfold ReplaceAll. induction s as [|c s IH]; [done|].
  cbn [Contains ReplaceAll_from]. intros [Hp Hs]%orb_false_iff.
  by rewrite Hp, IH.
Qed.

Lemma getArgs_no_placeholder jobName args :
  forallb (fun line => negb (Contains line "${job_name_hash}")) args = true →
  getArgs jobName args = args.
Proof.
  unfold getArgs, substitute. induction args as [|line args IH]; [done|].
  cbn [forallb]. intros [Hline%negb_true_iff Hargs]%andb_true_iff.
  rewrite fmap_cons. by rewrite ReplaceAll_absent, IH.
Qed.

(** ** Outcomes *)

Lemma bind_Ok {A B} (m : Outcome A) (k : A → Outcome B) b :
  m ≫= k = Ok b ↔ ∃ a, m = Ok a ∧ k a = Ok b.
Proof.
  destruct m as [a| |]; simpl; split.
  - intros Hk. by exists a.
  - by intros (a' & [= ->] & Hk).
  - done.
  - by intros (a' & [=] & _).
  - done.
  - by intros (a' & [=] & _).
Qed.

(** ** The schedule and the timeout: [getProwConfig] *)

Lemma getProwConfig_shared_eq jobName job testSuite :
  getProwConfig_shared jobName job testSuite =
    if hasSchedule job then
      timeout ← scanTimeout (TestSuite_Args testSuite);
      Ok (Periodic_with_Timeout (scheduledPeriodic jobName job testSuite)
            (Itoa (wrap64 (timeout + 20)) +:+ "m"))
    else Fatal NoIntervalOrCron.
Proof.
  unfold getProwConfig_shared, hasSchedule, scheduledPeriodic.
  destruct (nonempty (TestSuite_Cluster testSuite)),
    (nonempty (Job_Cluster job)),
    (negb (Resources_isEmpty (TestSuite_Resources testSuite))),
    (negb (Resources_isEmpty (Job_Resources job))),
    (nonempty (Job_Interval job)), (nonempty (Job_Cron job));
    reflexivity.
Qed.

Lemma hasSchedule_false job :
  hasSchedule job = false ↔ Job_Interval job = "" ∧ Job_Cron job = "".
Proof.
  unfold hasSchedule. rewrite orb_false_iff, !nonempty_false. tauto.
Qed.

Lemma hasSchedule_true job :
  hasSchedule job = true ↔ Job_Interval job ≠ "" ∨ Job_Cron job ≠ "".
Proof.
  unfold hasSchedule. rewrite orb_true_iff, !nonempty_true. tauto.
Qed.

Lemma scheduledPeriodic_oneSchedule jobName job testSuite :
  hasSchedule job = true →
  oneSchedule (scheduledPeriodic jobName job testSuite).
Proof.
  unfold hasSchedule, oneSchedule, scheduledPeriodic. simpl.
  destruct (nonempty (Job_Interval job)) eqn:Hi; simpl.
  - intros _. left. by apply nonempty_true in Hi.
  - intros Hc. right. by apply nonempty_true in Hc.
Qed.

Lemma getProwConfig_shared_Ok jobName job testSuite p :
  getProwConfig_shared jobName job testSuite = Ok p ↔
  hasSchedule job = true ∧
  ∃ timeout, scanTimeout (TestSuite_Args testSuite) = Ok timeout ∧
    p = Periodic_with_Timeout (scheduledPeriodic jobName job testSuite)
          (Itoa (wrap64 (timeout + 20)) +:+ "m").
Proof.
  rewrite getProwConfig_shared_eq. destruct (hasSchedule job).
  - rewrite bind_Ok. split.
    + intros (t & Ht & [= <-]). eauto.
    + intros (_ & t & Ht & ->). eauto.
  - split; [done|]. by intros [? _].
Qed.

Lemma slice_not_Fatal s lo hi e : slice s lo hi ≠ Fatal e.
Proof. unfold slice. by destruct (_ && _). Qed.

Lemma scanTimeout_Fatal args e :
  scanTimeout args = Fatal e → e = ParsingTimeout.
Proof.
  induction args as [|arg rest IH]; simpl; [done|].
  destruct (HasPrefix arg "--timeout="); [|done].
  destruct (slice arg 10 (len arg - 1)) as [value|e'|] eqn:Hs; simpl.
  - destruct (Atoi value); congruence.
  - by apply slice_not_Fatal in Hs.
  - done.
Qed.

Lemma getProwConfig_shared_Fatal jobName job testSuite e :
  getProwConfig_shared jobName job testSuite = Fatal e →
  e = NoIntervalOrCron ∨ e = ParsingTimeout.
Proof.
  rewrite getProwConfig_shared_eq. destruct (hasSchedule job).
  - destruct (scanTimeout _) as [t|e'|] eqn:Hs; simpl; try done.
    intros [= <-]. right. by apply scanTimeout_Fatal in Hs.
  - intros [= <-]. by left.
Qed.

(** The timeout scan. *)
Lemma scanTimeout_none args :
  (∀ arg, arg ∈ args → HasPrefix arg "--timeout=" = false) →
  scanTimeout args = Ok 0.
Proof.
  induction args as [|arg rest IH]; intros H; [done|]. simpl.
  rewrite (H arg) by apply list_elem_of_here.
  apply IH. intros a Ha. apply H. by apply list_elem_of_further.
Qed.

Lemma scanTimeout_first pre arg post :
  (∀ a, a ∈ pre → HasPrefix a "--timeout=" = false) →
  HasPrefix arg "--timeout=" = true →
  scanTimeout (pre ++ arg :: post) =
    value ← slice arg 10 (len arg - 1);
    match Atoi value with
    | Some timeout => Ok timeout
    | None => Fatal ParsingTimeout
    end.
Proof.
  intros Hpre Harg. induction pre as [|a pre IH]; simpl.
  - by rewrite Harg.
  - rewrite (Hpre a) by apply list_elem_of_here.
    apply IH. intros a' Ha'. apply Hpre. by apply list_elem_of_further.
Qed.

Lemma timeout_entry_prefix v u :
  HasPrefix ("--timeout=" +:+ v +:+ String u "") "--timeout=" = true.
Proof. apply (prefix_app "--timeout="). Qed.

Lemma timeout_entry_value v u :
  let arg := "--timeout=" +:+ v +:+ String u "" in
  slice arg 10 (len arg - 1) = Ok v.
Proof.
  intros arg. unfold slice, len.
  assert (Hlen : String.length arg = (10 + String.length v + 1)%nat).
  { unfold arg. rewrite !length_app_string. simpl. lia. }
  rewrite Hlen.
  replace (Z.of_nat (10 + String.length v + 1) - 1 - 10)
    with (Z.of_nat (String.length v)) by lia.
  rewrite Nat2Z.id.
  destruct (_ && _) eqn:Hb.
  - f_equal. change (Z.to_nat 10) with 10%nat. unfold arg.
    rewrite !app_cons_string, app_nil_l_string.
    simpl. apply substring_0_app.
  - exfalso. rewrite !andb_false_iff in Hb.
    destruct Hb as [[Hb|Hb]|Hb]; apply Z.leb_gt in Hb; lia.
Qed.

Lemma wrap64_small z : int_min ≤ z ≤ int_max → wrap64 z = z.
Proof.
  unfold wrap64, int_min, int_max.
  change (2 ^ 63) with 9223372036854775808.
  change (2 ^ 64) with 18446744073709551616.
  intros H. rewrite Z.mod_small; lia.
Qed.

Lemma Atoi_decimal v n :
  decimal v = Some n → int_min ≤ n ≤ int_max → Atoi v = Some n.
Proof.
  intros Hv [Hlo Hhi]. unfold Atoi. rewrite Hv.
  apply Z.leb_le in Hlo, Hhi. by rewrite Hlo, Hhi.
Qed.

Lemma Atoi_not_decimal v : decimal v = None → Atoi v = None.
Proof. intros Hv. unfold Atoi. by rewrite Hv. Qed.

Lemma Atoi_out_of_range v n :
  decimal v = Some n → n < int_min ∨ int_max < n → Atoi v = None.
Proof.
  intros Hv Hn. unfold Atoi. rewrite Hv.
  destruct (_ && _) eqn:Hb; [|done].
  apply andb_true_iff in Hb as [Hlo%Z.leb_le Hhi%Z.leb_le]. lia.
Qed.

Lemma E2ETest_getProwConfig_Ok et testSuite p :
  E2ETest_getProwConfig et testSuite = Ok p ↔
  hasSchedule (E2ETest_Job et) = true ∧
  ∃ timeout, scanTimeout (TestSuite_Args testSuite) = Ok timeout ∧
    p = Periodic_with_Timeout
          (scheduledPeriodic (E2ETest_JobName et) (E2ETest_Job et) testSuite)
          (Itoa (wrap64 (timeout + 20)) +:+ "m").
Proof. apply getProwConfig_shared_Ok. Qed.

Lemma E2ENodeTest_getProwConfig_eq ent testSuite k8sVersion :
  E2ENodeTest_getProwConfig ent testSuite k8sVersion =
    p ← getProwConfig_shared (E2ENodeTest_JobName ent) (E2ENodeTest_Job ent)
          testSuite;
    Ok (mapContainers (nodeContainer k8sVersion) p).
Proof.
  unfold E2ENodeTest_getProwConfig. rewrite getProwConfig_shared_eq.
  destruct (hasSchedule _); [|done].
  destruct (scanTimeout _) as [t| |]; [|done..]. simpl.
  unfold mapContainers, nodeContainer. simpl.
  by destruct (nonempty (NodeK8SVersion_ProwImage k8sVersion)).
Qed.

Lemma E2ENodeTest_getProwConfig_Ok ent testSuite k8sVersion p :
  E2ENodeTest_getProwConfig ent testSuite k8sVersion = Ok p ↔
  hasSchedule (E2ENodeTest_Job ent) = true ∧
  ∃ timeout, scanTimeout (TestSuite_Args testSuite) = Ok timeout ∧
    p = mapContainers (nodeContainer k8sVersion)
          (Periodic_with_Timeout
             (scheduledPeriodic (E2ENodeTest_JobName ent) (E2ENodeTest_Job ent)
                testSuite)
             (Itoa (wrap64 (timeout + 20)) +:+ "m")).
Proof.
  rewrite E2ENodeTest_getProwConfig_eq, bind_Ok. split.
  - intros (p0 & Hp0 & [= <-]).
    apply getProwConfig_shared_Ok in Hp0 as (Hs & t & Ht & ->). eauto.
  - intros (Hs & t & Ht & ->). eexists. split; [|done].
    apply getProwConfig_shared_Ok. eauto.
Qed.

(** ** [forEachJob], case by case *)

Lemma forEachJob_too_short outputDir jobName job config :
  kindOf jobName = None →
  forEachJob outputDir jobName job config = Fatal ExpectedAtLeast3Fields.
Proof.
  unfold kindOf, forEachJob. intros H%lookup_ge_None_1.
  by assert ((length (Split jobName "-") <? 3)%nat = true) as ->
    by (apply Nat.ltb_lt; lia).
Qed.

Lemma forEachJob_kind outputDir jobName job config jobType :
  kindOf jobName = Some jobType →
  forEachJob outputDir jobName job config =
    (if String.eqb jobType "e2e" then
       e2eTest ← newE2ETest outputDir jobName job config;
       E2ETest_generate e2eTest
     else if String.eqb jobType "e2enode" then
       e2eNodeTest ← newE2ENodeTest jobName job config;
       '(jobConfig, prowConfig) ← E2ENodeTest_generate e2eNodeTest;
       mret (jobConfig, prowConfig, inhabitant)
     else Fatal UnexpectedJobType) ≫= forEachJob_finish jobName job.
Proof.
  unfold kindOf, forEachJob. intros H.
  assert ((length (Split jobName "-") <? 3)%nat = false) as ->.
  { apply Nat.ltb_ge. apply lookup_lt_Some in H. lia. }
  unfold index. rewrite H. simpl.
  destruct (if (jobType =? "e2e")%string then _ else _) as [[[j p] tg]| |];
    reflexivity.
Qed.

(** [newE2ETest] and [newE2ENodeTest] on a name of the right number of
    fields. *)
Lemma slice_from s (n : nat) :
  slice s (Z.of_nat n) (len s) =
    if (n <=? String.length s)%nat
    then Ok (String.substring n (String.length s - n) s)
    else Panic SliceBoundsOutOfRange.
Proof.
  unfold slice, len.
  destruct (n <=? String.length s)%nat eqn:Hn.
  - apply Nat.leb_le in Hn.
    assert (Hb : (0 <=? Z.of_nat n) && (Z.of_nat n <=? Z.of_nat (String.length s))
                 && (Z.of_nat (String.length s) <=? Z.of_nat (String.length s))
                 = true).
    { rewrite !andb_true_iff, !Z.leb_le. lia. }
    rewrite Hb. do 2 f_equal; lia.
  - apply Nat.leb_gt in Hn.
    assert (Hb : (0 <=? Z.of_nat n) && (Z.of_nat n <=? Z.of_nat (String.length s))
                 && (Z.of_nat (String.length s) <=? Z.of_nat (String.length s))
                 = false).
    { rewrite !andb_false_iff, !Z.leb_gt. lia. }
    by rewrite Hb.
Qed.

Lemma newE2ETest_fields outputDir jobName job config t0 t1 t2 t3 t4 t5 t6 :
  Split jobName "-" = [t0; t1; t2; t3; t4; t5; t6] →
  newE2ETest outputDir jobName job config =
    if (3 <=? String.length t5)%nat then
      Ok {| E2ETest_JobName := jobName;
            E2ETest_fields := [t0; t1; t2; t3; t4; t5; t6];
            E2ETest_Job := job;
            E2ETest_Common := ConfigFile_Common config;
            E2ETest_CloudProvider := CloudProviders config !!! t3;
            E2ETest_Image := Images config !!! t4;
            E2ETest_K8SVersion :=
              K8SVersions config
                !!! String.substring 3 (String.length t5 - 3) t5;
            E2ETest_TestSuite := TestSuites config !!! t6 |}
    else Panic SliceBoundsOutOfRange.
Proof.
  intros H. unfold newE2ETest. rewrite H.
  destruct (3 <=? String.length t5)%nat eqn:Hn; simpl;
    change (slice t5 3 (len t5)) with (slice t5 (Z.of_nat 3) (len t5));
    by rewrite slice_from, Hn.
Qed.

Lemma newE2ETest_wrong_count outputDir jobName job config :
  length (Split jobName "-") ≠ 7%nat →
  newE2ETest outputDir jobName job config = Fatal Expected7Fields.
Proof.
  intros H%Nat.eqb_neq. unfold newE2ETest. by rewrite H.
Qed.

Lemma newE2ENodeTest_fields jobName job config t0 t1 t2 t3 t4 t5 :
  Split jobName "-" = [t0; t1; t2; t3; t4; t5] →
  newE2ENodeTest jobName job config =
    if (3 <=? String.length t4)%nat then
      Ok {| E2ENodeTest_JobName := jobName;
            E2ENodeTest_fields := [t0; t1; t2; t3; t4; t5];
            E2ENodeTest_Job := job;
            E2ENodeTest_Common := ConfigFile_Common config;
            E2ENodeTest_Image := Images config !!! t3;
            E2ENodeTest_K8SVersion :=
              NodeK8SVersions config
                !!! String.substring 3 (String.length t4 - 3) t4;
            E2ENodeTest_TestSuite := TestSuites config !!! t5 |}
    else Panic SliceBoundsOutOfRange.
Proof.
  intros H. unfold newE2ENodeTest. rewrite H.
  destruct (3 <=? String.length t4)%nat eqn:Hn; simpl;
    change (slice t4 3 (len t4)) with (slice t4 (Z.of_nat 3) (len t4));
    by rewrite slice_from, Hn.
Qed.

Lemma newE2ENodeTest_wrong_count jobName job config :
  length (Split jobName "-") ≠ 6%nat →
  newE2ENodeTest jobName job config = Fatal Expected6Fields.
Proof.
  intros H%Nat.eqb_neq. unfold newE2ENodeTest. by rewrite H.
Qed.

Lemma E2ETest_generate_eq et t0 t1 t2 t3 t4 t5 t6 :
  E2ETest_fields et = [t0; t1; t2; t3; t4; t5; t6] →
  E2ETest_generate et =
    prowConfig ← E2ETest_getProwConfig et (E2ETest_TestSuite et);
    Ok (E2ETest_getJobDefinition et (e2eLayers et),
        Periodic_with_Annotations prowConfig (e2eAnnotations et t3 t4 t5 t6),
        E2ETest_getTestGridConfig et).
Proof.
  intros H. unfold E2ETest_generate. rewrite H.
  unfold E2ETest_getProwConfig. rewrite getProwConfig_shared_eq.
  destruct (hasSchedule _); [|done].
  destruct (scanTimeout _) as [t| |]; [|done..].
  unfold e2eAnnotations, e2eDashboards, e2eLayers.
  cbn [length Nat.eqb negb mbind Outcome_bind mret Outcome_ret index lookup
       list_lookup app Periodic_Annotations Periodic_with_Timeout
       scheduledPeriodic].
  rewrite <-!app_assoc.
  by destruct (nonempty (Image_TestgridPrefix (E2ETest_Image et)));
    rewrite ?app_nil_r.
Qed.

Lemma forEachJob_finish_eq jobName job jobConfig prowConfig testgridConfig c :
  Containers (Periodic_Spec prowConfig) = [c] →
  forEachJob_finish jobName job (jobConfig, prowConfig, testgridConfig) =
    Ok (mapContainers (finishContainer jobName job jobConfig) prowConfig,
        testgridConfig).
Proof.
  intros H. unfold forEachJob_finish, update_Containers0, mapContainers.
  rewrite H. reflexivity.
Qed.

Lemma forEachJob_e2e_eq outputDir jobName job config t0 t1 t3 t4 t5 t6 :
  Split jobName "-" = [t0; t1; "e2e"; t3; t4; t5; t6] →
  forEachJob outputDir jobName job config =
    if (3 <=? String.length t5)%nat then
      let et :=
        e2eTestOf jobName job config [t0; t1; "e2e"; t3; t4; t5; t6]
          t3 t4 t5 t6 in
      p0 ← getProwConfig_shared jobName job (TestSuites config !!! t6);
      Ok (mapContainers
            (finishContainer jobName job
               (E2ETest_getJobDefinition et (e2eLayers et)))
            (Periodic_with_Annotations p0 (e2eAnnotations et t3 t4 t5 t6)),
          E2ETest_getTestGridConfig et)
    else Panic SliceBoundsOutOfRange.
Proof.
  intros H. rewrite (forEachJob_kind _ _ _ _ "e2e") by (unfold kindOf; by rewrite H).
  change (String.eqb "e2e" "e2e") with true. cbv iota.
  rewrite (newE2ETest_fields _ _ _ _ _ _ _ _ _ _ _ H).
  destruct (3 <=? String.length t5)%nat; [|done].
  cbn [mbind Outcome_bind].
  erewrite E2ETest_generate_eq by reflexivity.
  unfold E2ETest_getProwConfig. cbn [E2ETest_JobName E2ETest_Job E2ETest_TestSuite].
  rewrite getProwConfig_shared_eq.
  destruct (hasSchedule job); [|done].
  destruct (scanTimeout _) as [t| |]; [|done..].
  cbn [mbind Outcome_bind]. by erewrite forEachJob_finish_eq.
Qed.

(** ** The [--node-args=] pass of [E2ENodeTest.generate] *)

Lemma valueOf_nodeFlag v : valueOf (nodeFlag +:+ v) = v.
Proof. reflexivity. Qed.

Lemma Contains_nodeFlag_Cut arg :
  Contains arg nodeFlag = true → ∃ name, Cut arg "=" = Some (name, valueOf arg).
Proof.
  induction arg as [|c arg IH]; [done|].
  intros H. cbn [Contains] in H. apply orb_true_iff in H as [H|H].
  - apply prefix_inv in H as [u ->]. by exists "--node-args".
  - destruct (IH H) as [name Hname]. unfold valueOf. cbn [Cut].
    destruct (Ascii.eqb c "="); [by eexists|].
    rewrite Hname. by eexists.
Qed.

Lemma index_SplitN2 arg :
  Contains arg nodeFlag = true → index (SplitN2 arg "=") 1 = Ok (valueOf arg).
Proof.
  intros [name H]%Contains_nodeFlag_Cut. unfold SplitN2. by rewrite H.
Qed.

Lemma partitionNodeArgs_eq args nodeArgs jobArgs :
  partitionNodeArgs args nodeArgs jobArgs =
    Ok (nodeArgs ++ (valueOf <$> List.filter hasNodeFlag args),
        jobArgs ++ List.filter (fun arg => negb (hasNodeFlag arg)) args).
Proof.
  revert nodeArgs jobArgs.
  induction args as [|arg rest IH]; intros nodeArgs jobArgs; simpl.
  - by rewrite !app_nil_r.
  - change (hasNodeFlag arg) with (Contains arg nodeFlag).
    destruct (Contains arg nodeFlag) eqn:Hc; simpl.
    + rewrite index_SplitN2 by done. simpl. rewrite IH.
      by rewrite <-app_assoc.
    + rewrite IH. by rewrite <-app_assoc.
Qed.

(** All values, each followed by a space. *)
Lemma fold_left_flag values flag :
  fold_left (fun flag arg => flag +:+ arg +:+ " ") values flag =
    flag +:+ foldr (fun arg rest => arg +:+ " " +:+ rest) "" values.
Proof.
  revert flag. induction values as [|v values IH]; intros flag; simpl.
  - by rewrite app_nil_r_string.
  - rewrite IH. by rewrite !app_assoc_string.
Qed.

Lemma foldr_Join v values :
  foldr (fun arg rest => arg +:+ " " +:+ rest) "" (v :: values) =
    Join (v :: values) " " +:+ " ".
Proof.
  revert v. induction values as [|w values IH]; intros v.
  - simpl. by rewrite app_nil_r_string.
  - change (foldr _ "" (v :: w :: values))
      with (v +:+ " " +:+ foldr (fun arg rest => arg +:+ " " +:+ rest) ""
                            (w :: values)).
    rewrite IH. cbn [Join]. by rewrite !app_assoc_string.
Qed.

(** Trimming: a trailing space goes, a leading "-" stays. *)
Lemma get_length_app s c t :
  String.get (String.length s) (s +:+ String c t) = Some c.
Proof. induction s as [|c' s IH]; [done|]. simpl. apply IH. Qed.

Lemma trailingSpace_space s : trailingSpace (s +:+ " ") = 1%nat.
Proof.
  unfold trailingSpace. rewrite length_app_string. simpl String.length.
  assert ((1 <=? String.length s + 1)%nat = true) as ->
    by (apply Nat.leb_le; lia).
  replace (String.length s + 1 - 1)%nat with (String.length s) by lia.
  unfold byteAt. by rewrite get_length_app.
Qed.

Lemma TrimRightSpace_space s : TrimRightSpace (s +:+ " ") = TrimRightSpace s.
Proof.
  unfold TrimRightSpace. rewrite length_app_string. simpl String.length.
  replace (String.length s + 1)%nat with (S (String.length s)) by lia.
  cbn [TrimRight_fuel]. rewrite trailingSpace_space, length_app_string.
  simpl String.length.
  replace (String.length s + 1 - 1)%nat with (String.length s) by lia.
  by rewrite substring_0_app.
Qed.

Lemma TrimLeftSpace_dash s : TrimLeftSpace (String "-" s) = String "-" s.
Proof. reflexivity. Qed.

Lemma TrimSpace_dash_space s :
  TrimSpace (String "-" s +:+ " ") = TrimSpace (String "-" s).
Proof.
  unfold TrimSpace. rewrite app_cons_string, !TrimLeftSpace_dash.
  rewrite <-app_cons_string. apply TrimRightSpace_space.
Qed.

Lemma coalesceNodeArgs_eq args : coalesceNodeArgs args = Ok (coalesced args).
Proof.
  unfold coalesceNodeArgs, coalesced. rewrite partitionNodeArgs_eq.
  cbn [mbind Outcome_bind app].
  destruct (List.filter hasNodeFlag args) as [|arg picked].
  - by rewrite app_nil_r.
  - cbn [fmap list_fmap length Nat.eqb negb]. do 2 f_equal.
    rewrite fold_left_flag. f_equal.
    rewrite (foldr_Join (valueOf arg) (valueOf <$> picked)).
    rewrite <-app_assoc_string. apply (TrimSpace_dash_space _).
Qed.

Lemma E2ENodeTest_generate_eq ent t0 t1 t2 t3 t4 t5 :
  E2ENodeTest_fields ent = [t0; t1; t2; t3; t4; t5] →
  E2ENodeTest_generate ent =
    prowConfig ←
      E2ENodeTest_getProwConfig ent (E2ENodeTest_TestSuite ent)
        (E2ENodeTest_K8SVersion ent);
    Ok (Job_with_Args (E2ENodeTest_getJobDefinition ent (e2enodeLayers ent))
          (coalesced (e2enodeLayers ent)),
        if nonempty (Image_TestgridPrefix (E2ENodeTest_Image ent))
        then Periodic_with_Annotations prowConfig
               (e2enodeAnnotations ent t3 t4 t5)
        else prowConfig).
Proof.
  intros H. unfold E2ENodeTest_generate. rewrite H.
  rewrite E2ENodeTest_getProwConfig_eq, getProwConfig_shared_eq.
  destruct (hasSchedule _); [|done].
  destruct (scanTimeout _) as [t| |]; [|done..].
  cbn [length Nat.eqb negb mbind Outcome_bind mret Outcome_ret app].
  change (Job_Args (E2ENodeTest_getJobDefinition ent ?a)) with a.
  rewrite <-!app_assoc. fold (e2enodeLayers ent).
  rewrite coalesceNodeArgs_eq. cbn [mbind Outcome_bind].
  by destruct (nonempty (Image_TestgridPrefix (E2ENodeTest_Image ent))).
Qed.

Lemma forEachJob_e2enode_eq outputDir jobName job config t0 t1 t3 t4 t5 :
  Split jobName "-" = [t0; t1; "e2enode"; t3; t4; t5] →
  forEachJob outputDir jobName job config =
    if (3 <=? String.length t4)%nat then
      let ent :=
        e2enodeTestOf jobName job config [t0; t1; "e2enode"; t3; t4; t5]
          t3 t4 t5 in
      p0 ← getProwConfig_shared jobName job (TestSuites config !!! t5);
      Ok (mapContainers
            (finishContainer jobName job
               (Job_with_Args
                  (E2ENodeTest_getJobDefinition ent (e2enodeLayers ent))
                  (coalesced (e2enodeLayers ent))))
            (let p1 :=
               mapContainers (nodeContainer (E2ENodeTest_K8SVersion ent)) p0 in
             if nonempty (Image_TestgridPrefix (E2ENodeTest_Image ent))
             then Periodic_with_Annotations p1 (e2enodeAnnotations ent t3 t4 t5)
             else p1),
          inhabitant)
    else Panic SliceBoundsOutOfRange.
Proof.
  intros H.
  rewrite (forEachJob_kind _ _ _ _ "e2enode") by (unfold kindOf; by rewrite H).
  change (String.eqb "e2enode" "e2e") with false.
  change (String.eqb "e2enode" "e2enode") with true. cbv iota.
  rewrite (newE2ENodeTest_fields _ _ _ _ _ _ _ _ _ H).
  destruct (3 <=? String.length t4)%nat; [|done].
  cbn [mbind Outcome_bind].
  erewrite E2ENodeTest_generate_eq by reflexivity.
  rewrite E2ENodeTest_getProwConfig_eq.
  cbn [E2ENodeTest_JobName E2ENodeTest_Job E2ENodeTest_TestSuite].
  rewrite getProwConfig_shared_eq.
  destruct (hasSchedule job); [|done].
  destruct (scanTimeout _) as [t| |]; [|done..].
  cbn [mbind Outcome_bind mret Outcome_ret].
  destruct (nonempty (Image_TestgridPrefix _)); by erewrite forEachJob_finish_eq.
Qed.

(** ** Running the generator *)

Example main_config :
  Example.summaries (main "out" Example.config) =
    Ok ([("1h", "", "140m",
          [["--check-leaked-resources"; "--provider=gce";
            "--gcp-node-image=gci"; "--node-args=a";
            "--extract=ci/latest-1.29"; "--timeout=120m"; "--x=1";
            "--node-args=b"; "--foo=3"; "--cluster=e2e-1789b1211d"]],
          Some "sig-release-1.29-blocking, google-gce-cos-k8sbeta");
         ("", "0 3 * * *", "140m",
          [["--repo-root=."; "--root=/go/src"; "--check-leaked-resources";
            "--foo=1"; "--gcp-node-image=gci"; "--timeout=120m"; "--x=1";
            "--node-args=a b"]],
          Some "google-gce-cos-k8sbeta")],
        [mkTestGroup "" "" []]).
Proof. vm_compute. reflexivity. Qed.

Example getArgs_placeholder :
  getArgs Example.e2eName ["--cluster=e2e-${job_name_hash}"; "--x=${y}"]
  = ["--cluster=e2e-1789b1211d"; "--x=${y}"].
Proof. vm_compute. reflexivity. Qed.

Example sha1_abc :
  getSHA1Hash "abc" = "a9993e364706816aba3e25717850c26c9cd0d89d".
Proof. vm_compute. reflexivity. Qed.

Example sha1_two_blocks :
  getSHA1Hash "abcdbcdecdefdefgefghfghighijhijkijkljklmklmnlmnomnopnopq"
  = "84983e441c3bd26ebaae4aa1f95129e5e54670f1".
Proof. vm_compute. reflexivity. Qed.

(** ** Names that compile *)

Lemma kindOf_fields jobName kind :
  kindOf jobName = Some kind →
  ∃ t0 t1 rest, Split jobName "-" = t0 :: t1 :: kind :: rest.
Proof.
  unfold kindOf. destruct (Split jobName "-") as [|t0 [|t1 [|t2 rest]]]; try done.
  intros [= ->]. eauto.
Qed.

Lemma forEachJob_e2e_fields outputDir jobName job config :
  kindOf jobName = Some "e2e" →
  (∀ e, forEachJob outputDir jobName job config ≠ Fatal e) →
  ∃ t0 t1 t3 t4 t5 t6,
    Split jobName "-" = [t0; t1; "e2e"; t3; t4; t5; t6].
Proof.
  intros Hk Hf.
  destruct (decide (length (Split jobName "-") = 7%nat)) as [Hl|Hl].
  - destruct (kindOf_fields _ _ Hk) as (t0 & t1 & rest & H). rewrite H in Hl.
    destruct rest as [|t3 [|t4 [|t5 [|t6 [|]]]]]; try done. eauto 10.
  - exfalso. apply (Hf Expected7Fields).
    rewrite (forEachJob_kind _ _ _ _ _ Hk).
    change (String.eqb "e2e" "e2e") with true. cbv iota.
    by rewrite newE2ETest_wrong_count.
Qed.

Lemma forEachJob_e2enode_fields outputDir jobName job config :
  kindOf jobName = Some "e2enode" →
  (∀ e, forEachJob outputDir jobName job config ≠ Fatal e) →
  ∃ t0 t1 t3 t4 t5,
    Split jobName "-" = [t0; t1; "e2enode"; t3; t4; t5].
Proof.
  intros Hk Hf.
  destruct (decide (length (Split jobName "-") = 6%nat)) as [Hl|Hl].
  - destruct (kindOf_fields _ _ Hk) as (t0 & t1 & rest & H). rewrite H in Hl.
    destruct rest as [|t3 [|t4 [|t5 [|]]]]; try done. eauto 10.
  - exfalso. apply (Hf Expected6Fields).
    rewrite (forEachJob_kind _ _ _ _ _ Hk).
    change (String.eqb "e2enode" "e2e") with false.
    change (String.eqb "e2enode" "e2enode") with true. cbv iota.
    by rewrite newE2ENodeTest_wrong_count.
Qed.

(** What [forEachJob] returns for a name of either kind, when it returns. *)
Lemma forEachJob_e2e_Ok outputDir jobName job config p tg :
  kindOf jobName = Some "e2e" →
  forEachJob outputDir jobName job config = Ok (p, tg) →
  ∃ t0 t1 t3 t4 t5 t6 p0,
    Split jobName "-" = [t0; t1; "e2e"; t3; t4; t5; t6] ∧
    (3 ≤ String.length t5)%nat ∧
    let et :=
      e2eTestOf jobName job config [t0; t1; "e2e"; t3; t4; t5; t6]
        t3 t4 t5 t6 in
    getProwConfig_shared jobName job (TestSuites config !!! t6) = Ok p0 ∧
    p = mapContainers
          (finishContainer jobName job
             (E2ETest_getJobDefinition et (e2eLayers et)))
          (Periodic_with_Annotations p0 (e2eAnnotations et t3 t4 t5 t6)) ∧
    tg = E2ETest_getTestGridConfig et.
Proof.
  intros Hk Hok.
  destruct (forEachJob_e2e_fields outputDir jobName job config Hk)
    as (t0 & t1 & t3 & t4 & t5 & t6 & H); [by rewrite Hok|].
  rewrite (forEachJob_e2e_eq _ _ _ _ _ _ _ _ _ _ H) in Hok.
  destruct (3 <=? String.length t5)%nat eqn:Hn; [|done].
  apply Nat.leb_le in Hn. cbv zeta in Hok.
  apply bind_Ok in Hok as (p0 & Hp0 & [= <- <-]).
  exists t0, t1, t3, t4, t5, t6, p0. by repeat split.
Qed.

Lemma forEachJob_e2enode_Ok outputDir jobName job config p tg :
  kindOf jobName = Some "e2enode" →
  forEachJob outputDir jobName job config = Ok (p, tg) →
  ∃ t0 t1 t3 t4 t5 p0,
    Split jobName "-" = [t0; t1; "e2enode"; t3; t4; t5] ∧
    (3 ≤ String.length t4)%nat ∧
    let ent :=
      e2enodeTestOf jobName job config [t0; t1; "e2enode"; t3; t4; t5]
        t3 t4 t5 in
    getProwConfig_shared jobName job (TestSuites config !!! t5) = Ok p0 ∧
    p = mapContainers
          (finishContainer jobName job
             (Job_with_Args
                (E2ENodeTest_getJobDefinition ent (e2enodeLayers ent))
                (coalesced (e2enodeLayers ent))))
          (let p1 :=
             mapContainers (nodeContainer (E2ENodeTest_K8SVersion ent)) p0 in
           if nonempty (Image_TestgridPrefix (E2ENodeTest_Image ent))
           then Periodic_with_Annotations p1 (e2enodeAnnotations ent t3 t4 t5)
           else p1) ∧
    tg = inhabitant.
Proof.
  intros Hk Hok.
  destruct (forEachJob_e2enode_fields outputDir jobName job config Hk)
    as (t0 & t1 & t3 & t4 & t5 & H); [by rewrite Hok|].
  rewrite (forEachJob_e2enode_eq _ _ _ _ _ _ _ _ _ H) in Hok.
  destruct (3 <=? String.length t4)%nat eqn:Hn; [|done].
  apply Nat.leb_le in Hn. cbv zeta in Hok.
  apply bind_Ok in Hok as (p0 & Hp0 & [= <- <-]).
  exists t0, t1, t3, t4, t5, p0. by repeat split.
Qed.

(** Exactly the names of kind e2e or e2enode can compile. *)
Lemma forEachJob_Ok_kind outputDir jobName job config r :
  forEachJob outputDir jobName job config = Ok r →
  kindOf jobName = Some "e2e" ∨ kindOf jobName = Some "e2enode".
Proof.
  intros Hok. destruct (kindOf jobName) as [kind|] eqn:Hk.
  - rewrite (forEachJob_kind _ _ _ _ _ Hk) in Hok.
    destruct (String.eqb kind "e2e") eqn:He;
      [apply String.eqb_eq in He as ->; by left|].
    destruct (String.eqb kind "e2enode") eqn:Hn;
      [apply String.eqb_eq in Hn as ->; by right|].
    done.
  - by rewrite forEachJob_too_short in Hok.
Qed.

(** ** C1: test groups in the output document *)

Lemma E2ETest_getTestGridConfig_isEmpty et :
  TestGroup_isEmpty (E2ETest_getTestGridConfig et) = true.
Proof.
  unfold TestGroup_isEmpty. simpl. apply orb_true_r.
Qed.

Lemma mainLoopBody_TestGroups outputDir config acc jobName acc' :
  mainLoopBody outputDir config acc jobName = Ok acc' →
  (kindOf jobName = Some "e2e" ∧
     TestGroups (snd acc') = TestGroups (snd acc))
  ∨ (kindOf jobName = Some "e2enode" ∧
     TestGroups (snd acc') = TestGroups (snd acc) ++ [mkTestGroup "" "" []]).
Proof.
  destruct acc as [outputConfig testgridConfig]. unfold mainLoopBody.
  intros ([prow testgrid] & Hjob & Hacc)%bind_Ok.
  destruct (forEachJob_Ok_kind _ _ _ _ _ Hjob) as [Hk|Hk]; [left|right].
  - apply forEachJob_e2e_Ok in Hjob
      as (t0 & t1 & t3 & t4 & t5 & t6 & p0 & _ & _ & _ & _ & ->); [|done].
    rewrite E2ETest_getTestGridConfig_isEmpty in Hacc. by injection Hacc as <-.
  - apply forEachJob_e2enode_Ok in Hjob
      as (t0 & t1 & t3 & t4 & t5 & p0 & _ & _ & _ & _ & ->); [|done].
    by injection Hacc as <-.
Qed.

Lemma fold_left_bind_not_Ok {A B} (body : A → B → Outcome A) l init :
  isOk init = false →
  isOk (fold_left (fun acc x => acc ≫= fun a => body a x) l init) = false.
Proof.
  revert init. induction l as [|x l IH]; intros init H; [done|].
  simpl. apply IH. by destruct init.
Qed.

Lemma main_loop_TestGroups outputDir config jobNames acc r :
  fold_left
    (fun acc jobName => acc ≫= fun acc => mainLoopBody outputDir config acc jobName)
    jobNames (Ok acc) = Ok r →
  (∀ g, g ∈ TestGroups (snd acc) → g = mkTestGroup "" "" []) →
  ∀ g, g ∈ TestGroups (snd r) → g = mkTestGroup "" "" [].
Proof.
  revert acc. induction jobNames as [|jobName jobNames IH]; intros acc Hr Hacc.
  - by injection Hr as <-.
  - simpl in Hr.
    destruct (mainLoopBody outputDir config acc jobName) as [acc'|e|e] eqn:Hbody.
    + apply (IH acc' Hr).
      destruct (mainLoopBody_TestGroups _ _ _ _ _ Hbody) as [[_ ->]|[_ ->]];
        [done|].
      intros g [Hg|Hg%list_elem_of_singleton]%elem_of_app; auto.
    + pose proof (fold_left_bind_not_Ok (mainLoopBody outputDir config)
                    jobNames (Fatal e) eq_refl) as Hno.
      cbv beta in Hno. by rewrite Hr in Hno.
    + pose proof (fold_left_bind_not_Ok (mainLoopBody outputDir config)
                    jobNames (Panic e) eq_refl) as Hno.
      cbv beta in Hno. by rewrite Hr in Hno.
Qed.

(** C1 (the code does the opposite).  [isEmpty] is true of a test group
    with content, and [main] appends a test group when [isEmpty] is false:
    in the loop of [main] the test group of a job of kind e2e is never
    appended to the test-group document, and for a job of kind e2enode the
    zero test group is appended; whatever the configuration, the document
    holds zero test groups only. *)
Theorem C1_test_group_presence_inverted :
  (∀ outputDir config acc jobName acc',
     mainLoopBody outputDir config acc jobName = Ok acc' →
     kindOf jobName = Some "e2e" →
     TestGroups (snd acc') = TestGroups (snd acc)) ∧
  (∀ outputDir config acc jobName acc',
     mainLoopBody outputDir config acc jobName = Ok acc' →
     kindOf jobName = Some "e2enode" →
     TestGroups (snd acc') = TestGroups (snd acc) ++ [mkTestGroup "" "" []]) ∧
  (∀ outputDir config outputConfig testgridConfig,
     main outputDir config = Ok (outputConfig, testgridConfig) →
     ∀ g, g ∈ TestGroups testgridConfig → g = mkTestGroup "" "" []).
Proof.
  split; [|split].
  - intros outputDir config acc jobName acc' Hbody Hk.
    destruct (mainLoopBody_TestGroups _ _ _ _ _ Hbody) as [[_ H]|[Hk' _]];
      [done|congruence].
  - intros outputDir config acc jobName acc' Hbody Hk.
    destruct (mainLoopBody_TestGroups _ _ _ _ _ Hbody) as [[Hk' _]|[_ H]];
      [congruence|done].
  - intros outputDir config outputConfig testgridConfig Hmain.
    apply (main_loop_TestGroups _ _ _ _ _ Hmain).
    intros g Hg. by apply elem_of_nil in Hg.
Qed.

Lemma C1_test_group_presence_inverted_witness :
  (∃ acc', mainLoopBody "out" Example.config Example.start Example.e2eName
             = Ok acc' ∧ TestGroups (snd acc') = []) ∧
  (∃ acc', mainLoopBody "out" Example.config Example.start Example.e2enodeName
             = Ok acc' ∧ TestGroups (snd acc') = [mkTestGroup "" "" []]).
Proof.
  split.
  - destruct (mainLoopBody "out" Example.config Example.start Example.e2eName)
      as [acc'| |] eqn:H; [|vm_compute in H; discriminate H..].
    exists acc'. split; [reflexivity|].
    apply (proj1 C1_test_group_presence_inverted _ _ _ _ _ H). reflexivity.
  - destruct (mainLoopBody "out" Example.config Example.start Example.e2enodeName)
      as [acc'| |] eqn:H; [|vm_compute in H; discriminate H..].
    exists acc'. split; [reflexivity|].
    apply (proj1 (proj2 C1_test_group_presence_inverted) _ _ _ _ _ H).
    reflexivity.
Defined.

(** ** The compiled job's schedule and timeout *)

Lemma hasTimeoutEntry_false args :
  hasTimeoutEntry args = false →
  ∀ arg, arg ∈ args → HasPrefix arg "--timeout=" = false.
Proof.
  unfold hasTimeoutEntry. induction args as [|a args IH]; simpl.
  - intros _ arg Harg. by apply elem_of_nil in Harg.
  - intros [Ha Hargs]%orb_false_iff arg [->|Harg]%elem_of_cons; auto.
Qed.

(** The test-suite key is the last field of a name of either kind. *)
Lemma forEachJob_Ok_inv outputDir jobName job config p tg :
  forEachJob outputDir jobName job config = Ok (p, tg) →
  ∃ key timeout,
    last (Split jobName "-") = Some key ∧
    hasSchedule job = true ∧
    scanTimeout (TestSuite_Args (TestSuites config !!! key)) = Ok timeout ∧
    Timeout (Periodic_DecorationConfig p)
      = Itoa (wrap64 (timeout + 20)) +:+ "m" ∧
    oneSchedule p.
Proof.
  intros Hok. destruct (forEachJob_Ok_kind _ _ _ _ _ Hok) as [Hk|Hk].
  - apply forEachJob_e2e_Ok in Hok
      as (t0 & t1 & t3 & t4 & t5 & t6 & p0 & H & _ & Hp0 & -> & _); [|done].
    apply getProwConfig_shared_Ok in Hp0 as (Hs & t & Ht & ->).
    exists t6, t. rewrite H. repeat split; try done.
    by apply (scheduledPeriodic_oneSchedule jobName job (TestSuites config !!! t6)).
  - apply forEachJob_e2enode_Ok in Hok
      as (t0 & t1 & t3 & t4 & t5 & p0 & H & _ & Hp0 & -> & _); [|done].
    apply getProwConfig_shared_Ok in Hp0 as (Hs & t & Ht & ->).
    exists t5, t. rewrite H. repeat split; try done.
    + cbv zeta. by destruct (nonempty (Image_TestgridPrefix _)).
    + pose proof (scheduledPeriodic_oneSchedule jobName job
                    (TestSuites config !!! t5) Hs) as Hone.
      cbv zeta. by destruct (nonempty (Image_TestgridPrefix _)).
Qed.

Lemma forEachJob_no_schedule outputDir jobName job config :
  hasSchedule job = false →
  isOk (forEachJob outputDir jobName job config) = false.
Proof.
  intros Hs. destruct (forEachJob _ _ _ _) as [[p tg]| |] eqn:Hok; [|done..].
  apply forEachJob_Ok_inv in Hok as (? & ? & _ & Hs' & _). congruence.
Qed.

(** ** The batch *)

Lemma fold_left_bind_Ok {A B} (body : A → B → Outcome A) l init r :
  fold_left (fun acc x => acc ≫= fun a => body a x) l init = Ok r →
  ∀ x, x ∈ l → ∃ a, isOk (body a x) = true.
Proof.
  revert init. induction l as [|y l IH]; intros init H x Hx.
  - by apply elem_of_nil in Hx.
  - simpl in H. apply elem_of_cons in Hx as [->|Hx]; [|by eapply IH].
    destruct init as [a| |].
    + exists a. simpl in H. destruct (body a y); [done|..].
      all: exfalso; clear -H; induction l; simpl in H; [done|auto].
    + exfalso; clear -H; induction l; simpl in H; [done|auto].
    + exfalso; clear -H; induction l; simpl in H; [done|auto].
Qed.

Lemma sortedJobNames_elem config jobName :
  jobName ∈ sortedJobNames config ↔ is_Some (Jobs config !! jobName).
Proof.
  unfold sortedJobNames. rewrite merge_sort_Permutation.
  rewrite list_elem_of_fmap. split.
  - intros ([k j] & -> & H%elem_of_map_to_list). by exists j.
  - intros [j H]. exists (jobName, j). split; [done|].
    by apply elem_of_map_to_list.
Qed.

Lemma main_Ok_forEachJob outputDir config r jobName job :
  main outputDir config = Ok r →
  Jobs config !! jobName = Some job →
  isOk (forEachJob outputDir jobName job config) = true.
Proof.
  unfold main. intros Hmain Hjob.
  destruct (fold_left_bind_Ok (mainLoopBody outputDir config) _ _ _ Hmain jobName)
    as [[out tg] Hbody].
  { apply sortedJobNames_elem. by exists job. }
  unfold mainLoopBody in Hbody.
  rewrite (lookup_total_correct _ _ _ Hjob) in Hbody.
  by destruct (forEachJob outputDir jobName job config).
Qed.

(** ** C2: no [--timeout=] entry *)

(** C2 (the code does otherwise).  Without an entry beginning with
    "--timeout=" in the test suite's arguments no error is raised, but the
    timeout of the emitted job is "20m": the default "180m" is overwritten
    with the zero timeout plus the buffer. *)
Theorem C2_default_timeout_overwritten testSuite :
  hasTimeoutEntry (TestSuite_Args testSuite) = false →
  (∀ et, hasSchedule (E2ETest_Job et) = true →
     ∃ p, E2ETest_getProwConfig et testSuite = Ok p ∧
          Timeout (Periodic_DecorationConfig p) = "20m") ∧
  (∀ ent k8sVersion, hasSchedule (E2ENodeTest_Job ent) = true →
     ∃ p, E2ENodeTest_getProwConfig ent testSuite k8sVersion = Ok p ∧
          Timeout (Periodic_DecorationConfig p) = "20m") ∧
  (∀ outputDir jobName job config key p tg,
     last (Split jobName "-") = Some key →
     TestSuites config !!! key = testSuite →
     forEachJob outputDir jobName job config = Ok (p, tg) →
     Timeout (Periodic_DecorationConfig p) = "20m").
Proof.
  intros Hnone'.
  pose proof (scanTimeout_none _ (hasTimeoutEntry_false _ Hnone')) as Hnone.
  repeat split.
  - intros et Hs. eexists. split.
    + apply E2ETest_getProwConfig_Ok. split; [done|]. by exists 0.
    + reflexivity.
  - intros ent k8sVersion Hs. eexists. split.
    + apply E2ENodeTest_getProwConfig_Ok. split; [done|]. by exists 0.
    + reflexivity.
  - intros outputDir jobName job config key p tg Hkey Hts Hok.
    apply forEachJob_Ok_inv in Hok as (key' & t & Hkey' & _ & Ht & -> & _).
    rewrite Hkey in Hkey'. injection Hkey' as <-.
    rewrite Hts, Hnone in Ht. by injection Ht as <-.
Qed.

Lemma C2_default_timeout_overwritten_witness :
  (∃ p, E2ETest_getProwConfig exampleE2ETest
          (mkTestSuite ["--ginkgo-parallel=1"] inhabitant "") = Ok p ∧
        Timeout (Periodic_DecorationConfig p) = "20m") ∧
  (∃ p tg, forEachJob "out" Example.e2eSlowName Example.hourly Example.config
           = Ok (p, tg) ∧
           Timeout (Periodic_DecorationConfig p) = "20m").
Proof.
  split.
  - apply (C2_default_timeout_overwritten
             (mkTestSuite ["--ginkgo-parallel=1"] inhabitant "")).
    + reflexivity.
    + reflexivity.
  - destruct (forEachJob "out" Example.e2eSlowName Example.hourly
                Example.config) as [[p tg]| |] eqn:H;
      [|vm_compute in H; discriminate H..].
    exists p, tg. split; [reflexivity|].
    apply (proj2 (proj2 (C2_default_timeout_overwritten
                           (mkTestSuite ["--ginkgo-parallel=1"] inhabitant "")
                           eq_refl))
             "out" Example.e2eSlowName Example.hourly Example.config "slow"
             p tg).
    + reflexivity.
    + vm_compute. reflexivity.
    + exact H.
Defined.

(** ** C6: the timeout entry *)

(** C6 as stated fails twice: the first entry with the prefix decides, not
    any entry of the form; and the sum is taken in 64 bits. *)
Lemma C6_counterexample :
  decorationTimeout
    (E2ETest_getProwConfig exampleE2ETest
       (mkTestSuite ["--timeout=30m"; "--timeout=120m"] inhabitant ""))
    = Some "50m" ∧
  decorationTimeout
    (E2ETest_getProwConfig exampleE2ETest
       (mkTestSuite ["--timeout=9223372036854775807m"] inhabitant ""))
    = Some "-9223372036854775789m".
Proof. split; vm_compute; reflexivity. Qed.

(** C6 (amended).  When the first entry of the test suite's arguments that
    begins with "--timeout=" is "--timeout=<v><unit>", with <unit> one byte:
    if <v> is a decimal numeral of value N with N and N + 20 in the range of
    [int], the job's decoration timeout is "<N+20>m" ("140m" for
    "--timeout=120m"); if <v> is not a decimal numeral, or its value is not
    in the range of [int], [getProwConfig] ends in a fatal error. *)
Theorem C6_timeout_of_first_entry testSuite pre v u post :
  TestSuite_Args testSuite = pre ++ ("--timeout=" +:+ v +:+ String u "") :: post →
  hasTimeoutEntry pre = false →
  (∀ N, decimal v = Some N → int_min ≤ N → N + 20 ≤ int_max →
     (∀ et, hasSchedule (E2ETest_Job et) = true →
        ∃ p, E2ETest_getProwConfig et testSuite = Ok p ∧
             Timeout (Periodic_DecorationConfig p) = Itoa (N + 20) +:+ "m") ∧
     (∀ ent k8sVersion, hasSchedule (E2ENodeTest_Job ent) = true →
        ∃ p, E2ENodeTest_getProwConfig ent testSuite k8sVersion = Ok p ∧
             Timeout (Periodic_DecorationConfig p) = Itoa (N + 20) +:+ "m") ∧
     (∀ outputDir jobName job config key p tg,
        last (Split jobName "-") = Some key →
        TestSuites config !!! key = testSuite →
        forEachJob outputDir jobName job config = Ok (p, tg) →
        Timeout (Periodic_DecorationConfig p) = Itoa (N + 20) +:+ "m")) ∧
  (v = "120" →
     ∀ et, hasSchedule (E2ETest_Job et) = true →
       ∃ p, E2ETest_getProwConfig et testSuite = Ok p ∧
            Timeout (Periodic_DecorationConfig p) = "140m") ∧
  (decimal v = None ∨ (∃ N, decimal v = Some N ∧ (N < int_min ∨ int_max < N)) →
     (∀ et, E2ETest_getProwConfig et testSuite =
            Fatal (if hasSchedule (E2ETest_Job et)
                   then ParsingTimeout else NoIntervalOrCron)) ∧
     (∀ ent k8sVersion,
        E2ENodeTest_getProwConfig ent testSuite k8sVersion =
          Fatal (if hasSchedule (E2ENodeTest_Job ent)
                 then ParsingTimeout else NoIntervalOrCron))).
Proof.
  intros Hargs Hpre. pose proof (hasTimeoutEntry_false _ Hpre) as Hpre'.
  assert (Hscan : scanTimeout (TestSuite_Args testSuite) =
                  match Atoi v with
                  | Some timeout => Ok timeout
                  | None => Fatal ParsingTimeout
                  end).
  { rewrite Hargs, scanTimeout_first by auto using timeout_entry_prefix.
    by rewrite timeout_entry_value. }
  assert (Hnum : ∀ N, decimal v = Some N → int_min ≤ N → N + 20 ≤ int_max →
            scanTimeout (TestSuite_Args testSuite) = Ok N ∧
            wrap64 (N + 20) = N + 20).
  { intros N HN Hlo Hhi. unfold int_max in *. split.
    - rewrite Hscan, (Atoi_decimal v N); [done..|unfold int_max; lia].
    - apply wrap64_small. unfold int_min, int_max in *. lia. }
  split; [|split].
  - intros N HN Hlo Hhi. destruct (Hnum N HN Hlo Hhi) as [HsN Hw].
    split; [|split].
    + intros et Hs. eexists. split.
      * apply E2ETest_getProwConfig_Ok. eauto.
      * simpl. by rewrite Hw.
    + intros ent k8sVersion Hs. eexists. split.
      * apply E2ENodeTest_getProwConfig_Ok. eauto.
      * simpl. by rewrite Hw.
    + intros outputDir jobName job config key p tg Hkey Hts Hok.
      apply forEachJob_Ok_inv in Hok as (key' & t & Hkey' & _ & Ht & -> & _).
      rewrite Hkey in Hkey'. injection Hkey' as <-.
      rewrite Hts, HsN in Ht. injection Ht as <-. by rewrite Hw.
  - intros -> et Hs.
    destruct (Hnum 120) as [HsN _]; [done|unfold int_min; lia|unfold int_max; lia|].
    eexists. split; [apply E2ETest_getProwConfig_Ok; eauto|reflexivity].
  - intros Hv.
    assert (Atoi v = None) as Hnone.
    { destruct Hv as [Hv|(N & Hv & HN)];
        eauto using Atoi_not_decimal, Atoi_out_of_range. }
    rewrite Hnone in Hscan. split.
    + intros et. unfold E2ETest_getProwConfig.
      rewrite getProwConfig_shared_eq, Hscan. by destruct (hasSchedule _).
    + intros ent k8sVersion.
      rewrite E2ENodeTest_getProwConfig_eq, getProwConfig_shared_eq, Hscan.
      by destruct (hasSchedule _).
Qed.

Lemma C6_timeout_of_first_entry_witness :
  ∃ p, E2ETest_getProwConfig exampleE2ETest
         (mkTestSuite ["--timeout=120m"; "--x=1"; "--node-args=b"] inhabitant "")
       = Ok p ∧
       Timeout (Periodic_DecorationConfig p) = "140m".
Proof.
  apply (C6_timeout_of_first_entry
           (mkTestSuite ["--timeout=120m"; "--x=1"; "--node-args=b"] inhabitant "")
           [] "120" "m" ["--x=1"; "--node-args=b"]).
  - reflexivity.
  - reflexivity.
  - reflexivity.
  - reflexivity.
Defined.

(** ** C7: the primary dashboard *)

(** C7.  [InitializeDashBoardsWithReleaseBlockingInfo] returns the primary
    dashboard alone; with ReleaseBlocking set and version "1.29" it is
    "sig-release-1.29-blocking"; and in every compiled job of kind e2e the
    dashboards annotation lists first the primary dashboard of the
    K8sVersion axis the name resolves to, then the image's dashboard if the
    image has a testgrid prefix. *)
Theorem C7_primary_dashboard :
  (∀ et version,
     E2ETest_InitializeDashBoardsWithReleaseBlockingInfo et version =
       [primaryDashboard (Job_ReleaseBlocking (E2ETest_Job et))
          (Job_ReleaseInforming (E2ETest_Job et)) version]) ∧
  (∀ et, Job_ReleaseBlocking (E2ETest_Job et) = true →
     E2ETest_InitializeDashBoardsWithReleaseBlockingInfo et "1.29" =
       ["sig-release-1.29-blocking"]) ∧
  (∀ outputDir jobName job config p tg,
     kindOf jobName = Some "e2e" →
     forEachJob outputDir jobName job config = Ok (p, tg) →
     ∃ t4 t5,
       Split jobName "-" !! 4%nat = Some t4 ∧
       Split jobName "-" !! 5%nat = Some t5 ∧
       Periodic_Annotations p !! "testgrid-dashboards" =
         Some (Join
                 (primaryDashboard (Job_ReleaseBlocking job)
                    (Job_ReleaseInforming job)
                    (K8SVersion_Version
                       (K8SVersions config !!! dropBytes 3 t5))
                  :: (let prefix := Image_TestgridPrefix (Images config !!! t4) in
                      if nonempty prefix
                      then [prefix +:+ "-" +:+ t4 +:+ "-" +:+ t5]
                      else [])) ", ")).
Proof.
  split; [|split].
  - intros et version.
    unfold E2ETest_InitializeDashBoardsWithReleaseBlockingInfo, primaryDashboard.
    by destruct (Job_ReleaseBlocking (E2ETest_Job et)),
      (Job_ReleaseInforming (E2ETest_Job et)).
  - intros et Hb.
    unfold E2ETest_InitializeDashBoardsWithReleaseBlockingInfo. by rewrite Hb.
  - intros outputDir jobName job config p tg Hk Hok.
    apply forEachJob_e2e_Ok in Hok
      as (t0 & t1 & t3 & t4 & t5 & t6 & p0 & H & _ & _ & -> & _); [|done].
    exists t4, t5. rewrite H. split; [done|]. split; [done|].
    cbn [mapContainers Periodic_Annotations Periodic_with_Spec
         Periodic_with_Annotations].
    unfold e2eAnnotations.
    rewrite lookup_insert_ne by done. rewrite lookup_insert_eq.
    unfold e2eDashboards, E2ETest_InitializeDashBoardsWithReleaseBlockingInfo,
      primaryDashboard.
    cbn [e2eTestOf E2ETest_Job E2ETest_K8SVersion E2ETest_Image app].
    by destruct (Job_ReleaseBlocking job), (Job_ReleaseInforming job).
Qed.

Lemma C7_primary_dashboard_witness :
  ∃ p tg, forEachJob "out" Example.e2eName Example.hourly Example.config
          = Ok (p, tg) ∧
    Periodic_Annotations p !! "testgrid-dashboards" =
      Some "sig-release-1.29-blocking, google-gce-cos-k8sbeta".
Proof.
  destruct (forEachJob "out" Example.e2eName Example.hourly Example.config)
    as [[p tg]| |] eqn:H; [|vm_compute in H; discriminate H..].
  exists p, tg. split; [reflexivity|].
  destruct (proj2 (proj2 C7_primary_dashboard) "out" Example.e2eName
              Example.hourly Example.config p tg eq_refl H)
    as (t4 & t5 & H4 & H5 & ->).
  injection H4 as <-. injection H5 as <-. vm_compute. reflexivity.
Defined.

(** ** C8 and C10: the shape of a job name *)

Lemma shapeOK_true jobName :
  shapeOK jobName = true →
  (∃ t0 t1 t3 t4 t5 t6, Split jobName "-" = [t0; t1; "e2e"; t3; t4; t5; t6])
  ∨ (∃ t0 t1 t3 t4 t5, Split jobName "-" = [t0; t1; "e2enode"; t3; t4; t5]).
Proof.
  unfold shapeOK. destruct (kindOf jobName) as [kind|] eqn:Hk; [|done].
  destruct (kindOf_fields _ _ Hk) as (t0 & t1 & rest & H). rewrite H.
  intros [[->%String.eqb_eq Hl%Nat.eqb_eq]%andb_true_iff
         |[->%String.eqb_eq Hl%Nat.eqb_eq]%andb_true_iff]%orb_true_iff.
  - left. destruct rest as [|t3 [|t4 [|t5 [|t6 [|]]]]]; try done. eauto 10.
  - right. destruct rest as [|t3 [|t4 [|t5 [|]]]]; try done. eauto 10.
Qed.

Lemma forEachJob_shapeOK_Fatal outputDir jobName job config e :
  shapeOK jobName = true →
  forEachJob outputDir jobName job config = Fatal e →
  isNameError e = false.
Proof.
  intros [(t0 & t1 & t3 & t4 & t5 & t6 & H)|(t0 & t1 & t3 & t4 & t5 & H)]
    %shapeOK_true.
  - rewrite (forEachJob_e2e_eq _ _ _ _ _ _ _ _ _ _ H).
    destruct (3 <=? String.length t5)%nat; [|done]. cbv zeta.
    destruct (getProwConfig_shared _ _ _) as [p0|e0|] eqn:Hp0; simpl; try done.
    intros [= <-]. by apply getProwConfig_shared_Fatal in Hp0 as [-> | ->].
  - rewrite (forEachJob_e2enode_eq _ _ _ _ _ _ _ _ _ H).
    destruct (3 <=? String.length t4)%nat; [|done]. cbv zeta.
    destruct (getProwConfig_shared _ _ _) as [p0|e0|] eqn:Hp0; simpl; try done.
    intros [= <-]. by apply getProwConfig_shared_Fatal in Hp0 as [-> | ->].
Qed.

Lemma forEachJob_not_shapeOK outputDir jobName job config :
  shapeOK jobName = false →
  ∃ e, forEachJob outputDir jobName job config = Fatal e ∧ isNameError e = true.
Proof.
  unfold shapeOK. destruct (kindOf jobName) as [kind|] eqn:Hk.
  - rewrite (forEachJob_kind _ _ _ _ _ Hk).
    destruct (String.eqb kind "e2e") eqn:He; simpl.
    + destruct (String.eqb kind "e2enode") eqn:Hn.
      { apply String.eqb_eq in He, Hn. congruence. }
      rewrite orb_false_r. intros Hl%Nat.eqb_neq.
      exists Expected7Fields. by rewrite newE2ETest_wrong_count.
    + destruct (String.eqb kind "e2enode") eqn:Hn; simpl.
      * intros Hl%Nat.eqb_neq.
        exists Expected6Fields. by rewrite newE2ENodeTest_wrong_count.
      * intros _. by exists UnexpectedJobType.
  - intros _. exists ExpectedAtLeast3Fields. by rewrite forEachJob_too_short.
Qed.

(** C8 as stated fails: a name of the right shape still ends in a fatal
    error when the job has no schedule, and in a panic, with no key taken,
    when its version field has fewer than three bytes. *)
Lemma C8_counterexample :
  shapeOK Example.e2eName = true ∧
  forEachJob "out" Example.e2eName Example.unscheduled Example.config
    = Fatal NoIntervalOrCron ∧
  shapeOK "ci-kubernetes-e2e-gce-cos-v1-default" = true ∧
  forEachJob "out" "ci-kubernetes-e2e-gce-cos-v1-default" Example.hourly
    Example.config = Panic SliceBoundsOutOfRange.
Proof. repeat split; vm_compute; reflexivity. Qed.

(** C8 (amended).  Compilation of a job name ends in one of the name
    parser's fatal errors exactly when the name fails the shape rules; and
    for a name of the right shape whose version field has at least three
    bytes the keys are taken at the fixed positions, the version key without
    its first three bytes. *)
Theorem C8_name_shape outputDir jobName job config :
  ((∃ e, forEachJob outputDir jobName job config = Fatal e
         ∧ isNameError e = true)
   ↔ shapeOK jobName = false) ∧
  (∀ t0 t1 t3 t4 t5 t6,
     Split jobName "-" = [t0; t1; "e2e"; t3; t4; t5; t6] →
     (3 ≤ String.length t5)%nat →
     ∃ et, newE2ETest outputDir jobName job config = Ok et ∧
       E2ETest_CloudProvider et = CloudProviders config !!! t3 ∧
       E2ETest_Image et = Images config !!! t4 ∧
       E2ETest_K8SVersion et = K8SVersions config !!! dropBytes 3 t5 ∧
       E2ETest_TestSuite et = TestSuites config !!! t6) ∧
  (∀ t0 t1 t3 t4 t5,
     Split jobName "-" = [t0; t1; "e2enode"; t3; t4; t5] →
     (3 ≤ String.length t4)%nat →
     ∃ ent, newE2ENodeTest jobName job config = Ok ent ∧
       E2ENodeTest_Image ent = Images config !!! t3 ∧
       E2ENodeTest_K8SVersion ent = NodeK8SVersions config !!! dropBytes 3 t4 ∧
       E2ENodeTest_TestSuite ent = TestSuites config !!! t5).
Proof.
  split; [|split].
  - split.
    + intros (e & He & Hname). destruct (shapeOK jobName) eqn:Hshape; [|done].
      rewrite (forEachJob_shapeOK_Fatal _ _ _ _ _ Hshape He) in Hname. done.
    + apply forEachJob_not_shapeOK.
  - intros t0 t1 t3 t4 t5 t6 H Hn%Nat.leb_le.
    rewrite (newE2ETest_fields _ _ _ _ _ _ _ _ _ _ _ H), Hn.
    eexists. split; [reflexivity|]. done.
  - intros t0 t1 t3 t4 t5 H Hn%Nat.leb_le.
    rewrite (newE2ENodeTest_fields _ _ _ _ _ _ _ _ _ H), Hn.
    eexists. split; [reflexivity|]. done.
Qed.

Lemma C8_name_shape_witness :
  ∃ et, newE2ETest "out" Example.e2eName Example.hourly Example.config = Ok et ∧
    E2ETest_CloudProvider et = mkCloudProvider ["--provider=gce"] ∧
    E2ETest_Image et
      = mkImage ["--gcp-node-image=gci"; "--node-args=a"] "google-gce" ∧
    E2ETest_K8SVersion et = mkK8SVersion ["--extract=ci/latest-1.29"] "1.29" ∧
    E2ETest_TestSuite et
      = mkTestSuite ["--timeout=120m"; "--x=1"; "--node-args=b"] inhabitant "".
Proof.
  apply (proj1 (proj2 (C8_name_shape "out" Example.e2eName Example.hourly
                         Example.config))
           "ci" "kubernetes" "gce" "cos" "k8sbeta" "default").
  - reflexivity.
  - simpl. lia.
Defined.

(** C10.  On a name of kind e2e with seven fields whose version field
    (index 5) has fewer than three bytes, and on a name of kind e2enode with
    six fields whose version field (index 4) has fewer than three bytes,
    [forEachJob] panics on the slice: no key is resolved and no fatal error
    is logged.  Such names exist. *)
Theorem C10_short_version_field_panics :
  (∀ outputDir jobName job config t0 t1 t3 t4 t5 t6,
     Split jobName "-" = [t0; t1; "e2e"; t3; t4; t5; t6] →
     (String.length t5 < 3)%nat →
     newE2ETest outputDir jobName job config = Panic SliceBoundsOutOfRange ∧
     forEachJob outputDir jobName job config = Panic SliceBoundsOutOfRange) ∧
  (∀ outputDir jobName job config t0 t1 t3 t4 t5,
     Split jobName "-" = [t0; t1; "e2enode"; t3; t4; t5] →
     (String.length t4 < 3)%nat →
     newE2ENodeTest jobName job config = Panic SliceBoundsOutOfRange ∧
     forEachJob outputDir jobName job config = Panic SliceBoundsOutOfRange) ∧
  (∃ jobName t0 t1 t3 t4 t5 t6,
     Split jobName "-" = [t0; t1; "e2e"; t3; t4; t5; t6]
     ∧ (String.length t5 < 3)%nat) ∧
  (∃ jobName t0 t1 t3 t4 t5,
     Split jobName "-" = [t0; t1; "e2enode"; t3; t4; t5]
     ∧ (String.length t4 < 3)%nat).
Proof.
  split; [|split; [|split]].
  - intros outputDir jobName job config t0 t1 t3 t4 t5 t6 H Hn.
    assert ((3 <=? String.length t5)%nat = false) as Hb by by apply Nat.leb_gt.
    rewrite (newE2ETest_fields _ _ _ _ _ _ _ _ _ _ _ H).
    rewrite (forEachJob_e2e_eq _ _ _ _ _ _ _ _ _ _ H). by rewrite Hb.
  - intros outputDir jobName job config t0 t1 t3 t4 t5 H Hn.
    assert ((3 <=? String.length t4)%nat = false) as Hb by by apply Nat.leb_gt.
    rewrite (newE2ENodeTest_fields _ _ _ _ _ _ _ _ _ H).
    rewrite (forEachJob_e2enode_eq _ _ _ _ _ _ _ _ _ H). by rewrite Hb.
  - exists "ci-kubernetes-e2e-gce-cos-v1-default",
      "ci", "kubernetes", "gce", "cos", "v1", "default".
    split; [reflexivity|simpl; lia].
  - exists "ci-kubernetes-e2enode-cos-v1-default",
      "ci", "kubernetes", "cos", "v1", "default".
    split; [reflexivity|simpl; lia].
Qed.

Lemma C10_short_version_field_panics_witness :
  forEachJob "out" "ci-kubernetes-e2e-gce-cos-v1-default" Example.hourly
    Example.config = Panic SliceBoundsOutOfRange ∧
  forEachJob "out" "ci-kubernetes-e2enode-cos-v1-default" Example.nightly
    Example.config = Panic SliceBoundsOutOfRange.
Proof.
  split.
  - apply (proj1 C10_short_version_field_panics "out"
             "ci-kubernetes-e2e-gce-cos-v1-default" Example.hourly
             Example.config "ci" "kubernetes" "gce" "cos" "v1" "default").
    + reflexivity.
    + simpl. lia.
  - apply (proj1 (proj2 C10_short_version_field_panics) "out"
             "ci-kubernetes-e2enode-cos-v1-default" Example.nightly
             Example.config "ci" "kubernetes" "cos" "v1" "default").
    + reflexivity.
    + simpl. lia.
Defined.

(** ** C3: one override *)

Lemma firstMatch_cons name val rest :
  firstMatch name (val :: rest) =
    if matchesName name val then val else firstMatch name rest.
Proof. reflexivity. Qed.

Lemma firstMatch_matches name l :
  firstMatch name l ≠ "" → matchesName name (firstMatch name l) = true.
Proof.
  induction l as [|val rest IH]; [done|]. rewrite firstMatch_cons.
  by destruct (matchesName name val) eqn:Hm.
Qed.






Lemma removeFirst_absent x l : ¬ In x l → removeFirst x l = l.
Proof.
  induction l as [|v l IH]; [done|]. simpl. intros Hx.
  destruct (String.eqb_spec v x) as [->|_]; [tauto|].
  rewrite IH; tauto.
Qed.

Lemma removeFirst_app x l1 l2 :
  In x l1 → removeFirst x (l1 ++ l2) = removeFirst x l1 ++ l2.
Proof.
  induction l1 as [|v l1 IH]; [done|]. simpl. intros [->|Hx].
  - by rewrite String.eqb_refl.
  - destruct (String.eqb v x); [done|]. by rewrite IH.
Qed.









(** ** C4: the base layers *)

(** C4 as stated fails for the e2e kind: the cloud provider's and the
    image's arguments are both layers, so the base list is neither
    Common, CloudProvider, K8sVersion, TestSuite nor
    Common, Image, K8sVersion, TestSuite. *)
Lemma C4_counterexample :
  jobArgsOf (E2ETest_generate exampleE2ETest)
    = Some ["--check-leaked-resources"; "--foo=1"; "--provider=gce";
            "--gcp-node-image=gci"; "--node-args=a";
            "--extract=ci/latest-1.29"; "--timeout=120m"; "--x=1";
            "--node-args=b"] ∧
  getArgs Example.e2eName (Common_Args (E2ETest_Common exampleE2ETest))
    ++ getArgs Example.e2eName
         (CloudProvider_Args (E2ETest_CloudProvider exampleE2ETest))
    ++ getArgs Example.e2eName
         (K8SVersion_Args (E2ETest_K8SVersion exampleE2ETest))
    ++ getArgs Example.e2eName
         (TestSuite_Args (E2ETest_TestSuite exampleE2ETest))
    = ["--check-leaked-resources"; "--foo=1"; "--provider=gce";
       "--extract=ci/latest-1.29"; "--timeout=120m"; "--x=1"; "--node-args=b"] ∧
  getArgs Example.e2eName (Common_Args (E2ETest_Common exampleE2ETest))
    ++ getArgs Example.e2eName (Image_Args (E2ETest_Image exampleE2ETest))
    ++ getArgs Example.e2eName
         (K8SVersion_Args (E2ETest_K8SVersion exampleE2ETest))
    ++ getArgs Example.e2eName
         (TestSuite_Args (E2ETest_TestSuite exampleE2ETest))
    = ["--check-leaked-resources"; "--foo=1"; "--gcp-node-image=gci";
       "--node-args=a"; "--extract=ci/latest-1.29"; "--timeout=120m";
       "--x=1"; "--node-args=b"].
Proof. repeat split; vm_compute; reflexivity. Qed.

Lemma E2ETest_generate_Ok_fields et r :
  E2ETest_generate et = Ok r →
  ∃ t0 t1 t2 t3 t4 t5 t6, E2ETest_fields et = [t0; t1; t2; t3; t4; t5; t6].
Proof.
  unfold E2ETest_generate.
  destruct (E2ETest_fields et) as [|t0 [|t1 [|t2 [|t3 [|t4 [|t5 [|t6 [|]]]]]]]];
    try done.
  eauto 10.
Qed.

Lemma E2ENodeTest_generate_Ok_fields ent r :
  E2ENodeTest_generate ent = Ok r →
  ∃ t0 t1 t2 t3 t4 t5, E2ENodeTest_fields ent = [t0; t1; t2; t3; t4; t5].
Proof.
  unfold E2ENodeTest_generate.
  destruct (E2ENodeTest_fields ent) as [|t0 [|t1 [|t2 [|t3 [|t4 [|t5 [|]]]]]]];
    try done.
  eauto 10.
Qed.

Lemma E2ETest_generate_args et jobConfig prowConfig tgConfig :
  E2ETest_generate et = Ok (jobConfig, prowConfig, tgConfig) →
  Job_Args jobConfig = e2eLayers et.
Proof.
  intros Hok.
  destruct (E2ETest_generate_Ok_fields _ _ Hok)
    as (t0 & t1 & t2 & t3 & t4 & t5 & t6 & H).
  rewrite (E2ETest_generate_eq _ _ _ _ _ _ _ _ H) in Hok.
  by apply bind_Ok in Hok as (p0 & _ & [= <- _ _]).
Qed.

Lemma E2ENodeTest_generate_args ent jobConfig prowConfig :
  E2ENodeTest_generate ent = Ok (jobConfig, prowConfig) →
  coalesceNodeArgs (e2enodeLayers ent) = Ok (Job_Args jobConfig).
Proof.
  intros Hok.
  destruct (E2ENodeTest_generate_Ok_fields _ _ Hok)
    as (t0 & t1 & t2 & t3 & t4 & t5 & H).
  rewrite (E2ENodeTest_generate_eq _ _ _ _ _ _ _ H) in Hok.
  apply bind_Ok in Hok as (p0 & _ & [= <- _]).
  apply coalesceNodeArgs_eq.
Qed.

(** C4 (amended).  For a job of kind e2e the base argument list is the
    concatenation, in this order, of the layers Common, CloudProvider, Image,
    K8sVersion and TestSuite, each entry hash-substituted.  For a job of
    kind e2enode it is that of Common, Image and TestSuite, with no
    K8sVersion layer; [generate] returns it after the node-args pass.  The
    substitution replaces the placeholder by 10 characters of the digest and
    leaves a line without placeholder as it is. *)
Theorem C4_base_layers :
  (∀ et jobConfig prowConfig tgConfig,
     E2ETest_generate et = Ok (jobConfig, prowConfig, tgConfig) →
     Job_Args jobConfig =
       getArgs (E2ETest_JobName et) (Common_Args (E2ETest_Common et))
       ++ getArgs (E2ETest_JobName et)
            (CloudProvider_Args (E2ETest_CloudProvider et))
       ++ getArgs (E2ETest_JobName et) (Image_Args (E2ETest_Image et))
       ++ getArgs (E2ETest_JobName et)
            (K8SVersion_Args (E2ETest_K8SVersion et))
       ++ getArgs (E2ETest_JobName et)
            (TestSuite_Args (E2ETest_TestSuite et))) ∧
  (∀ ent jobConfig prowConfig,
     E2ENodeTest_generate ent = Ok (jobConfig, prowConfig) →
     coalesceNodeArgs
       (getArgs (E2ENodeTest_JobName ent)
          (Common_Args (E2ENodeTest_Common ent))
        ++ getArgs (E2ENodeTest_JobName ent)
             (Image_Args (E2ENodeTest_Image ent))
        ++ getArgs (E2ENodeTest_JobName ent)
             (TestSuite_Args (E2ENodeTest_TestSuite ent)))
     = Ok (Job_Args jobConfig)) ∧
  (∀ jobName args,
     getArgs jobName args =
       (fun line =>
          ReplaceAll line "${job_name_hash}"
            (String.substring 0 10 (getSHA1Hash jobName))) <$> args) ∧
  (∀ jobName,
     String.length (String.substring 0 10 (getSHA1Hash jobName)) = 10%nat) ∧
  (∀ jobName args,
     forallb (fun line => negb (Contains line "${job_name_hash}")) args = true →
     getArgs jobName args = args).
Proof.
  split; [|split; [|split; [|split]]].
  - apply E2ETest_generate_args.
  - apply E2ENodeTest_generate_args.
  - reflexivity.
  - apply hash_prefix_length.
  - apply getArgs_no_placeholder.
Qed.

Lemma C4_base_layers_witness :
  ∃ jobConfig prowConfig tgConfig,
    E2ETest_generate exampleE2ETest = Ok (jobConfig, prowConfig, tgConfig) ∧
    Job_Args jobConfig =
      ["--check-leaked-resources"; "--foo=1"; "--provider=gce";
       "--gcp-node-image=gci"; "--node-args=a"; "--extract=ci/latest-1.29";
       "--timeout=120m"; "--x=1"; "--node-args=b"].
Proof.
  destruct (E2ETest_generate exampleE2ETest) as [[[j p] tg]| |] eqn:H;
    [|vm_compute in H; discriminate H..].
  exists j, p, tg. split; [reflexivity|].
  rewrite (proj1 C4_base_layers _ _ _ _ H). vm_compute. reflexivity.
Defined.

(** ** C5: node arguments *)

(** C5 as stated fails twice: an argument that holds "--node-args=" without
    beginning with it is taken as well, and the joined entry is trimmed. *)
Lemma C5_counterexample :
  HasPrefix "--env=--node-args=zz" "--node-args=" = false ∧
  coalesceNodeArgs ["--env=--node-args=zz"]
    = Ok ["--node-args=--node-args=zz"] ∧
  coalesceNodeArgs ["--node-args=a "] = Ok ["--node-args=a"].
Proof. repeat split; vm_compute; reflexivity. Qed.

(** C5 (amended).  The pass takes every argument that contains
    "--node-args=" out of the list, in encounter order; the value portion of
    each is the text after its first "=" (for an argument that begins with
    "--node-args=", the text after that prefix); the values are joined with
    spaces into one entry "--node-args=<v1> <v2> ...", trimmed of white
    space and put last; the other arguments are kept in order, and a list
    without such an argument is unchanged.  ["--node-args=a"; "--x=1";
    "--node-args=b"] gives ["--x=1"; "--node-args=a b"].  The arguments of
    every generated e2enode job are the result of the pass on its base
    layers. *)
Theorem C5_node_args_coalesced :
  (∀ args,
     coalesceNodeArgs args =
       Ok (List.filter (fun arg => negb (Contains arg "--node-args=")) args
           ++ match List.filter (fun arg => Contains arg "--node-args=") args with
              | [] => []
              | picked =>
                  [TrimSpace ("--node-args=" +:+ Join (valueOf <$> picked) " ")]
              end)) ∧
  (∀ value, valueOf ("--node-args=" +:+ value) = value) ∧
  coalesceNodeArgs ["--node-args=a"; "--x=1"; "--node-args=b"]
    = Ok ["--x=1"; "--node-args=a b"] ∧
  (∀ ent jobConfig prowConfig,
     E2ENodeTest_generate ent = Ok (jobConfig, prowConfig) →
     coalesceNodeArgs (e2enodeLayers ent) = Ok (Job_Args jobConfig)).
Proof.
  split; [|split; [|split]].
  - apply coalesceNodeArgs_eq.
  - apply valueOf_nodeFlag.
  - reflexivity.
  - apply E2ENodeTest_generate_args.
Qed.

Lemma C5_node_args_coalesced_witness :
  ∃ jobConfig prowConfig,
    E2ENodeTest_generate exampleE2ENodeTest = Ok (jobConfig, prowConfig) ∧
    Job_Args jobConfig =
      ["--check-leaked-resources"; "--foo=1"; "--gcp-node-image=gci";
       "--timeout=120m"; "--x=1"; "--node-args=a b"].
Proof.
  destruct (E2ENodeTest_generate exampleE2ENodeTest) as [[j p]| |] eqn:H;
    [|vm_compute in H; discriminate H..].
  exists j, p. split; [reflexivity|].
  pose proof (proj2 (proj2 (proj2 C5_node_args_coalesced)) _ _ _ H) as Hargs.
  assert (coalesceNodeArgs (e2enodeLayers exampleE2ENodeTest) =
          Ok ["--check-leaked-resources"; "--foo=1"; "--gcp-node-image=gci";
              "--timeout=120m"; "--x=1"; "--node-args=a b"]) as Hrun
    by (vm_compute; reflexivity).
  rewrite Hrun in Hargs. by injection Hargs as <-.
Defined.

(** * Further properties of the generator *)

(** ** The name parser in full *)

Lemma forEachJob_nameError outputDir jobName job config :
  shapeOK jobName = false →
  forEachJob outputDir jobName job config = Fatal (nameError jobName).
Proof.
  unfold shapeOK, nameError. destruct (kindOf jobName) as [kind|] eqn:Hk.
  - rewrite (forEachJob_kind _ _ _ _ _ Hk).
    destruct (String.eqb kind "e2e") eqn:He; simpl.
    + destruct (String.eqb kind "e2enode") eqn:Hn.
      { apply String.eqb_eq in He, Hn. congruence. }
      rewrite orb_false_r. intros Hl%Nat.eqb_neq.
      by rewrite newE2ETest_wrong_count.
    + destruct (String.eqb kind "e2enode") eqn:Hn; simpl.
      * intros Hl%Nat.eqb_neq. by rewrite newE2ENodeTest_wrong_count.
      * done.
  - intros _. by rewrite forEachJob_too_short.
Qed.

Lemma parses_cases jobName :
  parses jobName = true ↔
  (∃ t0 t1 t3 t4 t5 t6,
     Split jobName "-" = [t0; t1; "e2e"; t3; t4; t5; t6]
     ∧ (3 ≤ String.length t5)%nat)
  ∨ (∃ t0 t1 t3 t4 t5,
       Split jobName "-" = [t0; t1; "e2enode"; t3; t4; t5]
       ∧ (3 ≤ String.length t4)%nat).
Proof.
  unfold parses, versionField. split.
  - intros [Hshape Hv]%andb_true_iff.
    destruct (shapeOK_true _ Hshape)
      as [(t0 & t1 & t3 & t4 & t5 & t6 & H)|(t0 & t1 & t3 & t4 & t5 & H)];
      unfold kindOf in Hv; rewrite H in Hv; cbn -[Nat.leb] in Hv;
      apply Nat.leb_le in Hv; [left|right]; eauto 10.
  - intros [(t0 & t1 & t3 & t4 & t5 & t6 & H & Hn)
           |(t0 & t1 & t3 & t4 & t5 & H & Hn)];
      unfold shapeOK, kindOf; rewrite H; cbn -[Nat.leb]; by apply Nat.leb_le.
Qed.

Lemma parses_shapeOK jobName : parses jobName = true → shapeOK jobName = true.
Proof. unfold parses. by intros [? _]%andb_true_iff. Qed.

Lemma scanTimeout_failure args :
  failureOf (scanTimeout args) = None
  ∨ failureOf (scanTimeout args) = Some (inl ParsingTimeout)
  ∨ failureOf (scanTimeout args) = Some (inr SliceBoundsOutOfRange).
Proof.
  induction args as [|arg rest IH]; simpl; [by left|].
  destruct (HasPrefix arg "--timeout="); [|done].
  unfold slice.
  destruct (_ && _); simpl; [|by right; right].
  destruct (Atoi _); simpl; auto.
Qed.

Lemma failureOf_None {A} (o : Outcome A) :
  failureOf o = None ↔ isOk o = true.
Proof. by destruct o. Qed.

(** The view of [forEachJob] on a name that parses: the schedule check and
    the timeout scan of the test suite are all that can still fail. *)
Lemma forEachJob_parses_failure outputDir jobName job config :
  parses jobName = true →
  failureOf (forEachJob outputDir jobName job config) =
    if hasSchedule job
    then failureOf (scanTimeout (TestSuite_Args (suiteOf config jobName)))
    else Some (inl NoIntervalOrCron).
Proof.
  intros Hp. apply parses_cases in Hp
    as [(t0 & t1 & t3 & t4 & t5 & t6 & H & Hn)|(t0 & t1 & t3 & t4 & t5 & H & Hn)].
  - rewrite (forEachJob_e2e_eq _ _ _ _ _ _ _ _ _ _ H).
    apply Nat.leb_le in Hn. rewrite Hn. cbv zeta.
    rewrite getProwConfig_shared_eq. unfold suiteOf. rewrite H. cbn [last default].
    destruct (hasSchedule job); [|done].
    by destruct (scanTimeout _).
  - rewrite (forEachJob_e2enode_eq _ _ _ _ _ _ _ _ _ H).
    apply Nat.leb_le in Hn. rewrite Hn. cbv zeta.
    rewrite getProwConfig_shared_eq. unfold suiteOf. rewrite H. cbn [last default].
    destruct (hasSchedule job); [|done].
    by destruct (scanTimeout _).
Qed.

Lemma forEachJob_short_version outputDir jobName job config :
  shapeOK jobName = true → parses jobName = false →
  forEachJob outputDir jobName job config = Panic SliceBoundsOutOfRange.
Proof.
  intros Hs Hp. unfold parses, versionField in Hp. rewrite Hs in Hp.
  destruct (shapeOK_true _ Hs)
    as [(t0 & t1 & t3 & t4 & t5 & t6 & H)|(t0 & t1 & t3 & t4 & t5 & H)];
    unfold kindOf in Hp; rewrite H in Hp; cbn -[Nat.leb] in Hp.
  - by rewrite (forEachJob_e2e_eq _ _ _ _ _ _ _ _ _ _ H), Hp.
  - by rewrite (forEachJob_e2enode_eq _ _ _ _ _ _ _ _ _ H), Hp.
Qed.

(** X1. How a call of [forEachJob] ends.  The checks run in a fixed order:
    the shape of the name (fatal), the length of the version field (panic of
    the slice), the schedule of the job (fatal), the timeout entry of the
    test suite (fatal or panic); the call returns exactly when the name
    parses, the job has a schedule and the timeout scan returns.  Nothing
    else makes a call fail: not an axis key that the configuration lacks,
    not an argument of any layer, not an override. *)
Theorem forEachJob_failure_order outputDir jobName job config :
  failureOf (forEachJob outputDir jobName job config) =
    (if negb (shapeOK jobName) then Some (inl (nameError jobName))
     else if negb (parses jobName) then Some (inr SliceBoundsOutOfRange)
     else if negb (hasSchedule job) then Some (inl NoIntervalOrCron)
     else failureOf (scanTimeout (TestSuite_Args (suiteOf config jobName))))
  ∧ (isOk (forEachJob outputDir jobName job config) = true ↔
     parses jobName = true ∧ hasSchedule job = true ∧
     isOk (scanTimeout (TestSuite_Args (suiteOf config jobName))) = true)
  ∧ (failureOf (scanTimeout (TestSuite_Args (suiteOf config jobName))) = None
     ∨ failureOf (scanTimeout (TestSuite_Args (suiteOf config jobName)))
       = Some (inl ParsingTimeout)
     ∨ failureOf (scanTimeout (TestSuite_Args (suiteOf config jobName)))
       = Some (inr SliceBoundsOutOfRange)).
Proof.
  assert (Hfail :
    failureOf (forEachJob outputDir jobName job config) =
      if negb (shapeOK jobName) then Some (inl (nameError jobName))
      else if negb (parses jobName) then Some (inr SliceBoundsOutOfRange)
      else if negb (hasSchedule job) then Some (inl NoIntervalOrCron)
      else failureOf (scanTimeout (TestSuite_Args (suiteOf config jobName)))).
  { destruct (shapeOK jobName) eqn:Hs; simpl.
    - destruct (parses jobName) eqn:Hp; simpl.
      + rewrite forEachJob_parses_failure by done.
        by destruct (hasSchedule job).
      + by rewrite forEachJob_short_version.
    - by rewrite forEachJob_nameError. }
  split; [done|]. split; [|apply scanTimeout_failure].
  rewrite <-!failureOf_None, Hfail.
  destruct (shapeOK jobName) eqn:Hs; simpl.
  - destruct (parses jobName), (hasSchedule job); simpl;
      (split; [intros Hr; try discriminate Hr; by rewrite Hr
              |intros (Hp & Hj & Hr); try discriminate Hp; try discriminate Hj;
               done]).
  - split; [done|]. intros (Hp%parses_shapeOK & _). congruence.
Qed.

(** ** What a returned periodic job is, in full *)

(** The two forms of the result of [forEachJob]: everything below is read
    off them. *)
Lemma forEachJob_Ok_view outputDir jobName job config p tg :
  forEachJob outputDir jobName job config = Ok (p, tg) →
  ∃ timeout,
    hasSchedule job = true ∧
    scanTimeout (TestSuite_Args (suiteOf config jobName)) = Ok timeout ∧
    let p0 :=
      Periodic_with_Timeout
        (scheduledPeriodic jobName job (suiteOf config jobName))
        (Itoa (wrap64 (timeout + 20)) +:+ "m") in
    (∃ t0 t1 t3 t4 t5 t6,
       Split jobName "-" = [t0; t1; "e2e"; t3; t4; t5; t6] ∧
       (3 ≤ String.length t5)%nat ∧
       let et :=
         e2eTestOf jobName job config [t0; t1; "e2e"; t3; t4; t5; t6]
           t3 t4 t5 t6 in
       p = mapContainers
             (finishContainer jobName job
                (E2ETest_getJobDefinition et (e2eLayers et)))
             (Periodic_with_Annotations p0 (e2eAnnotations et t3 t4 t5 t6)) ∧
       tg = E2ETest_getTestGridConfig et)
    ∨ (∃ t0 t1 t3 t4 t5,
         Split jobName "-" = [t0; t1; "e2enode"; t3; t4; t5] ∧
         (3 ≤ String.length t4)%nat ∧
         let ent :=
           e2enodeTestOf jobName job config [t0; t1; "e2enode"; t3; t4; t5]
             t3 t4 t5 in
         p = mapContainers
               (finishContainer jobName job
                  (Job_with_Args
                     (E2ENodeTest_getJobDefinition ent (e2enodeLayers ent))
                     (coalesced (e2enodeLayers ent))))
               (let p1 :=
                  mapContainers (nodeContainer (E2ENodeTest_K8SVersion ent)) p0 in
                if nonempty (Image_TestgridPrefix (E2ENodeTest_Image ent))
                then Periodic_with_Annotations p1
                       (e2enodeAnnotations ent t3 t4 t5)
                else p1) ∧
         tg = inhabitant).
Proof.
  intros Hok.
  destruct (forEachJob_Ok_kind _ _ _ _ _ Hok) as [Hk|Hk].
  - destruct (forEachJob_e2e_Ok _ _ _ _ _ _ Hk Hok)
      as (t0 & t1 & t3 & t4 & t5 & t6 & p0 & H & Hn & Hp0 & -> & ->).
    assert (Hs : suiteOf config jobName = TestSuites config !!! t6).
    { unfold suiteOf. by rewrite H. }
    rewrite <-Hs in Hp0.
    apply getProwConfig_shared_Ok in Hp0 as (Hsched & timeout & Ht & ->).
    exists timeout. split; [done|]. split; [done|].
    left. exists t0, t1, t3, t4, t5, t6. by rewrite Hs.
  - destruct (forEachJob_e2enode_Ok _ _ _ _ _ _ Hk Hok)
      as (t0 & t1 & t3 & t4 & t5 & p0 & H & Hn & Hp0 & -> & ->).
    assert (Hs : suiteOf config jobName = TestSuites config !!! t5).
    { unfold suiteOf. by rewrite H. }
    rewrite <-Hs in Hp0.
    apply getProwConfig_shared_Ok in Hp0 as (Hsched & timeout & Ht & ->).
    exists timeout. split; [done|]. split; [done|].
    right. exists t0, t1, t3, t4, t5. by rewrite Hs.
Qed.

(** ** C9: the schedule *)

(** C9 as stated fails for a job without schedule whose name has a version
    field of less than three bytes: the slice of the name parser runs
    before the schedule check, so compilation, and with it the batch, ends
    in a panic and not in the fatal error of the schedule check. *)
Lemma C9_counterexample :
  Job_Interval Example.unscheduled = "" ∧
  Job_Cron Example.unscheduled = "" ∧
  forEachJob "out" "ci-kubernetes-e2e-gce-cos-v1-default" Example.unscheduled
    Example.config = Panic SliceBoundsOutOfRange ∧
  main "out"
    (mkConfigFile
       (<["ci-kubernetes-e2e-gce-cos-v1-default" := Example.unscheduled]> ∅)
       (CloudProviders Example.config) (ConfigFile_Common Example.config)
       (Images Example.config) (K8SVersions Example.config)
       (TestSuites Example.config) ∅ (NodeK8SVersions Example.config)
       ∅ inhabitant)
  = Panic SliceBoundsOutOfRange.
Proof. repeat split; vm_compute; reflexivity. Qed.

Lemma scheduledPeriodic_schedule jobName job testSuite timeout :
  let p :=
    Periodic_with_Timeout (scheduledPeriodic jobName job testSuite) timeout in
  Periodic_Interval p = Job_Interval job ∧
  Periodic_Cron p =
    (if nonempty (Job_Interval job) then "" else Job_Cron job).
Proof.
  cbv zeta. cbn. split; [|done].
  destruct (nonempty (Job_Interval job)) eqn:Hi; [done|].
  by apply nonempty_false in Hi.
Qed.

Lemma scanTimeout_not_schedule_error args :
  failureOf (scanTimeout args) ≠ Some (inl NoIntervalOrCron).
Proof.
  destruct (scanTimeout_failure args) as [H|[H|H]]; by rewrite H.
Qed.

(** C9 (amended).  A job with neither Interval nor Cron: both
    [getProwConfig] methods end in the fatal error of the schedule check,
    whatever else the input holds; [forEachJob] never returns for it: it
    ends in the name parser's fatal error when the name has the wrong
    shape, in the panic of the slice when the version field has less than
    three bytes, and in the fatal error of the schedule check otherwise;
    and the batch that contains the job produces no document.  A job with
    one of them: the schedule check passes, that is both [getProwConfig]
    methods end as the timeout scan of the test suite ends, and whenever
    that scan returns they return a periodic job with exactly one of
    Interval and Cron set: the job's Interval and no Cron when the job has
    an Interval, else the job's Cron and no Interval.  So does [forEachJob]
    whenever the name parses and the scan returns. *)
Theorem C9_schedule_required job :
  (Job_Interval job = "" → Job_Cron job = "" →
     (∀ et testSuite, E2ETest_Job et = job →
        E2ETest_getProwConfig et testSuite = Fatal NoIntervalOrCron) ∧
     (∀ ent testSuite k8sVersion, E2ENodeTest_Job ent = job →
        E2ENodeTest_getProwConfig ent testSuite k8sVersion
          = Fatal NoIntervalOrCron) ∧
     (∀ outputDir jobName config,
        forEachJob outputDir jobName job config =
          (if negb (shapeOK jobName) then Fatal (nameError jobName)
           else if negb (parses jobName) then Panic SliceBoundsOutOfRange
           else Fatal NoIntervalOrCron) ∧
        isOk (forEachJob outputDir jobName job config) = false) ∧
     (∀ outputDir jobName config,
        Jobs config !! jobName = Some job →
        isOk (main outputDir config) = false)) ∧
  (Job_Interval job ≠ "" ∨ Job_Cron job ≠ "" →
     (∀ et testSuite, E2ETest_Job et = job →
        failureOf (E2ETest_getProwConfig et testSuite)
          = failureOf (scanTimeout (TestSuite_Args testSuite)) ∧
        E2ETest_getProwConfig et testSuite ≠ Fatal NoIntervalOrCron ∧
        ∀ timeout, scanTimeout (TestSuite_Args testSuite) = Ok timeout →
          ∃ p, E2ETest_getProwConfig et testSuite = Ok p ∧
            oneSchedule p ∧
            Periodic_Interval p = Job_Interval job ∧
            Periodic_Cron p =
              (if nonempty (Job_Interval job) then "" else Job_Cron job)) ∧
     (∀ ent testSuite k8sVersion, E2ENodeTest_Job ent = job →
        failureOf (E2ENodeTest_getProwConfig ent testSuite k8sVersion)
          = failureOf (scanTimeout (TestSuite_Args testSuite)) ∧
        E2ENodeTest_getProwConfig ent testSuite k8sVersion
          ≠ Fatal NoIntervalOrCron ∧
        ∀ timeout, scanTimeout (TestSuite_Args testSuite) = Ok timeout →
          ∃ p, E2ENodeTest_getProwConfig ent testSuite k8sVersion = Ok p ∧
            oneSchedule p ∧
            Periodic_Interval p = Job_Interval job ∧
            Periodic_Cron p =
              (if nonempty (Job_Interval job) then "" else Job_Cron job)) ∧
     (∀ outputDir jobName config timeout,
        parses jobName = true →
        scanTimeout (TestSuite_Args (suiteOf config jobName)) = Ok timeout →
        ∃ p tg, forEachJob outputDir jobName job config = Ok (p, tg) ∧
          oneSchedule p ∧
          Periodic_Interval p = Job_Interval job ∧
          Periodic_Cron p =
            (if nonempty (Job_Interval job) then "" else Job_Cron job)) ∧
     (∀ outputDir jobName config p tg,
        forEachJob outputDir jobName job config = Ok (p, tg) →
        oneSchedule p ∧
        Periodic_Interval p = Job_Interval job ∧
        Periodic_Cron p =
          (if nonempty (Job_Interval job) then "" else Job_Cron job))).
Proof.
  split.
  - intros Hi Hc.
    assert (Hs : hasSchedule job = false) by by apply hasSchedule_false.
    split; [|split; [|split]].
    + intros et testSuite <-. unfold E2ETest_getProwConfig.
      by rewrite getProwConfig_shared_eq, Hs.
    + intros ent testSuite k8sVersion <-.
      by rewrite E2ENodeTest_getProwConfig_eq, getProwConfig_shared_eq, Hs.
    + intros outputDir jobName config.
      split; [|by apply forEachJob_no_schedule].
      destruct (shapeOK jobName) eqn:Hshape; cbn [negb];
        [|by apply forEachJob_nameError].
      destruct (parses jobName) eqn:Hp; cbn [negb];
        [|by apply forEachJob_short_version].
      pose proof (forEachJob_parses_failure outputDir jobName job config Hp)
        as Hf.
      rewrite Hs in Hf.
      destruct (forEachJob outputDir jobName job config); simpl in Hf;
        congruence.
    + intros outputDir jobName config Hjob.
      destruct (main outputDir config) as [r| |] eqn:Hmain; [|done..].
      pose proof (main_Ok_forEachJob _ _ _ _ _ Hmain Hjob) as Hok.
      by rewrite forEachJob_no_schedule in Hok.
  - intros Hs%hasSchedule_true. split; [|split; [|split]].
    + intros et testSuite <-. unfold E2ETest_getProwConfig.
      rewrite getProwConfig_shared_eq, Hs.
      split; [by destruct (scanTimeout _)|]. split.
      * intros H.
        apply (scanTimeout_not_schedule_error (TestSuite_Args testSuite)).
        destruct (scanTimeout _); simpl in *; congruence.
      * intros timeout ->. eexists. split; [reflexivity|].
        split; [by apply scheduledPeriodic_oneSchedule|].
        apply scheduledPeriodic_schedule.
    + intros ent testSuite k8sVersion <-.
      rewrite E2ENodeTest_getProwConfig_eq, getProwConfig_shared_eq, Hs.
      split; [by destruct (scanTimeout _)|]. split.
      * intros H.
        apply (scanTimeout_not_schedule_error (TestSuite_Args testSuite)).
        destruct (scanTimeout _); simpl in *; congruence.
      * intros timeout ->. eexists. split; [reflexivity|].
        split; [exact (scheduledPeriodic_oneSchedule (E2ENodeTest_JobName ent)
                         (E2ENodeTest_Job ent) testSuite Hs)|].
        exact (scheduledPeriodic_schedule (E2ENodeTest_JobName ent)
                 (E2ENodeTest_Job ent) testSuite _).
    + intros outputDir jobName config timeout Hp Hscan.
      pose proof (forEachJob_parses_failure outputDir jobName job config Hp)
        as Hf.
      rewrite Hs, Hscan in Hf.
      destruct (forEachJob outputDir jobName job config) as [[p tg]| |] eqn:Hok;
        try done.
      exists p, tg. split; [done|].
      destruct (forEachJob_Ok_view _ _ _ _ _ _ Hok) as (t & _ & _ & Hview).
      cbv zeta in Hview.
      destruct Hview as [(? & ? & ? & ? & ? & ? & _ & _ & -> & _)
                        |(? & ? & ? & ? & ? & _ & _ & -> & _)].
      * split; [exact (scheduledPeriodic_oneSchedule jobName job
                         (suiteOf config jobName) Hs)|].
        exact (scheduledPeriodic_schedule jobName job
                 (suiteOf config jobName) _).
      * destruct (nonempty (Image_TestgridPrefix _));
          (split; [exact (scheduledPeriodic_oneSchedule jobName job
                            (suiteOf config jobName) Hs)|]);
          exact (scheduledPeriodic_schedule jobName job
                   (suiteOf config jobName) _).
    + intros outputDir jobName config p tg Hok.
      destruct (forEachJob_Ok_view _ _ _ _ _ _ Hok) as (t & _ & _ & Hview).
      cbv zeta in Hview.
      destruct Hview as [(? & ? & ? & ? & ? & ? & _ & _ & -> & _)
                        |(? & ? & ? & ? & ? & _ & _ & -> & _)].
      * split; [exact (scheduledPeriodic_oneSchedule jobName job
                         (suiteOf config jobName) Hs)|].
        exact (scheduledPeriodic_schedule jobName job
                 (suiteOf config jobName) _).
      * destruct (nonempty (Image_TestgridPrefix _));
          (split; [exact (scheduledPeriodic_oneSchedule jobName job
                            (suiteOf config jobName) Hs)|]);
          exact (scheduledPeriodic_schedule jobName job
                   (suiteOf config jobName) _).
Qed.

Lemma C9_schedule_required_witness :
  E2ETest_getProwConfig
    (e2eTestOf Example.e2eName Example.unscheduled Example.config
       (Split Example.e2eName "-") "gce" "cos" "k8sbeta" "default")
    (mkTestSuite ["--timeout=120m"] inhabitant "")
  = Fatal NoIntervalOrCron ∧
  forEachJob "out" Example.e2enodeName Example.unscheduled Example.config
  = Fatal NoIntervalOrCron ∧
  isOk (main "out"
          (mkConfigFile (<[Example.e2eSlowName := Example.unscheduled]>
                           (Jobs Example.config))
             (CloudProviders Example.config) (ConfigFile_Common Example.config)
             (Images Example.config) (K8SVersions Example.config)
             (TestSuites Example.config) ∅ (NodeK8SVersions Example.config)
             ∅ inhabitant)) = false ∧
  (∃ p, E2ENodeTest_getProwConfig exampleE2ENodeTest
          (mkTestSuite ["--timeout=120m"] inhabitant "")
          (mkNodeK8SVersion ["--repo-root=."] "") = Ok p ∧
        oneSchedule p ∧
        Periodic_Interval p = "" ∧ Periodic_Cron p = "0 3 * * *") ∧
  (∃ p, E2ETest_getProwConfig
          (e2eTestOf Example.e2eName
             (mkJob "" "1h" "0 3 * * *" [] false false "" 0 [] inhabitant)
             Example.config (Split Example.e2eName "-")
             "gce" "cos" "k8sbeta" "default")
          (mkTestSuite [] inhabitant "") = Ok p ∧
        oneSchedule p ∧
        Periodic_Interval p = "1h" ∧ Periodic_Cron p = "") ∧
  (∃ p tg, forEachJob "out" Example.e2enodeName Example.nightly Example.config
           = Ok (p, tg) ∧
        oneSchedule p ∧
        Periodic_Interval p = "" ∧ Periodic_Cron p = "0 3 * * *").
Proof.
  split; [|split; [|split; [|split; [|split]]]].
  - apply (C9_schedule_required Example.unscheduled); reflexivity.
  - etrans.
    + apply (proj1 (proj2 (proj2 (proj1 (C9_schedule_required
                                           Example.unscheduled)
                                    eq_refl eq_refl)))
               "out" Example.e2enodeName Example.config).
    + vm_compute. reflexivity.
  - apply (proj2 (proj2 (proj2
             (proj1 (C9_schedule_required Example.unscheduled)
                eq_refl eq_refl))))
      with (jobName := Example.e2eSlowName).
    vm_compute. reflexivity.
  - destruct (proj2 (C9_schedule_required Example.nightly))
      as (_ & Hnode & _); [right; discriminate|].
    destruct (Hnode exampleE2ENodeTest
                (mkTestSuite ["--timeout=120m"] inhabitant "")
                (mkNodeK8SVersion ["--repo-root=."] "") eq_refl)
      as (_ & _ & Hp).
    exact (Hp 120 eq_refl).
  - destruct (proj2 (C9_schedule_required
                       (mkJob "" "1h" "0 3 * * *" [] false false "" 0 []
                          inhabitant)))
      as (He2e & _); [left; discriminate|].
    destruct (He2e
                (e2eTestOf Example.e2eName
                   (mkJob "" "1h" "0 3 * * *" [] false false "" 0 []
                      inhabitant)
                   Example.config (Split Example.e2eName "-")
                   "gce" "cos" "k8sbeta" "default")
                (mkTestSuite [] inhabitant "") eq_refl)
      as (_ & _ & Hp).
    exact (Hp 0 eq_refl).
  - destruct (proj2 (C9_schedule_required Example.nightly))
      as (_ & _ & Hjob & _); [right; discriminate|].
    exact (Hjob "out" Example.e2enodeName Example.config 120 eq_refl eq_refl).
Defined.

(** ** The frame of a periodic job *)

(** X2. What every returned periodic job has, whatever the inputs: the name
    of the job, the tag "generated", decoration switched on, the two preset
    labels, and exactly one container, whose command runs the scenario
    kubernetes_e2e (the job's own [Scenario] is not read).  The test group
    returned beside it is named after the job for kind e2e and is the zero
    value for kind e2enode. *)
Theorem forEachJob_periodic_frame outputDir jobName job config p tg :
  forEachJob outputDir jobName job config = Ok (p, tg) →
  Periodic_Name p = jobName ∧
  Periodic_Tags p = ["generated"] ∧
  Periodic_Decorate p = true ∧
  Periodic_Labels p =
    <["preset-service-account" := "true"]> (<["preset-k8s-ssh" := "true"]> ∅) ∧
  (∃ c, Containers (Periodic_Spec p) = [c] ∧
        Container_Command c =
          ["runner.sh"; "/workspace/scenarios/kubernetes_e2e.py"] ∧
        Container_Env c = "") ∧
  (kindOf jobName = Some "e2e" →
     tg = mkTestGroup jobName ("kubernetes-jenkins/logs/" +:+ jobName)
            [mkConfigurationValue "node_os_image";
             mkConfigurationValue "master_os_image";
             mkConfigurationValue "Commit";
             mkConfigurationValue "infra-commit"]) ∧
  (kindOf jobName = Some "e2enode" → tg = mkTestGroup "" "" []).
Proof.
  intros Hok.
  destruct (forEachJob_Ok_view _ _ _ _ _ _ Hok) as (timeout & _ & _ & Hview).
  cbv zeta in Hview.
  destruct Hview as [(t0 & t1 & t3 & t4 & t5 & t6 & H & _ & -> & ->)
                    |(t0 & t1 & t3 & t4 & t5 & H & _ & -> & ->)];
    unfold kindOf; rewrite H.
  - repeat split; try done.
    + eexists. split; [reflexivity|]. by split.
  - destruct (nonempty (Image_TestgridPrefix _));
      (repeat split; try done; eexists; split; [reflexivity|]; by split).
Qed.

Lemma forEachJob_periodic_frame_witness :
  ∃ p tg, forEachJob "out" Example.e2enodeName Example.nightly Example.config
          = Ok (p, tg) ∧
    Periodic_Name p = Example.e2enodeName ∧ tg = mkTestGroup "" "" [].
Proof.
  destruct (forEachJob "out" Example.e2enodeName Example.nightly
              Example.config) as [[p tg]| |] eqn:H;
    [|vm_compute in H; discriminate H..].
  exists p, tg. split; [reflexivity|].
  destruct (forEachJob_periodic_frame "out" Example.e2enodeName
              Example.nightly Example.config p tg H)
    as (Hname & _ & _ & _ & _ & _ & Htg).
  split; [exact Hname|]. apply Htg. reflexivity.
Defined.

(** X3. What compilation reads.  For a name of kind e2e the result of
    [forEachJob] (success or failure) is the same for any output directory,
    for jobs that differ only in [Scenario] and [SigOwners], and for
    configurations with the same common arguments, cloud providers, images,
    versions and test suites.  For a name of kind e2enode it is moreover
    the same whatever the job's release flags and alert threshold are, and
    it depends on the configuration through the common arguments, [Images],
    [TestSuites] and [NodeK8SVersions] only: the job table, the common
    testgrid prefix and the three node axes [NodeTestSuites], [NodeImages]
    and [NodeCommon] are never read. *)
Theorem forEachJob_reads :
  (∀ outputDir outputDir' jobName job job' config config',
     kindOf jobName = Some "e2e" →
     sameJobInputs job job' → sameE2EAxes config config' →
     forEachJob outputDir jobName job config
     = forEachJob outputDir' jobName job' config') ∧
  (∀ outputDir outputDir' jobName job job' config config',
     kindOf jobName = Some "e2enode" →
     sameNodeJobInputs job job' → sameNodeAxes config config' →
     forEachJob outputDir jobName job config
     = forEachJob outputDir' jobName job' config').
Proof.
  split.
  - intros outputDir outputDir' jobName job job' config config' Hkind
      (Hi & Hc & Hb & Hinf & Hcl & Hn & Ha & Hr) (Hco & Hcp & Him & Hk & Hts).
    destruct (shapeOK jobName) eqn:Hs;
      [|by rewrite !forEachJob_nameError].
    destruct job, job', config as [? ? [] ? ? ? ? ? ? ?],
      config' as [? ? [] ? ? ? ? ? ? ?]. simpl in *. subst.
    destruct (shapeOK_true _ Hs)
      as [(t0 & t1 & t3 & t4 & t5 & t6 & H)|(t0 & t1 & t3 & t4 & t5 & H)];
      [|unfold kindOf in Hkind; by rewrite H in Hkind].
    rewrite !(forEachJob_e2e_eq _ _ _ _ _ _ _ _ _ _ H).
    rewrite !getProwConfig_shared_eq. reflexivity.
  - intros outputDir outputDir' jobName job job' config config' Hkind
      (Hi & Hc & Hcl & Ha & Hr) (Hco & Him & Hk & Hts).
    destruct (shapeOK jobName) eqn:Hs;
      [|by rewrite !forEachJob_nameError].
    destruct job, job', config as [? ? [] ? ? ? ? ? ? ?],
      config' as [? ? [] ? ? ? ? ? ? ?]. simpl in *. subst.
    destruct (shapeOK_true _ Hs)
      as [(t0 & t1 & t3 & t4 & t5 & t6 & H)|(t0 & t1 & t3 & t4 & t5 & H)];
      [unfold kindOf in Hkind; by rewrite H in Hkind|].
    rewrite !(forEachJob_e2enode_eq _ _ _ _ _ _ _ _ _ H).
    rewrite !getProwConfig_shared_eq. reflexivity.
Qed.

Lemma forEachJob_reads_witness :
  forEachJob "out" Example.e2eName Example.hourly Example.config
  = forEachJob ""
      Example.e2eName
      (mkJob "kubernetes_e2e_other" "1h" "" [] true false "" 3
         ["--foo=3"; "--cluster=e2e-${job_name_hash}"] inhabitant)
      (mkConfigFile ∅ (CloudProviders Example.config)
         (mkCommon ["--check-leaked-resources"; "--foo=1"] "prefix")
         (Images Example.config) (K8SVersions Example.config)
         (TestSuites Example.config)
         (<["default" := mkTestSuite ["--timeout=1m"] inhabitant "c"]> ∅)
         ∅
         (<["cos" := mkImage ["--node-only"] "node"]> ∅)
         (mkCommon ["--node-common"] ""))
  ∧ forEachJob "out" Example.e2enodeName Example.nightly Example.config
    = forEachJob ""
        Example.e2enodeName
        (mkJob "kubernetes_e2e_other" "" "0 3 * * *" ["sig-testing"] true true
           "" 7 [] inhabitant)
        (mkConfigFile ∅ ∅
           (mkCommon ["--check-leaked-resources"; "--foo=1"] "prefix")
           (Images Example.config) ∅ (TestSuites Example.config)
           (<["default" := mkTestSuite ["--timeout=1m"] inhabitant "c"]> ∅)
           (NodeK8SVersions Example.config)
           (<["cos" := mkImage ["--node-only"] "node"]> ∅)
           (mkCommon ["--node-common"] "")).
Proof.
  split.
  - apply (proj1 forEachJob_reads).
    + reflexivity.
    + unfold sameJobInputs. simpl. repeat split; reflexivity.
    + unfold sameE2EAxes. simpl. repeat split; reflexivity.
  - apply (proj2 forEachJob_reads).
    + reflexivity.
    + unfold sameNodeJobInputs. simpl. repeat split; reflexivity.
    + unfold sameNodeAxes. simpl. repeat split; reflexivity.
Defined.

(** ** The container *)

Lemma getArgs_app jobName args1 args2 :
  getArgs jobName (args1 ++ args2)
  = getArgs jobName args1 ++ getArgs jobName args2.
Proof. unfold getArgs, substitute. apply fmap_app. Qed.

(** X4. The container of a job of kind e2e.  Its arguments are the five
    layers (common, cloud provider, image, version, test suite: each the
    zero value when the axis lacks the key), hash-substituted, with the
    job's own hash-substituted arguments applied as overrides; its image is
    always the default one. *)
Theorem forEachJob_e2e_container
    outputDir jobName job config t0 t1 t3 t4 t5 t6 p tg :
  Split jobName "-" = [t0; t1; "e2e"; t3; t4; t5; t6] →
  forEachJob outputDir jobName job config = Ok (p, tg) →
  Container_Args <$> Containers (Periodic_Spec p) =
    [applyJobOverrides
       (getArgs jobName
          (Common_Args (ConfigFile_Common config)
           ++ CloudProvider_Args (CloudProviders config !!! t3)
           ++ Image_Args (Images config !!! t4)
           ++ K8SVersion_Args (K8SVersions config !!! dropBytes 3 t5)
           ++ TestSuite_Args (TestSuites config !!! t6)))
       (getArgs jobName (Job_Args job))] ∧
  Container_Image <$> Containers (Periodic_Spec p) = [defaultImage].
Proof.
  intros H Hok.
  destruct (forEachJob_Ok_view _ _ _ _ _ _ Hok) as (timeout & _ & _ & Hview).
  cbv zeta in Hview.
  destruct Hview as [(? & ? & ? & ? & ? & ? & H' & _ & -> & _)
                    |(? & ? & ? & ? & ? & H' & _)];
    rewrite H in H'; [|done]. injection H' as <- <- <- <- <- <-.
  rewrite !getArgs_app. done.
Qed.

Lemma forEachJob_e2e_container_witness :
  ∃ p tg, forEachJob "out" Example.e2eName Example.hourly Example.config
          = Ok (p, tg) ∧
    Container_Args <$> Containers (Periodic_Spec p) =
      [["--check-leaked-resources"; "--provider=gce"; "--gcp-node-image=gci";
        "--node-args=a"; "--extract=ci/latest-1.29"; "--timeout=120m";
        "--x=1"; "--node-args=b"; "--foo=3"; "--cluster=e2e-1789b1211d"]].
Proof.
  destruct (forEachJob "out" Example.e2eName Example.hourly Example.config)
    as [[p tg]| |] eqn:H; [|vm_compute in H; discriminate H..].
  exists p, tg. split; [reflexivity|].
  rewrite (proj1 (forEachJob_e2e_container "out" Example.e2eName
                    Example.hourly Example.config
                    "ci" "kubernetes" "gce" "cos" "k8sbeta" "default"
                    p tg eq_refl H)).
  vm_compute. reflexivity.
Defined.

(** X5. The container of a job of kind e2enode.  Its arguments are, in
    this order: the arguments of the node version, as they are (not
    hash-substituted, not subject to overrides, not searched for node
    arguments); "--root=/go/src"; then the three layers (common, image,
    test suite), hash-substituted, node arguments coalesced, with the job's
    own arguments applied as overrides.  Its image is the node version's
    [ProwImage] when that is set and the default image otherwise. *)
Theorem forEachJob_e2enode_container
    outputDir jobName job config t0 t1 t3 t4 t5 p tg :
  Split jobName "-" = [t0; t1; "e2enode"; t3; t4; t5] →
  forEachJob outputDir jobName job config = Ok (p, tg) →
  let version := NodeK8SVersions config !!! dropBytes 3 t4 in
  Container_Args <$> Containers (Periodic_Spec p) =
    [NodeK8SVersion_Args version ++ ["--root=/go/src"]
     ++ applyJobOverrides
          (coalesced
             (getArgs jobName
                (Common_Args (ConfigFile_Common config)
                 ++ Image_Args (Images config !!! t3)
                 ++ TestSuite_Args (TestSuites config !!! t5))))
          (getArgs jobName (Job_Args job))] ∧
  Container_Image <$> Containers (Periodic_Spec p) =
    [if nonempty (NodeK8SVersion_ProwImage version)
     then NodeK8SVersion_ProwImage version else defaultImage].
Proof.
  intros H Hok.
  destruct (forEachJob_Ok_view _ _ _ _ _ _ Hok) as (timeout & _ & _ & Hview).
  cbv zeta in Hview.
  destruct Hview as [(? & ? & ? & ? & ? & ? & H' & _)
                    |(? & ? & ? & ? & ? & H' & _ & -> & _)];
    rewrite H in H'; [done|]. injection H' as <- <- <- <- <-.
  rewrite !getArgs_app. cbv zeta.
  destruct (nonempty (Image_TestgridPrefix _)); simpl;
    by rewrite <-app_assoc.
Qed.

Lemma forEachJob_e2enode_container_witness :
  ∃ p tg, forEachJob "out" Example.e2enodeName Example.nightly Example.config
          = Ok (p, tg) ∧
    Container_Args <$> Containers (Periodic_Spec p) =
      [["--repo-root=."; "--root=/go/src"; "--check-leaked-resources";
        "--foo=1"; "--gcp-node-image=gci"; "--timeout=120m"; "--x=1";
        "--node-args=a b"]] ∧
    Container_Image <$> Containers (Periodic_Spec p) = ["kubekins-e2e:beta"].
Proof.
  destruct (forEachJob "out" Example.e2enodeName Example.nightly
              Example.config) as [[p tg]| |] eqn:H;
    [|vm_compute in H; discriminate H..].
  exists p, tg. split; [reflexivity|].
  destruct (forEachJob_e2enode_container "out" Example.e2enodeName
              Example.nightly Example.config
              "ci" "kubernetes" "cos" "k8sbeta" "default" p tg eq_refl H)
    as [-> ->].
  vm_compute. split; reflexivity.
Defined.

(** ** Cluster and resources *)

(** [!r.isEmpty()] holds exactly when the requests and the limits each
    name a CPU or a memory amount. *)
Lemma Resources_isEmpty_fullySet r :
  negb (Resources_isEmpty r) = fullySet r.
Proof.
  unfold Resources_isEmpty, ComputeResources_isEmpty, fullySet.
  rewrite negb_orb, !negb_involutive. apply andb_comm.
Qed.

(** X6. The test suite goes before the job.  The cluster of a returned
    periodic job is the test suite's when that is set, else the job's.  The
    resources of its container are the test suite's, else the job's, else
    the default ones (1000m, 3Gi), where resources count as given only
    when their requests and their limits each name a CPU or a memory
    amount: resources with requests only, or limits only, are passed
    over. *)
Theorem forEachJob_suite_before_job outputDir jobName job config p tg :
  forEachJob outputDir jobName job config = Ok (p, tg) →
  let suite := suiteOf config jobName in
  Periodic_Cluster p =
    (if nonempty (TestSuite_Cluster suite) then TestSuite_Cluster suite
     else Job_Cluster job) ∧
  Container_Resources <$> Containers (Periodic_Spec p) =
    [if fullySet (TestSuite_Resources suite) then TestSuite_Resources suite
     else if fullySet (Job_Resources job) then Job_Resources job
     else defaultResources].
Proof.
  intros Hok.
  destruct (forEachJob_Ok_view _ _ _ _ _ _ Hok) as (timeout & _ & _ & Hview).
  cbv zeta in Hview. cbv zeta.
  rewrite <-!Resources_isEmpty_fullySet.
  destruct Hview as [(? & ? & ? & ? & ? & ? & _ & _ & -> & _)
                    |(? & ? & ? & ? & ? & _ & _ & -> & _)].
  - simpl. split; [|done].
    destruct (nonempty (TestSuite_Cluster _)); [done|].
    destruct (nonempty (Job_Cluster job)) eqn:Hc; [done|].
    by apply nonempty_false in Hc.
  - destruct (nonempty (Image_TestgridPrefix _)); simpl;
      (split; [|done]);
      (destruct (nonempty (TestSuite_Cluster _)); [done|]);
      (destruct (nonempty (Job_Cluster job)) eqn:Hc; [done|]);
      by apply nonempty_false in Hc.
Qed.

Lemma forEachJob_suite_before_job_witness :
  ∃ p tg, forEachJob "out" Example.e2eName Sample.pinned Sample.sized
          = Ok (p, tg) ∧
    Periodic_Cluster p = "k8s-infra-prow-build" ∧
    Container_Resources <$> Containers (Periodic_Spec p) =
      [mkResources (mkComputeResources "2" "") (mkComputeResources "" "6Gi")].
Proof.
  destruct (forEachJob "out" Example.e2eName Sample.pinned Sample.sized)
    as [[p tg]| |] eqn:H; [|vm_compute in H; discriminate H..].
  exists p, tg. split; [reflexivity|].
  destruct (forEachJob_suite_before_job "out" Example.e2eName Sample.pinned
              Sample.sized p tg H) as [-> ->].
  vm_compute. split; reflexivity.
Defined.

(** ** Annotations *)

(** Joining the fields of a split gives the text back. *)
Lemma Join_Split s sep : Join (Split s sep) (String sep "") = s.
Proof.
  induction s as [|c s IH]; [done|]. cbn [Split].
  destruct (Ascii.eqb c sep) eqn:Hc.
  - apply Ascii.eqb_eq in Hc as ->.
    destruct (Split s sep) as [|f fs] eqn:Hs; [by apply Split_nonempty in Hs|].
    change (Join ("" :: f :: fs) (String sep ""))
      with ("" +:+ String sep "" +:+ Join (f :: fs) (String sep "")).
    by rewrite IH.
  - destruct (Split s sep) as [|f fs] eqn:Hs; [by apply Split_nonempty in Hs|].
    destruct fs as [|f' fs]; [by rewrite <-IH|].
    change (Join (String c f :: f' :: fs) (String sep ""))
      with (String c f +:+ String sep "" +:+ Join (f' :: fs) (String sep "")).
    by rewrite <-IH.
Qed.

(** X7. The annotations of a job of kind e2e are exactly three: the tab
    name, which is the job name without its first three fields; the
    dashboards; and the number of failures to alert, which is the job's
    [TestgridNumFailuresToAlert] in decimal ("0" when the job does not set
    it). *)
Theorem forEachJob_e2e_annotations
    outputDir jobName job config t0 t1 t3 t4 t5 t6 p tg :
  Split jobName "-" = [t0; t1; "e2e"; t3; t4; t5; t6] →
  forEachJob outputDir jobName job config = Ok (p, tg) →
  dom (Periodic_Annotations p) =
    ({[ "testgrid-tab-name"; "testgrid-dashboards";
        "testgrid-num-failures-to-alert" ]} : gset string) ∧
  (∃ tabName,
     Periodic_Annotations p !! "testgrid-tab-name" = Some tabName ∧
     tabName = Join [t3; t4; t5; t6] "-" ∧
     jobName = t0 +:+ "-" +:+ t1 +:+ "-e2e-" +:+ tabName) ∧
  Periodic_Annotations p !! "testgrid-num-failures-to-alert" =
    Some (Itoa (Job_TestgridNumFailuresToAlert job)).
Proof.
  intros H Hok.
  destruct (forEachJob_Ok_view _ _ _ _ _ _ Hok) as (timeout & _ & _ & Hview).
  cbv zeta in Hview.
  destruct Hview as [(? & ? & ? & ? & ? & ? & H' & _ & -> & _)
                    |(? & ? & ? & ? & ? & H' & _)];
    rewrite H in H'; [|done]. injection H' as <- <- <- <- <- <-.
  cbn [mapContainers Periodic_with_Spec Periodic_with_Annotations
       Periodic_Annotations]. unfold e2eAnnotations.
  split; [|split].
  - rewrite !dom_insert_L, dom_empty_L. set_solver.
  - eexists. split; [by rewrite lookup_insert_ne, lookup_insert_ne,
                       lookup_insert_eq|].
    split; [done|].
    rewrite <-(Join_Split jobName "-") at 1. rewrite H. reflexivity.
  - by rewrite lookup_insert_eq.
Qed.

Lemma forEachJob_e2e_annotations_witness :
  ∃ p tg, forEachJob "out" Example.e2eName Example.hourly Example.config
          = Ok (p, tg) ∧
    Periodic_Annotations p !! "testgrid-tab-name"
      = Some "gce-cos-k8sbeta-default" ∧
    Periodic_Annotations p !! "testgrid-num-failures-to-alert" = Some "3".
Proof.
  destruct (forEachJob "out" Example.e2eName Example.hourly Example.config)
    as [[p tg]| |] eqn:H; [|vm_compute in H; discriminate H..].
  exists p, tg. split; [reflexivity|].
  destruct (forEachJob_e2e_annotations "out" Example.e2eName Example.hourly
              Example.config "ci" "kubernetes" "gce" "cos" "k8sbeta" "default"
              p tg eq_refl H) as (_ & (tabName & -> & -> & _) & ->).
  split; reflexivity.
Defined.

(** X8. The annotations of a job of kind e2enode.  When the image has no
    testgrid prefix there is none at all, not even a tab name; otherwise
    there are exactly two, the dashboard (prefix, image key and version
    field) and the tab name (the job name's last three fields).  The job's
    release flags and its [TestgridNumFailuresToAlert] are never written:
    no such job is put on a sig-release dashboard. *)
Theorem forEachJob_e2enode_annotations
    outputDir jobName job config t0 t1 t3 t4 t5 p tg :
  Split jobName "-" = [t0; t1; "e2enode"; t3; t4; t5] →
  forEachJob outputDir jobName job config = Ok (p, tg) →
  let prefix := Image_TestgridPrefix (Images config !!! t3) in
  Periodic_Annotations p =
    (if nonempty prefix
     then <["testgrid-tab-name" := Join [t3; t4; t5] "-"]>
            (<["testgrid-dashboards" := Join [prefix; t3; t4] "-"]> ∅)
     else ∅) ∧
  Periodic_Annotations p !! "testgrid-num-failures-to-alert" = None.
Proof.
  intros H Hok.
  destruct (forEachJob_Ok_view _ _ _ _ _ _ Hok) as (timeout & _ & _ & Hview).
  cbv zeta in Hview.
  destruct Hview as [(? & ? & ? & ? & ? & ? & H' & _)
                    |(? & ? & ? & ? & ? & H' & _ & -> & _)];
    rewrite H in H'; [done|]. injection H' as <- <- <- <- <-.
  cbv zeta. cbn [e2enodeTestOf E2ENodeTest_Image].
  destruct (nonempty (Image_TestgridPrefix _)); by split.
Qed.

Lemma forEachJob_e2enode_annotations_witness :
  ∃ p tg, forEachJob "out" Example.e2enodeName Example.nightly Example.config
          = Ok (p, tg) ∧
    Periodic_Annotations p =
      <["testgrid-tab-name" := "cos-k8sbeta-default"]>
        (<["testgrid-dashboards" := "google-gce-cos-k8sbeta"]> ∅).
Proof.
  destruct (forEachJob "out" Example.e2enodeName Example.nightly
              Example.config) as [[p tg]| |] eqn:H;
    [|vm_compute in H; discriminate H..].
  exists p, tg. split; [reflexivity|].
  rewrite (proj1 (forEachJob_e2enode_annotations "out" Example.e2enodeName
                    Example.nightly Example.config
                    "ci" "kubernetes" "cos" "k8sbeta" "default" p tg
                    eq_refl H)).
  reflexivity.
Defined.

(** ** The batch: [main] *)

Lemma main_mainLoop outputDir config :
  main outputDir config =
    mainLoop outputDir config (sortedJobNames config)
      (mkProwConfigFile [], mkTestgridConfig []).
Proof. reflexivity. Qed.

Lemma fold_left_bind_Fatal {A B} (body : A → B → Outcome A) l e :
  fold_left (fun acc x => acc ≫= fun a => body a x) l (Fatal e) = Fatal e.
Proof. induction l as [|x l IH]; [done|]. exact IH. Qed.

Lemma fold_left_bind_Panic {A B} (body : A → B → Outcome A) l e :
  fold_left (fun acc x => acc ≫= fun a => body a x) l (Panic e) = Panic e.
Proof. induction l as [|x l IH]; [done|]. exact IH. Qed.

Lemma mainLoop_cons outputDir config jobName jobNames acc :
  mainLoop outputDir config (jobName :: jobNames) acc =
    match mainLoopBody outputDir config acc jobName with
    | Ok acc' => mainLoop outputDir config jobNames acc'
    | Fatal e => Fatal e
    | Panic e => Panic e
    end.
Proof.
  unfold mainLoop. cbn [fold_left].
  change (Ok acc ≫= λ acc0, mainLoopBody outputDir config acc0 jobName)
    with (mainLoopBody outputDir config acc jobName).
  destruct (mainLoopBody outputDir config acc jobName) as [acc'|e|e];
    [done|apply fold_left_bind_Fatal|apply fold_left_bind_Panic].
Qed.

Lemma mainLoopBody_eq outputDir config acc jobName :
  mainLoopBody outputDir config acc jobName =
    match compileJob outputDir config jobName with
    | Ok (prow, testgrid) =>
        Ok (mkProwConfigFile (Periodics (fst acc) ++ [prow]),
            if isNodeName jobName
            then mkTestgridConfig (TestGroups (snd acc) ++ [testgrid])
            else snd acc)
    | Fatal e => Fatal e
    | Panic e => Panic e
    end.
Proof.
  destruct acc as [out tg]. unfold mainLoopBody, compileJob.
  destruct (forEachJob _ _ _ _) as [[prow testgrid]|e|e] eqn:Hjob; [|done..].
  simpl. unfold isNodeName.
  destruct (forEachJob_Ok_kind _ _ _ _ _ Hjob) as [Hk|Hk].
  - apply forEachJob_e2e_Ok in Hjob
      as (t0 & t1 & t3 & t4 & t5 & t6 & p0 & _ & _ & _ & _ & ->); [|done].
    rewrite E2ETest_getTestGridConfig_isEmpty. simpl.
    rewrite bool_decide_eq_false_2; [done|]. by rewrite Hk.
  - apply forEachJob_e2enode_Ok in Hjob
      as (t0 & t1 & t3 & t4 & t5 & p0 & _ & _ & _ & _ & ->); [|done].
    simpl. by rewrite bool_decide_eq_true_2.
Qed.

Lemma mainLoop_failure outputDir config before jobName after acc :
  (∀ n, n ∈ before → isOk (compileJob outputDir config n) = true) →
  isOk (compileJob outputDir config jobName) = false →
  failureOf (mainLoop outputDir config (before ++ jobName :: after) acc)
  = failureOf (compileJob outputDir config jobName).
Proof.
  revert acc. induction before as [|n before IH]; intros acc Hbefore Hjob.
  - cbn [app]. rewrite mainLoop_cons, mainLoopBody_eq.
    by destruct (compileJob outputDir config jobName) as [[]| |].
  - cbn [app]. rewrite mainLoop_cons, mainLoopBody_eq.
    pose proof (Hbefore n (list_elem_of_here _ _)) as Hn.
    destruct (compileJob outputDir config n) as [[prow testgrid]| |];
      [|done..].
    apply IH; [|done]. intros m Hm. apply Hbefore. by apply list_elem_of_further.
Qed.

Lemma mainLoop_Ok outputDir config jobNames acc :
  (∀ n, n ∈ jobNames → isOk (compileJob outputDir config n) = true) →
  ∃ ps gs,
    mainLoop outputDir config jobNames acc
      = Ok (mkProwConfigFile (Periodics (fst acc) ++ ps),
            mkTestgridConfig (TestGroups (snd acc) ++ gs)) ∧
    Forall2 (fun jobName p =>
               ∃ g, compileJob outputDir config jobName = Ok (p, g))
      jobNames ps ∧
    length gs = length (List.filter isNodeName jobNames).
Proof.
  revert acc. induction jobNames as [|n jobNames IH]; intros acc Hall.
  - exists [], []. rewrite !app_nil_r. by destruct acc as [[] []].
  - rewrite mainLoop_cons, mainLoopBody_eq.
    pose proof (Hall n (list_elem_of_here _ _)) as Hn.
    destruct (compileJob outputDir config n) as [[prow testgrid]| |] eqn:Hc;
      [|done..].
    edestruct IH as (ps & gs & -> & Hps & Hgs).
    { intros m Hm. apply Hall. by apply list_elem_of_further. }
    cbn [fst snd Periodics]. rewrite <-app_assoc. cbn [app List.filter].
    destruct (isNodeName n).
    + exists (prow :: ps), (testgrid :: gs). cbn [TestGroups].
      rewrite <-app_assoc. split; [done|]. split.
      * constructor; [by exists testgrid|done].
      * cbn [length]. by rewrite Hgs.
    + exists (prow :: ps), gs. split; [done|]. split; [|done].
      constructor; [by exists testgrid|done].
Qed.

Lemma compileJob_table outputDir config jobName job :
  Jobs config !! jobName = Some job →
  compileJob outputDir config jobName
  = forEachJob outputDir jobName job config.
Proof.
  intros H. unfold compileJob. by rewrite (lookup_total_correct _ _ _ H).
Qed.

Lemma sortedJobNames_split config jobName :
  is_Some (Jobs config !! jobName) →
  ∃ before after, sortedJobNames config = before ++ jobName :: after.
Proof.
  intros H%sortedJobNames_elem. by apply list_elem_of_split.
Qed.

Lemma forEachJob_Ok_name outputDir jobName job config p tg :
  forEachJob outputDir jobName job config = Ok (p, tg) →
  Periodic_Name p = jobName.
Proof.
  intros Hok.
  destruct (forEachJob_Ok_view _ _ _ _ _ _ Hok) as (timeout & _ & _ & Hview).
  cbv zeta in Hview.
  destruct Hview as [(? & ? & ? & ? & ? & ? & _ & _ & -> & _)
                    |(? & ? & ? & ? & ? & _ & _ & -> & _)]; [done|].
  by destruct (nonempty (Image_TestgridPrefix _)).
Qed.

Lemma main_isOk_table outputDir config :
  isOk (main outputDir config) = true ↔
  ∀ jobName job, Jobs config !! jobName = Some job →
    isOk (forEachJob outputDir jobName job config) = true.
Proof.
  split.
  - intros Hok jobName job Hjob.
    destruct (main outputDir config) as [r| |] eqn:Hm; [|done..].
    by apply (main_Ok_forEachJob _ _ _ _ _ Hm).
  - intros Hall. rewrite main_mainLoop.
    destruct (mainLoop_Ok outputDir config (sortedJobNames config)
                (mkProwConfigFile [], mkTestgridConfig []))
      as (ps & gs & -> & _); [|done].
    intros n [job Hjob]%sortedJobNames_elem.
    rewrite (compileJob_table _ _ _ _ Hjob). by apply Hall.
Qed.

(** X9. [main] produces its documents exactly when every job of the table
    compiles, that is when every job has a name that parses, a schedule,
    and a test suite whose timeout entry (if any) can be read: one job that
    does not compile leaves the whole batch without output. *)
Theorem main_returns_iff outputDir config :
  (isOk (main outputDir config) = true ↔
   ∀ jobName job, Jobs config !! jobName = Some job →
     isOk (forEachJob outputDir jobName job config) = true) ∧
  (isOk (main outputDir config) = true ↔
   ∀ jobName job, Jobs config !! jobName = Some job →
     parses jobName = true ∧ hasSchedule job = true ∧
     isOk (scanTimeout (TestSuite_Args (suiteOf config jobName))) = true).
Proof.
  split; [apply main_isOk_table|].
  rewrite main_isOk_table.
  split; intros Hall jobName job Hjob; specialize (Hall jobName job Hjob).
  - rewrite <-failureOf_None in Hall.
    destruct (parses jobName) eqn:Hp.
    + rewrite forEachJob_parses_failure in Hall by done.
      destruct (hasSchedule job); [|done].
      by rewrite <-failureOf_None.
    + destruct (shapeOK jobName) eqn:Hs.
      * by rewrite forEachJob_short_version in Hall.
      * by rewrite forEachJob_nameError in Hall.
  - destruct Hall as (Hp & Hs & Ht).
    rewrite <-failureOf_None, forEachJob_parses_failure, Hs by done.
    by rewrite failureOf_None.
Qed.

Lemma main_returns_iff_witness :
  isOk (forEachJob "out" Example.e2eName Example.hourly Example.config) = true
  ∧ parses Example.e2enodeName = true.
Proof.
  split.
  - apply (proj1 (proj1 (main_returns_iff "out" Example.config))).
    + vm_compute. reflexivity.
    + vm_compute. reflexivity.
  - apply (proj1 (proj2 (main_returns_iff "out" Example.config))
             ltac:(vm_compute; reflexivity) Example.e2enodeName Example.nightly).
    vm_compute. reflexivity.
Defined.

(** X10. When the batch fails, [main] ends with the error of the first
    job, in ascending order of the names, that does not compile; the jobs
    after it are not looked at. *)
Theorem main_first_failure outputDir config before jobName job after :
  sortedJobNames config = before ++ jobName :: after →
  Jobs config !! jobName = Some job →
  (∀ n j, n ∈ before → Jobs config !! n = Some j →
     isOk (forEachJob outputDir n j config) = true) →
  isOk (forEachJob outputDir jobName job config) = false →
  failureOf (main outputDir config)
  = failureOf (forEachJob outputDir jobName job config).
Proof.
  intros Hsorted Hjob Hbefore Hfail.
  rewrite main_mainLoop, Hsorted, <-(compileJob_table _ _ _ _ Hjob).
  apply mainLoop_failure.
  - intros n Hn.
    assert (Hin : n ∈ sortedJobNames config).
    { rewrite Hsorted. apply elem_of_app. by left. }
    apply sortedJobNames_elem in Hin as [j Hj].
    rewrite (compileJob_table _ _ _ _ Hj). by apply (Hbefore n j).
  - by rewrite (compileJob_table _ _ _ _ Hjob).
Qed.

Lemma main_first_failure_witness :
  failureOf (main "out" Sample.broken) = Some (inl NoIntervalOrCron).
Proof.
  rewrite (main_first_failure "out" Sample.broken []
             "ci-kubernetes-e2e-gce-cos-k8sbeta-default" Example.unscheduled
             ["ci-kubernetes-unit"]).
  - vm_compute. reflexivity.
  - vm_compute. reflexivity.
  - vm_compute. reflexivity.
  - intros n j Hn. by apply elem_of_nil in Hn.
  - vm_compute. reflexivity.
Defined.

Lemma sortedJobNames_sorted config :
  StronglySorted String.le (sortedJobNames config).
Proof. apply (StronglySorted_merge_sort String.le). Qed.

Lemma sortedJobNames_NoDup config : NoDup (sortedJobNames config).
Proof.
  unfold sortedJobNames. rewrite merge_sort_Permutation.
  apply NoDup_fst_map_to_list.
Qed.

Lemma Forall2_compiled_names outputDir config jobNames ps :
  Forall2 (fun jobName p =>
             ∃ g, compileJob outputDir config jobName = Ok (p, g))
    jobNames ps →
  Periodic_Name <$> ps = jobNames.
Proof.
  induction 1 as [|jobName p jobNames ps [g Hc] _ IH]; [done|].
  cbn [fmap list_fmap]. f_equal; [|done].
  by apply forEachJob_Ok_name in Hc.
Qed.

(** X11. The periodic jobs of the batch.  When [main] returns, its
    document holds one periodic job per job of the table: the names of the
    periodic jobs are the keys of the table, each once, in ascending byte
    order, and each periodic job is what [forEachJob] returns for the job
    of its name.  The document of test groups holds one group per job of
    kind e2enode. *)
Theorem main_periodics outputDir config out tg :
  main outputDir config = Ok (out, tg) →
  StronglySorted String.le (Periodic_Name <$> Periodics out) ∧
  NoDup (Periodic_Name <$> Periodics out) ∧
  (∀ jobName,
     jobName ∈ Periodic_Name <$> Periodics out
     ↔ is_Some (Jobs config !! jobName)) ∧
  (∀ p, p ∈ Periodics out →
     ∃ job g, Jobs config !! Periodic_Name p = Some job ∧
       forEachJob outputDir (Periodic_Name p) job config = Ok (p, g)) ∧
  length (Periodics out) = size (Jobs config) ∧
  length (TestGroups tg)
  = length (List.filter isNodeName (Periodic_Name <$> Periodics out)).
Proof.
  intros Hmain.
  assert (Hall : ∀ n, n ∈ sortedJobNames config →
                   isOk (compileJob outputDir config n) = true).
  { intros n [job Hjob]%sortedJobNames_elem.
    rewrite (compileJob_table _ _ _ _ Hjob).
    by apply (main_Ok_forEachJob _ _ _ _ _ Hmain). }
  destruct (mainLoop_Ok outputDir config (sortedJobNames config)
              (mkProwConfigFile [], mkTestgridConfig []) Hall)
    as (ps & gs & Hloop & Hps & Hgs).
  rewrite <-main_mainLoop, Hmain in Hloop. injection Hloop as -> ->.
  cbn [fst snd Periodics TestGroups app].
  pose proof (Forall2_compiled_names _ _ _ _ Hps) as Hnames.
  rewrite Hnames.
  split; [apply sortedJobNames_sorted|].
  split; [apply sortedJobNames_NoDup|].
  split; [apply sortedJobNames_elem|].
  split; [|split; [|done]].
  - intros p Hp.
    destruct (proj1 (list_elem_of_lookup ps p) Hp) as [i Hi].
    destruct (Forall2_lookup_r _ _ _ _ _ Hps Hi) as (jobName & Hn & g & Hc).
    pose proof (forEachJob_Ok_name _ _ _ _ _ _ Hc) as ->.
    assert (Hin : jobName ∈ sortedJobNames config)
      by by eapply list_elem_of_lookup_2.
    apply sortedJobNames_elem in Hin as [job Hjob].
    exists job, g. split; [done|].
    by rewrite <-(compileJob_table _ _ _ _ Hjob).
  - rewrite <-(length_fmap Periodic_Name), Hnames.
    unfold sortedJobNames. rewrite merge_sort_Permutation, length_fmap.
    apply length_map_to_list.
Qed.

Lemma main_periodics_witness :
  ∃ out tg, main "out" Example.config = Ok (out, tg) ∧
    Periodic_Name <$> Periodics out = [Example.e2eName; Example.e2enodeName] ∧
    length (TestGroups tg) = 1%nat.
Proof.
  destruct (main "out" Example.config) as [[out tg]| |] eqn:H;
    [|vm_compute in H; discriminate H..].
  exists out, tg. split; [reflexivity|].
  destruct (main_periodics "out" Example.config out tg H)
    as (_ & _ & _ & _ & _ & ->).
  vm_compute in H. injection H as <- <-. vm_compute. split; reflexivity.
Defined.

(** ** Overrides, whatever the lists *)

Lemma removeFirst_length x l :
  (length l - 1 ≤ length (removeFirst x l) ≤ length l)%nat.
Proof.
  induction l as [|v l IH]; [simpl; lia|].
  cbn [removeFirst]. destruct (String.eqb v x); simpl in *; lia.
Qed.

Lemma removeFirst_elem x l v : v ∈ removeFirst x l → v ∈ l.
Proof.
  induction l as [|w l IH]; [done|].
  cbn [removeFirst]. destruct (String.eqb w x).
  - apply list_elem_of_further.
  - intros [->|H]%elem_of_cons; [apply list_elem_of_here|].
    by apply list_elem_of_further, IH.
Qed.

Lemma removeFirst_filter (keep : string → bool) x l :
  keep x = false →
  List.filter keep (removeFirst x l) = List.filter keep l.
Proof.
  intros Hx. induction l as [|v l IH]; [done|].
  cbn [removeFirst]. destruct (String.eqb v x) eqn:Hv.
  - apply String.eqb_eq in Hv as ->. cbn [List.filter]. by rewrite Hx.
  - cbn [List.filter]. by rewrite IH.
Qed.

Lemma overrideStep_length base cur o :
  (length cur ≤ length (overrideStep base cur o) ≤ length cur + 1)%nat.
Proof.
  unfold overrideStep. rewrite length_app. cbn [length].
  destruct (nonempty _); [|lia].
  pose proof (removeFirst_length (firstMatch (nameOf o) base) cur). lia.
Qed.

Lemma overrideStep_elem base cur o v :
  v ∈ overrideStep base cur o → v ∈ cur ∨ v = o.
Proof.
  unfold overrideStep. intros [H|H]%elem_of_app.
  - left. destruct (nonempty _); [by eapply removeFirst_elem|done].
  - right. by apply list_elem_of_singleton in H.
Qed.

Lemma overrideStep_filter base all cur o :
  In o all →
  List.filter (fun val => negb (matchedBy all val)) (overrideStep base cur o)
  = List.filter (fun val => negb (matchedBy all val)) cur
    ++ List.filter (fun val => negb (matchedBy all val)) [o].
Proof.
  intros Ho. unfold overrideStep. rewrite List.filter_app. f_equal.
  destruct (nonempty (firstMatch (nameOf o) base)) eqn:Hm; [|done].
  apply removeFirst_filter. apply negb_false_iff.
  unfold matchedBy. apply existsb_exists. exists o. split; [done|].
  apply firstMatch_matches. by apply nonempty_true.
Qed.

Lemma fold_overrideStep_facts base all os cur :
  (∀ o, In o os → In o all) →
  let result := fold_left (overrideStep base) os cur in
  (length cur ≤ length result ≤ length cur + length os)%nat ∧
  (∀ v, v ∈ result → v ∈ cur ∨ v ∈ os) ∧
  (∀ o, last os = Some o → last result = Some o) ∧
  List.filter (fun val => negb (matchedBy all val)) result
  = List.filter (fun val => negb (matchedBy all val)) cur
    ++ List.filter (fun val => negb (matchedBy all val)) os.
Proof.
  revert cur. induction os as [|o os IH]; intros cur Hall; cbv zeta.
  - cbn [fold_left length]. rewrite app_nil_r.
    split; [lia|]. split; [by left|]. by split.
  - cbn [fold_left].
    destruct (IH (overrideStep base cur o)) as (Hlen & Helem & Hlast & Hfilter).
    { intros o' Ho'. apply Hall. by right. }
    pose proof (overrideStep_length base cur o) as Hstep.
    split; [cbn [length]; lia|]. split; [|split].
    + intros v [[H| ->]%overrideStep_elem|H]%Helem.
      * by left.
      * right. apply list_elem_of_here.
      * right. by apply list_elem_of_further.
    + intros o'. destruct os as [|o'' os].
      * cbn [last fold_left]. intros [= <-]. unfold overrideStep.
        by rewrite last_snoc.
      * intros Ho'. apply Hlast. by rewrite last_cons_cons in Ho'.
    + rewrite Hfilter, overrideStep_filter by (apply Hall; by left).
      rewrite <-app_assoc. f_equal.
      change (o :: os) with ([o] ++ os). by rewrite List.filter_app.
Qed.

(** X12. What [applyJobOverrides] keeps to, for any two lists: the result
    is never shorter than the base list and grows by one entry per override
    at most; every entry of the result is an entry of the base list or an
    override; the last override is the last entry of the result; and
    without overrides the base list is returned as it is. *)
Theorem applyJobOverrides_bounds base overrides :
  let result := applyJobOverrides base overrides in
  (length base ≤ length result ≤ length base + length overrides)%nat ∧
  (∀ v, v ∈ result → v ∈ base ∨ v ∈ overrides) ∧
  (∀ o, last overrides = Some o → last result = Some o) ∧
  (overrides = [] → result = base).
Proof.
  cbv zeta. unfold applyJobOverrides.
  destruct (fold_overrideStep_facts base overrides overrides base)
    as (Hlen & Helem & Hlast & _); [done|].
  split; [done|]. split; [done|]. split; [done|]. by intros ->.
Qed.

(** X13. Entries that no override names are out of reach of
    [applyJobOverrides]: restricted to the entries that match the name of no
    override, the result is the base list followed by the override list, in
    the same order and with the same repetitions.  In particular such an
    entry of the base list is never dropped. *)
Theorem applyJobOverrides_unmatched base overrides :
  List.filter (fun val => negb (matchedBy overrides val))
    (applyJobOverrides base overrides)
  = List.filter (fun val => negb (matchedBy overrides val)) base
    ++ List.filter (fun val => negb (matchedBy overrides val)) overrides
  ∧ (∀ val, val ∈ base → matchedBy overrides val = false →
       val ∈ applyJobOverrides base overrides).
Proof.
  unfold applyJobOverrides.
  destruct (fold_overrideStep_facts base overrides overrides base)
    as (_ & _ & _ & Hfilter); [done|].
  split; [done|]. intros val Hval Hno.
  assert (Hin : In val (List.filter (fun val => negb (matchedBy overrides val))
                          (fold_left (overrideStep base) overrides base))).
  { rewrite Hfilter. apply in_or_app. left. apply filter_In.
    split; [by apply list_elem_of_In|by rewrite Hno]. }
  apply filter_In in Hin as [Hin _]. by apply list_elem_of_In.
Qed.

Lemma applyJobOverrides_unmatched_witness :
  "--bar=2" ∈ applyJobOverrides ["--foo=1"; "--bar=2"; "--foo=1"]
                ["--foo=3"; "--foo=1"; "--baz"].
Proof.
  apply applyJobOverrides_unmatched.
  - vm_compute. apply (list_elem_of_further _ _ _ (list_elem_of_here _ _)).
  - vm_compute. reflexivity.
Defined.

(** ** Overrides that copy no base entry *)

Lemma firstMatch_In name l :
  firstMatch name l ≠ "" → In (firstMatch name l) l.
Proof.
  induction l as [|val rest IH]; [done|]. rewrite firstMatch_cons.
  destruct (matchesName name val); [by left|]. intros H. right. by apply IH.
Qed.

Lemma removeFirst_sublist x l : sublist (removeFirst x l) l.
Proof.
  induction l as [|v l IH]; [done|]. cbn [removeFirst].
  destruct (String.eqb v x); [by apply sublist_cons|by apply sublist_skip].
Qed.

Lemma fold_overrideStep_survive base os kept processed :
  sublist kept base →
  (∀ o, In o processed → ¬ In o base) →
  (∀ o, In o os → ¬ In o base) →
  ∃ kept', sublist kept' base ∧
    fold_left (overrideStep base) os (kept ++ processed)
    = kept' ++ processed ++ os.
Proof.
  revert kept processed.
  induction os as [|o os IH]; intros kept processed Hkept Hproc Hos.
  - exists kept. by rewrite app_nil_r.
  - cbn [fold_left].
    assert (Hstep : ∃ kept', sublist kept' base ∧
              overrideStep base (kept ++ processed) o
              = kept' ++ processed ++ [o]).
    { unfold overrideStep.
      destruct (nonempty (firstMatch (nameOf o) base)) eqn:Hm;
        [|exists kept; by rewrite <-app_assoc].
      apply nonempty_true, firstMatch_In in Hm.
      destruct (in_dec string_dec (firstMatch (nameOf o) base) kept)
        as [Hin|Hout].
      - exists (removeFirst (firstMatch (nameOf o) base) kept). split.
        + etrans; [apply removeFirst_sublist|done].
        + by rewrite removeFirst_app, <-app_assoc.
      - exists kept. split; [done|].
        rewrite removeFirst_absent, <-app_assoc; [done|].
        intros [H|H]%in_app_or; [done|]. by apply (Hproc _ H). }
    destruct Hstep as (kept' & Hkept' & ->).
    destruct (IH kept' (processed ++ [o])) as (kept'' & Hkept'' & Heq).
    + done.
    + intros o' [H|[<-|[]]]%in_app_or; [by apply Hproc|].
      apply Hos. by left.
    + intros o' H. apply Hos. by right.
    + exists kept''. split; [done|]. by rewrite Heq, <-app_assoc.
Qed.

(** X14. Overrides are matched against the base list as it was on entry,
    never against one another.  When no override is, byte for byte, an
    entry of the base list, all overrides come out, in their order, as the
    tail of the result, after what is left of the base list in its order;
    an override then never displaces an earlier override, even one of the
    same name. *)
Theorem applyJobOverrides_overrides_survive base overrides :
  Forall (fun o => o ∉ base) overrides →
  ∃ kept,
    sublist kept base ∧
    applyJobOverrides base overrides = kept ++ overrides.
Proof.
  intros Hall. unfold applyJobOverrides.
  destruct (fold_overrideStep_survive base overrides base []) as (kept & H & Heq).
  - done.
  - by intros o [].
  - intros o Ho%list_elem_of_In Hb%list_elem_of_In.
    by apply (proj1 (Forall_forall _ _) Hall o Ho).
  - exists kept. split; [done|]. by rewrite app_nil_r in Heq.
Qed.

Lemma applyJobOverrides_overrides_survive_witness :
  ∃ kept,
    sublist kept ["--foo=1"; "--bar=2"; "--foo=1"] ∧
    applyJobOverrides ["--foo=1"; "--bar=2"; "--foo=1"] ["--foo=3"; "--foo=4"]
    = kept ++ ["--foo=3"; "--foo=4"].
Proof.
  apply applyJobOverrides_overrides_survive.
  apply (bool_decide_unpack _). vm_compute. exact I.
Defined.

(** ** A timeout entry without a value *)

Lemma failureOf_Panic {A} (o : Outcome A) e :
  failureOf o = Some (inr e) → o = Panic e.
Proof. destruct o; simpl; congruence. Qed.

Lemma scanTimeout_Panic args e :
  scanTimeout args = Panic e →
  ∃ pre post,
    args = pre ++ "--timeout=" :: post ∧ hasTimeoutEntry pre = false.
Proof.
  induction args as [|arg rest IH]; [done|]. cbn [scanTimeout].
  destruct (HasPrefix arg "--timeout=") eqn:Hpre.
  - destruct (prefix_inv _ _ Hpre) as [u ->].
    unfold slice, len. rewrite length_app_string.
    destruct u as [|c u].
    + intros _. exists [], rest. by rewrite app_nil_r_string.
    + replace (_ && _) with true.
      * simpl. by destruct (Atoi _).
      * symmetry. rewrite !andb_true_iff, !Z.leb_le. cbn [String.length]. lia.
  - intros (pre & post & -> & Hno)%IH. exists (arg :: pre), post.
    split; [done|]. unfold hasTimeoutEntry in *. cbn [existsb].
    by rewrite Hpre, Hno.
Qed.

(** X15. A test suite whose first timeout entry is "--timeout=" and
    nothing more makes compilation panic: the value is cut from byte 10 to
    the byte before the last, which here lies before byte 10.  For a name
    that parses and a job with a schedule, this is the one way
    [forEachJob] panics. *)
Theorem forEachJob_bare_timeout_panics outputDir jobName job config :
  parses jobName = true →
  hasSchedule job = true →
  (∀ pre post,
     TestSuite_Args (suiteOf config jobName) = pre ++ "--timeout=" :: post →
     hasTimeoutEntry pre = false →
     forEachJob outputDir jobName job config = Panic SliceBoundsOutOfRange) ∧
  (∀ e, forEachJob outputDir jobName job config = Panic e →
     e = SliceBoundsOutOfRange ∧
     ∃ pre post,
       TestSuite_Args (suiteOf config jobName) = pre ++ "--timeout=" :: post ∧
       hasTimeoutEntry pre = false).
Proof.
  intros Hp Hs.
  pose proof (forEachJob_parses_failure outputDir jobName job config Hp) as Hf.
  rewrite Hs in Hf.
  assert (Hpanic : ∀ pre post,
    TestSuite_Args (suiteOf config jobName) = pre ++ "--timeout=" :: post →
    hasTimeoutEntry pre = false →
    forEachJob outputDir jobName job config = Panic SliceBoundsOutOfRange).
  { intros pre post Hargs Hpre. apply failureOf_Panic.
    rewrite Hf, Hargs, scanTimeout_first; [done| |done].
    by apply hasTimeoutEntry_false. }
  split; [done|]. intros e He.
  assert (Hscan : ∃ e', scanTimeout (TestSuite_Args (suiteOf config jobName))
                        = Panic e').
  { rewrite He in Hf. simpl in Hf.
    destruct (scanTimeout _) as [t|e'|e']; try done. by exists e'. }
  destruct Hscan as [e' Hscan].
  destruct (scanTimeout_Panic _ _ Hscan) as (pre & post & Hargs & Hpre).
  split; [|by exists pre, post].
  rewrite (Hpanic pre post Hargs Hpre) in He. by injection He.
Qed.

Lemma forEachJob_bare_timeout_panics_witness :
  forEachJob "out" Example.e2eName Example.hourly
    (mkConfigFile ∅ ∅ inhabitant ∅ ∅
       (<["default" := mkTestSuite ["--x=1"; "--timeout="] inhabitant ""]> ∅)
       ∅ ∅ ∅ inhabitant)
  = Panic SliceBoundsOutOfRange.
Proof.
  refine (proj1 (forEachJob_bare_timeout_panics "out" Example.e2eName
                   Example.hourly _ _ _) ["--x=1"] [] _ _).
  - vm_compute. reflexivity.
  - vm_compute. reflexivity.
  - vm_compute. reflexivity.
  - vm_compute. reflexivity.
Defined.

(** ** The hash and its substitution *)

Lemma hexdigit_isLowerHex x : isLowerHex (SHA1.hexdigit x) = true.
Proof.
  unfold SHA1.hexdigit. cbv zeta.
  assert (Hd : 0 ≤ Z.land x 15 < 16).
  { change 15 with (Z.ones 4). rewrite Z.land_ones by lia.
    apply Z.mod_pos_bound. lia. }
  assert (Hcases : ∃ n : nat, (n < 16)%nat ∧ Z.land x 15 = Z.of_nat n).
  { exists (Z.to_nat (Z.land x 15)). lia. }
  destruct Hcases as (n & Hn & ->).
  do 16 (destruct n as [|n]; [vm_compute; reflexivity|]). lia.
Qed.

Lemma allLowerHex_app s t :
  allLowerHex (s +:+ t) = allLowerHex s && allLowerHex t.
Proof.
  induction s as [|c s IH]; [done|].
  rewrite app_cons_string. cbn [allLowerHex]. by rewrite IH, andb_assoc.
Qed.

Lemma hex32_allLowerHex w : allLowerHex (SHA1.hex32 w) = true.
Proof.
  unfold SHA1.hex32. cbn [allLowerHex]. by rewrite !hexdigit_isLowerHex.
Qed.

Lemma getSHA1Hash_allLowerHex data : allLowerHex (getSHA1Hash data) = true.
Proof.
  unfold getSHA1Hash, SHA1.hexdigest.
  destruct (SHA1.sum _) as [[[[a b] c] d] e].
  by rewrite !allLowerHex_app, !hex32_allLowerHex.
Qed.

Lemma allLowerHex_substring n m s :
  allLowerHex s = true → allLowerHex (String.substring n m s) = true.
Proof.
  revert n m. induction s as [|c s IH]; intros n m H.
  - by destruct n, m.
  - cbn [allLowerHex] in H. apply andb_true_iff in H as [Hc Hs].
    destruct n as [|n]; [destruct m as [|m]; [done|]|]; cbn [String.substring].
    + cbn [allLowerHex]. by rewrite Hc, IH.
    + by apply IH.
Qed.

(** X16. The hash of a job name is 40 lower-case hexadecimal digits, and
    what is put in the place of the hash placeholder is ten such digits. *)
Theorem getSHA1Hash_hex data :
  String.length (getSHA1Hash data) = 40%nat ∧
  allLowerHex (getSHA1Hash data) = true ∧
  String.length (String.substring 0 10 (getSHA1Hash data)) = 10%nat ∧
  allLowerHex (String.substring 0 10 (getSHA1Hash data)) = true.
Proof.
  split; [apply getSHA1Hash_length|].
  split; [apply getSHA1Hash_allLowerHex|].
  split; [apply hash_prefix_length|].
  apply allLowerHex_substring, getSHA1Hash_allLowerHex.
Qed.

Lemma prefix_ReplaceAll_tail new n0 n1 rest s t :
  new = String n0 (String n1 rest) →
  isLowerHex n0 = true → isLowerHex n1 = true →
  tailOK t = true →
  String.prefix t s = false →
  String.prefix t (ReplaceAll s placeholder new) = false.
Proof.
  intros -> H0 H1. revert t. induction s as [|c s IH]; intros t Ht Hp; [done|].
  destruct t as [|d t]; [done|].
  unfold ReplaceAll. cbn [ReplaceAll_from].
  cbn [tailOK] in Ht. apply andb_true_iff in Ht as [Ht Ht'].
  apply andb_true_iff in Ht as [_ Hd].
  destruct (String.prefix placeholder (String c s)).
  - rewrite !app_cons_string. cbn [String.prefix].
    destruct (ascii_dec d n0) as [->|]; [|done].
    rewrite H0 in Hd. destruct t as [|e t]; [done|].
    cbn [String.prefix]. destruct (ascii_dec e n1) as [->|]; [|done].
    by rewrite H1 in Hd.
  - cbn [String.prefix] in *. destruct (ascii_dec d c); [|done].
    by apply IH.
Qed.

Lemma Contains_hex_app h s :
  allLowerHex h = true →
  Contains s placeholder = false →
  Contains (h +:+ s) placeholder = false.
Proof.
  intros Hh Hs. induction h as [|a h IH]; [done|].
  cbn [allLowerHex] in Hh. apply andb_true_iff in Hh as [Ha Hh].
  rewrite app_cons_string. cbn [Contains]. rewrite IH by done.
  rewrite orb_false_r. unfold placeholder. cbn [String.prefix].
  destruct (ascii_dec "$" a) as [<-|]; [|done]. by vm_compute in Ha.
Qed.

Lemma ReplaceAll_from_no_placeholder new n0 n1 rest k s :
  new = String n0 (String n1 rest) →
  allLowerHex new = true →
  Contains (ReplaceAll_from k s placeholder new) placeholder = false.
Proof.
  intros Hnew Hhex. revert k. induction s as [|c s IH]; intros k.
  - by destruct k.
  - destruct k as [|k]; cbn [ReplaceAll_from]; [|apply IH].
    destruct (String.prefix placeholder (String c s)) eqn:Hocc.
    + by apply Contains_hex_app.
    + cbn [Contains]. rewrite IH, orb_false_r.
      unfold placeholder in *. cbn [String.prefix] in *.
      destruct (ascii_dec "$" c) as [<-|]; [|done].
      assert (Hn : isLowerHex n0 = true ∧ isLowerHex n1 = true).
      { rewrite Hnew in Hhex. cbn [allLowerHex] in Hhex.
        apply andb_true_iff in Hhex as [? [? _]%andb_true_iff]. done. }
      destruct Hn as [Hn0 Hn1].
      by apply (prefix_ReplaceAll_tail new n0 n1 rest).
Qed.

Lemma substitute_no_placeholder jobName lines line :
  line ∈ substitute jobName lines → Contains line placeholder = false.
Proof.
  unfold substitute. intros (l & -> & _)%list_elem_of_fmap.
  pose proof (hash_prefix_length jobName) as Hlen.
  pose proof (allLowerHex_substring 0 10 _ (getSHA1Hash_allLowerHex jobName))
    as Hhex.
  destruct (String.substring 0 10 (getSHA1Hash jobName))
    as [|n0 [|n1 rest]] eqn:Hnew; try done.
  by apply (ReplaceAll_from_no_placeholder _ n0 n1 rest).
Qed.

(** X17. Substitution leaves no placeholder behind: no line that
    [getArgs] returns contains "${job_name_hash}" (the ten digits put in
    its place cannot combine with the text around them to a new
    placeholder), so substituting twice is substituting once. *)
Theorem getArgs_leaves_no_placeholder jobName args :
  (∀ line, line ∈ getArgs jobName args →
     Contains line "${job_name_hash}" = false) ∧
  getArgs jobName (getArgs jobName args) = getArgs jobName args.
Proof.
  assert (Hno : ∀ line, line ∈ getArgs jobName args →
                  Contains line "${job_name_hash}" = false).
  { intros line. apply substitute_no_placeholder. }
  split; [done|]. apply getArgs_no_placeholder.
  apply forallb_forall. intros line Hline%list_elem_of_In.
  by rewrite (Hno line Hline).
Qed.

Lemma getArgs_leaves_no_placeholder_witness :
  Contains "--cluster=e2e-1789b1211d" "${job_name_hash}" = false.
Proof.
  apply (proj1 (getArgs_leaves_no_placeholder Example.e2eName
                  ["--cluster=e2e-${job_name_hash}"])).
  vm_compute. apply list_elem_of_here.
Defined.

(** X18. No argument of the container of a job of kind e2e contains the
    hash placeholder: every layer and every override has gone through the
    substitution.  (For kind e2enode the arguments of the node version are
    appended as they are.) *)
Theorem forEachJob_e2e_no_placeholder outputDir jobName job config p tg :
  kindOf jobName = Some "e2e" →
  forEachJob outputDir jobName job config = Ok (p, tg) →
  ∀ c arg, c ∈ Containers (Periodic_Spec p) → arg ∈ Container_Args c →
    Contains arg "${job_name_hash}" = false.
Proof.
  intros Hk Hok c arg Hc Harg.
  destruct (forEachJob_e2e_Ok _ _ _ _ _ _ Hk Hok)
    as (t0 & t1 & t3 & t4 & t5 & t6 & p0 & _ & _ & Hp0 & -> & _).
  apply getProwConfig_shared_Ok in Hp0 as (_ & timeout & _ & ->).
  cbn in Hc. apply list_elem_of_singleton in Hc as ->.
  cbn [Container_Args app] in Harg.
  destruct (fold_overrideStep_facts
              (e2eLayers
                 (e2eTestOf jobName job config
                    [t0; t1; "e2e"; t3; t4; t5; t6] t3 t4 t5 t6))
              (getArgs jobName (Job_Args job))
              (getArgs jobName (Job_Args job))
              (e2eLayers
                 (e2eTestOf jobName job config
                    [t0; t1; "e2e"; t3; t4; t5; t6] t3 t4 t5 t6)))
    as (_ & Helem & _); [done|].
  destruct (Helem arg Harg) as [Hl|Ho].
  - unfold e2eLayers in Hl. rewrite <-!getArgs_app in Hl.
    by apply substitute_no_placeholder in Hl.
  - by apply substitute_no_placeholder in Ho.
Qed.

Lemma forEachJob_e2e_no_placeholder_witness :
  ∃ p tg, forEachJob "out" Example.e2eName Example.hourly Example.config
          = Ok (p, tg) ∧
    ∀ c arg, c ∈ Containers (Periodic_Spec p) → arg ∈ Container_Args c →
      Contains arg "${job_name_hash}" = false.
Proof.
  destruct (forEachJob "out" Example.e2eName Example.hourly Example.config)
    as [[p tg]| |] eqn:H; [|vm_compute in H; discriminate H..].
  exists p, tg. split; [reflexivity|].
  exact (forEachJob_e2e_no_placeholder "out" Example.e2eName Example.hourly
           Example.config p tg eq_refl H).
Defined.

(** ** Keys that the configuration lacks *)

Lemma lookup_total_None `{Inhabited A} (m : gmap string A) k :
  m !! k = None → m !!! k = inhabitant.
Proof. intros Hk. by rewrite lookup_total_alt, Hk. Qed.

(** X19. A key of the job name that an axis of the configuration lacks is
    not an error.  A job of kind e2e whose four keys are all unknown still
    compiles when it has a schedule: its container gets the common
    arguments and the job's overrides only, its timeout is "20m", its
    cluster is the job's, and its release dashboard is built from the empty
    version. *)
Theorem forEachJob_e2e_unknown_keys
    outputDir jobName job config t0 t1 t3 t4 t5 t6 :
  Split jobName "-" = [t0; t1; "e2e"; t3; t4; t5; t6] →
  (3 ≤ String.length t5)%nat →
  hasSchedule job = true →
  CloudProviders config !! t3 = None →
  Images config !! t4 = None →
  K8SVersions config !! dropBytes 3 t5 = None →
  TestSuites config !! t6 = None →
  ∃ p tg, forEachJob outputDir jobName job config = Ok (p, tg) ∧
    Container_Args <$> Containers (Periodic_Spec p) =
      [applyJobOverrides
         (getArgs jobName (Common_Args (ConfigFile_Common config)))
         (getArgs jobName (Job_Args job))] ∧
    Timeout (Periodic_DecorationConfig p) = "20m" ∧
    Periodic_Cluster p = Job_Cluster job ∧
    Periodic_Annotations p !! "testgrid-dashboards" =
      Some (primaryDashboard (Job_ReleaseBlocking job)
              (Job_ReleaseInforming job) "").
Proof.
  intros H Hn Hs Hcp Him Hk Hts.
  rewrite (forEachJob_e2e_eq _ _ _ _ _ _ _ _ _ _ H).
  apply Nat.leb_le in Hn. rewrite Hn. cbv zeta.
  rewrite getProwConfig_shared_eq, Hs.
  rewrite (lookup_total_None _ _ Hts).
  change (scanTimeout (TestSuite_Args inhabitant)) with (Ok 0 : Outcome Z).
  eexists _, _. split; [reflexivity|].
  unfold e2eLayers, e2eTestOf, dropBytes in *.
  cbn [E2ETest_JobName E2ETest_Common E2ETest_CloudProvider E2ETest_Image
       E2ETest_K8SVersion E2ETest_TestSuite].
  rewrite (lookup_total_None _ _ Hts), (lookup_total_None _ _ Hcp),
    (lookup_total_None _ _ Him), (lookup_total_None _ _ Hk).
  split; [|split; [|split]].
  - cbn. by rewrite !app_nil_r.
  - reflexivity.
  - cbn. destruct (nonempty (Job_Cluster job)) eqn:Hc; [done|].
    by apply nonempty_false in Hc.
  - cbn [mapContainers Periodic_with_Spec Periodic_with_Annotations
         Periodic_Annotations]. unfold e2eAnnotations.
    rewrite lookup_insert_ne by done. rewrite lookup_insert_eq.
    unfold e2eDashboards, E2ETest_InitializeDashBoardsWithReleaseBlockingInfo,
      primaryDashboard.
    cbn [E2ETest_JobName E2ETest_Common E2ETest_CloudProvider E2ETest_Image
         E2ETest_K8SVersion E2ETest_TestSuite E2ETest_Job].
    cbn. by destruct (Job_ReleaseBlocking job), (Job_ReleaseInforming job).
Qed.

Lemma forEachJob_e2e_unknown_keys_witness :
  ∃ p tg,
    forEachJob "out" "ci-kubernetes-e2e-aws-ubuntu-k8sstable1-serial"
      Example.hourly Example.config = Ok (p, tg) ∧
    Container_Args <$> Containers (Periodic_Spec p) =
      [["--check-leaked-resources"; "--foo=3"; "--cluster=e2e-6beb46b5f8"]] ∧
    Periodic_Annotations p !! "testgrid-dashboards"
      = Some "sig-release--blocking".
Proof.
  destruct (forEachJob_e2e_unknown_keys "out"
              "ci-kubernetes-e2e-aws-ubuntu-k8sstable1-serial"
              Example.hourly Example.config
              "ci" "kubernetes" "aws" "ubuntu" "k8sstable1" "serial")
    as (p & tg & H & Hargs & _ & _ & Hdash).
  - reflexivity.
  - simpl. lia.
  - reflexivity.
  - vm_compute. reflexivity.
  - vm_compute. reflexivity.
  - vm_compute. reflexivity.
  - vm_compute. reflexivity.
  - exists p, tg. split; [exact H|]. rewrite Hargs, Hdash.
    vm_compute. split; reflexivity.
Defined.

(** ** Panics *)

Lemma forEachJob_Panic outputDir jobName job config e :
  forEachJob outputDir jobName job config = Panic e →
  e = SliceBoundsOutOfRange.
Proof.
  intros He.
  destruct (shapeOK jobName) eqn:Hs;
    [|by rewrite forEachJob_nameError in He].
  destruct (parses jobName) eqn:Hp.
  - pose proof (forEachJob_parses_failure outputDir jobName job config Hp)
      as Hf.
    rewrite He in Hf. simpl in Hf. destruct (hasSchedule job); [|done].
    destruct (scanTimeout _) as [t|e'|e'] eqn:Hscan; try done.
    injection Hf as ->.
    destruct (scanTimeout_failure (TestSuite_Args (suiteOf config jobName)))
      as [H|[H|H]]; rewrite Hscan in H; simpl in H; congruence.
  - rewrite forEachJob_short_version in He by done. congruence.
Qed.

Lemma mainLoop_failure_inv outputDir config jobNames acc f :
  failureOf (mainLoop outputDir config jobNames acc) = Some f →
  ∃ jobName, jobName ∈ jobNames ∧
    failureOf (compileJob outputDir config jobName) = Some f.
Proof.
  revert acc. induction jobNames as [|n jobNames IH]; intros acc; [done|].
  rewrite mainLoop_cons, mainLoopBody_eq.
  destruct (compileJob outputDir config n) as [[prow testgrid]|e|e] eqn:Hc.
  - intros (m & Hm & Hf)%IH. exists m. split; [|done].
    by apply list_elem_of_further.
  - intros Hf. exists n. split; [apply list_elem_of_here|]. by rewrite Hc.
  - intros Hf. exists n. split; [apply list_elem_of_here|]. by rewrite Hc.
Qed.

(** X20. No index expression of the generator goes out of range.  Neither
    [forEachJob] nor [main] ever ends in an index-out-of-range panic,
    whatever the job names and the configuration: the fields of a name are
    only indexed after their number is checked, the split of a node
    argument always has a second part, and a periodic job always has its
    one container.  The one panic there is comes from slicing. *)
Theorem generator_never_indexes_out_of_range :
  (∀ outputDir jobName job config e,
     forEachJob outputDir jobName job config = Panic e →
     e = SliceBoundsOutOfRange) ∧
  (∀ outputDir config e,
     main outputDir config = Panic e → e = SliceBoundsOutOfRange).
Proof.
  split; [apply forEachJob_Panic|].
  intros outputDir config e He.
  destruct (mainLoop_failure_inv outputDir config (sortedJobNames config)
              (mkProwConfigFile [], mkTestgridConfig []) (inr e))
    as (jobName & _ & Hf).
  { by rewrite <-main_mainLoop, He. }
  apply failureOf_Panic in Hf. by apply forEachJob_Panic in Hf.
Qed.

Lemma generator_never_indexes_out_of_range_witness :
  ∃ e, forEachJob "out" "ci-kubernetes-e2enode-cos-v1-default"
         Example.nightly Example.config = Panic e
       ∧ e = SliceBoundsOutOfRange.
Proof.
  destruct (forEachJob "out" "ci-kubernetes-e2enode-cos-v1-default"
              Example.nightly Example.config) as [r|e|e] eqn:H;
    [vm_compute in H; discriminate H..|].
  exists e. split; [reflexivity|].
  exact (proj1 generator_never_indexes_out_of_range _ _ _ _ _ H).
Defined.
